(** * Workout Performance Analyzer: a shallow embedding and its properties

    This development embeds [week1/workout_analyzer/workout_analyzer.py]:
    the two dataclasses [WorkoutSet] and [WorkoutSession], and the class
    [WorkoutPerformanceAnalyzer] with its ingestion methods ([load_data],
    [add_workout]) and its queries.

    Modelling decisions.
    - Numbers.  JSON integer literals are loaded by Python as unbounded
      [int]; they are modelled as [Z], exactly.  The fields [weight],
      [rpe] and [total_volume] are annotated [float] in the source; the
      model covers the data whose values are integers.  The only place
      where the code leaves the integers on such data is the true division
      of [get_session_summary], which returns a double: the double nearest
      to the quotient, held by its exact rational value in [Q], or
      [OverflowError] when the quotient is beyond the doubles.  Apart from
      [volume_spec], sums are stated in the order in which the code adds,
      without any law of addition.
    - Strings are [string] (byte strings).  Python compares [str] values by
      code point; on UTF-8 encoded text this is the byte-wise lexicographic
      order, which is [String.compare].
    - Objects.  [WorkoutSession] objects and Python [list] objects live in
      a store and are referred to by address: [add_workout] writes a field
      of the object it is handed, [list.append] and [list.sort] update a
      list object in place, while a comprehension and [sorted] allocate a
      new list object.  Set entries and [sets] lists are never written by
      any method of the class, so they are held by value.
    - Dictionaries built by the queries are insertion-ordered association
      lists, as Python's [dict] is. *)

From Stdlib Require Import ZArith QArith String Ascii List Lia.
From Stdlib Require Import Sorting.Sorted Sorting.Permutation.
From stdpp Require Import base tactics option list.
Import ListNotations.

Local Open Scope string_scope.
Local Open Scope list_scope.

(** * Python builtins over the modelled values *)

Module Py.

(** [sum(xs)]: starts from [0] and adds from left to right.  (From
    version 3.12 on, CPython also compensates the rounding when it sums
    floats; this does not show on integers.) *)
Definition sum (xs : list Z) : Z := fold_left Z.add xs 0%Z.

(** [max(xs, default=d)]: [d] on an empty iterable, otherwise the running
    maximum started at the first element. *)
Definition max_default (xs : list Z) (d : Z) : Z :=
  match xs with
  | [] => d
  | x :: rest => fold_left Z.max rest x
  end.

(** [a <= b] on [str]. *)
Definition str_le (a b : string) : bool := String.leb a b.

(** [min(xs)] and [max(xs)] on a non-empty iterable of [str]; [None]
    stands for the [ValueError] Python raises on an empty one.  Both keep
    the first of several equal candidates. *)
Definition min_str (xs : list string) : option string :=
  match xs with
  | [] => None
  | x :: rest =>
      Some (fold_left (fun m y => if String.ltb y m then y else m) rest x)
  end.

Definition max_str (xs : list string) : option string :=
  match xs with
  | [] => None
  | x :: rest =>
      Some (fold_left (fun m y => if String.ltb m y then y else m) rest x)
  end.

(** [xs[:n]]: the first [n] items for [n >= 0]; for a negative [n] all
    but the last [-n] items. *)
Definition slice_to {A} (xs : list A) (n : Z) : list A :=
  if (0 <=? n)%Z then firstn (Z.to_nat n) xs
  else firstn (length xs - Z.to_nat (- n)) xs.

(** Truth value of an optional [str] argument: [None] and [""] are falsy. *)
Definition truthy (s : option string) : bool :=
  match s with
  | None => false
  | Some s => negb (String.eqb s "")
  end.

(** ** Stable sorting

    [list.sort] and [sorted] are stable, and with [reverse=True] they
    still keep elements with equal keys in their original order.  A
    stable sort is determined by the order it sorts on (see
    [sort_characterised] below), so insertion sort stands for Python's. *)
Section Sort.
Context {A : Type} (le : A -> A -> bool).

Fixpoint insert (x : A) (l : list A) : list A :=
  match l with
  | [] => [x]
  | y :: l' => if le x y then x :: y :: l' else y :: insert x l'
  end.

Fixpoint sort (l : list A) : list A :=
  match l with
  | [] => []
  | x :: l' => insert x (sort l')
  end.
End Sort.

(** ** Dictionaries: insertion-ordered association lists *)
Section Dict.
Context {V : Type}.

Definition dict := list (string * V).

(** [d.get(k)] *)
Fixpoint lookup (d : dict) (k : string) : option V :=
  match d with
  | [] => None
  | (k', v) :: d' => if String.eqb k' k then Some v else lookup d' k
  end.

(** [d.get(k, dflt)] *)
Definition get (d : dict) (k : string) (dflt : V) : V :=
  match lookup d k with Some v => v | None => dflt end.

(** [d[k] = v]: overwrite in place, or append a new key at the end. *)
Fixpoint set (d : dict) (k : string) (v : V) : dict :=
  match d with
  | [] => [(k, v)]
  | (k', v') :: d' =>
      if String.eqb k' k then (k', v) :: d' else (k', v') :: set d' k v
  end.

Definition keys (d : dict) : list string := map fst d.
Definition values (d : dict) : list V := map snd d.
End Dict.
Arguments dict : clear implicits.

End Py.

(** * Data model *)

(** [class WorkoutSet]; [exercise] and [date] are prefixed because
    [WorkoutSession] has fields of the same names. *)
Record WorkoutSet := mkSet {
  set_exercise : string;
  reps : Z;
  weight : Z;
  rpe : Z;
  set_date : string;
  notes : string
}.

(** [class WorkoutSession] *)
Record WorkoutSession := mkSession {
  date : string;
  exercise : string;
  sets : list WorkoutSet;
  total_volume : Z;
  duration_minutes : Z
}.

(** [calculate_total_volume]: [sum(s.reps * s.weight for s in sets)]. *)
Definition calculate_total_volume (sets : list WorkoutSet) : Z :=
  Py.sum (map (fun s => (reps s * weight s)%Z) sets).

(** The specification's total volume: Σ reps × weight, written as the
    recursion on the sequence. *)
Fixpoint volume_spec (sets : list WorkoutSet) : Z :=
  match sets with
  | [] => 0%Z
  | s :: rest => (reps s * weight s + volume_spec rest)%Z
  end.

(** * Results handed back to the caller

    Query results are plain nested mappings and sequences; [VFloat] carries
    a double, by its exact rational value. *)
#[local] Set Warnings "-register-all".

Inductive value :=
| VInt (z : Z)
| VFloat (q : Q)
| VStr (s : string)
| VList (items : list value)
| VDict (entries : list (string * value)).

(** [dataclasses.asdict]: a deep copy of the object into dictionaries, the
    fields in declaration order. *)
Definition asdict_set (s : WorkoutSet) : value :=
  VDict [("exercise", VStr (set_exercise s));
         ("reps", VInt (reps s));
         ("weight", VInt (weight s));
         ("rpe", VInt (rpe s));
         ("date", VStr (set_date s));
         ("notes", VStr (notes s))].

Definition asdict (w : WorkoutSession) : value :=
  VDict [("date", VStr (date w));
         ("exercise", VStr (exercise w));
         ("sets", VList (map asdict_set (sets w)));
         ("total_volume", VInt (total_volume w));
         ("duration_minutes", VInt (duration_minutes w))].

Definition dict_value (d : Py.dict Z) : value :=
  VDict (map (fun kv => (fst kv, VInt (snd kv))) d).

(** * The store *)

Definition addr := nat.

(** Lines printed by [load_data]. *)
Inductive Notice :=
| Loaded (count : nat)
| FileNotFoundNotice (file_path : string)
| InvalidJSONNotice (file_path : string).

Record Store := mkStore {
  sessions : list WorkoutSession;   (* WorkoutSession objects, by address *)
  lists : list (list addr);         (* list objects holding sessions *)
  console : list Notice             (* standard output, oldest first *)
}.

(** The analyzer object: [self.workouts] refers to a list object and is
    never reassigned after [__init__]. *)
Record Analyzer := mkAnalyzer {
  workouts : addr;
  data_file : option string
}.

(** * Computations over the store *)

Inductive Exn :=
| KeyError (key : string)
| IndexError
| ValueError
| ZeroDivisionError
| OverflowError
| FileNotFoundError
| JSONDecodeError.

(** [Stuck] is the only outcome with no Python counterpart: the use of an
    address that refers to no object.  It does not arise while the
    analyzer holds a collection ([holds]): see the run lemmas of the
    queries and [query_untouched]. *)
Inductive Outcome (A : Type) :=
| Return (a : A)
| Raise (e : Exn)
| Stuck.
Arguments Return {A} a.
Arguments Raise {A} e.
Arguments Stuck {A}.

Definition M (A : Type) : Type := Store -> Outcome A * Store.

Definition ret {A} (a : A) : M A := fun st => (Return a, st).
Definition raise {A} (e : Exn) : M A := fun st => (Raise e, st).

Definition bind {A B} (m : M A) (k : A -> M B) : M B :=
  fun st =>
    match m st with
    | (Return a, st') => k a st'
    | (Raise e, st') => (Raise e, st')
    | (Stuck, st') => (Stuck, st')
    end.

Declare Scope py_scope.
Delimit Scope py_scope with py.
Notation "x <- m ;; k" := (bind m (fun x => k))
  (at level 100, m at next level, right associativity) : py_scope.
Notation "m ;;; k" := (bind m (fun _ => k))
  (at level 100, right associativity) : py_scope.
Local Open Scope py_scope.

(** [try: body except ...: handler]: the handler sees the store as the
    body left it. *)
Definition try_except {A} (body : M A) (handler : Exn -> M A) : M A :=
  fun st =>
    match body st with
    | (Raise e, st') => handler e st'
    | r => r
    end.

(** [for x in xs: acc = body(acc, x)] *)
Fixpoint for_each {A B} (xs : list A) (body : B -> A -> M B) (acc : B) : M B :=
  match xs with
  | [] => ret acc
  | x :: rest => acc' <- body acc x ;; for_each rest body acc'
  end.

(** ** Primitive operations on objects *)

(** Reading the fields of the session object at [a]. *)
Definition get_session (a : addr) : M WorkoutSession :=
  fun st =>
    match sessions st !! a with
    | Some w => (Return w, st)
    | None => (Stuck, st)
    end.

(** [WorkoutSession(...)]: a new object. *)
Definition new_session (w : WorkoutSession) : M addr :=
  fun st =>
    (Return (length (sessions st)),
     mkStore (sessions st ++ [w]) (lists st) (console st)).

(** [workout.total_volume = v] *)
Definition set_total_volume (a : addr) (v : Z) : M unit :=
  fun st =>
    match sessions st !! a with
    | Some w =>
        (Return tt,
         mkStore
           (<[a := mkSession (date w) (exercise w) (sets w) v
                             (duration_minutes w)]> (sessions st))
           (lists st) (console st))
    | None => (Stuck, st)
    end.

(** The items of the list object at [l], as an iteration sees them. *)
Definition read_list (l : addr) : M (list addr) :=
  fun st =>
    match lists st !! l with
    | Some xs => (Return xs, st)
    | None => (Stuck, st)
    end.

(** A new list object: [[]], a comprehension, or what [sorted] returns. *)
Definition new_list (xs : list addr) : M addr :=
  fun st =>
    (Return (length (lists st)),
     mkStore (sessions st) (lists st ++ [xs]) (console st)).

(** Replacing the items of the list object at [l], in place. *)
Definition write_list (l : addr) (xs : list addr) : M unit :=
  fun st =>
    match lists st !! l with
    | Some _ =>
        (Return tt, mkStore (sessions st) (<[l := xs]> (lists st)) (console st))
    | None => (Stuck, st)
    end.

(** [lst.append(a)] *)
Definition list_append (l : addr) (a : addr) : M unit :=
  xs <- read_list l ;; write_list l (xs ++ [a]).

(** The sort keys [key(w)] with [key = lambda w: w.date], computed once
    per item before any comparison, as Python does. *)
Fixpoint date_keys (xs : list addr) : M (list (string * addr)) :=
  match xs with
  | [] => ret []
  | a :: rest =>
      w <- get_session a ;;
      tl <- date_keys rest ;;
      ret ((date w, a) :: tl)
  end.

Definition key_le (reverse : bool) (x y : string * addr) : bool :=
  if reverse then Py.str_le (fst y) (fst x) else Py.str_le (fst x) (fst y).

(** [lst.sort(key=lambda w: w.date)]: sorts the list object in place. *)
Definition list_sort_by_date (l : addr) : M unit :=
  xs <- read_list l ;;
  keyed <- date_keys xs ;;
  write_list l (map snd (Py.sort (key_le false) keyed)).

(** [sorted(lst, key=lambda w: w.date, reverse=r)]: a new list object;
    the argument is left as it is. *)
Definition sorted_by_date (l : addr) (reverse : bool) : M addr :=
  xs <- read_list l ;;
  keyed <- date_keys xs ;;
  new_list (map snd (Py.sort (key_le reverse) keyed)).

Definition print (n : Notice) : M unit :=
  fun st => (Return tt, mkStore (sessions st) (lists st) (console st ++ [n])).

(** [[f(w) for w in xs if p(w)]], where [f] may also use the reference
    to [w] itself. *)
Fixpoint comprehension {B} (f : addr -> WorkoutSession -> B)
    (p : WorkoutSession -> bool) (xs : list addr) : M (list B) :=
  match xs with
  | [] => ret []
  | a :: rest =>
      w <- get_session a ;;
      tl <- comprehension f p rest ;;
      ret (if p w then f a w :: tl else tl)
  end.

(** * Ingestion *)

(** ** The input document

    What [json.load] returns for a document of the expected shape: objects
    in which every key may be absent, and a present key holds a value of
    the type the dataclass declares for it. *)
Record JsonSet := mkJsonSet {
  js_exercise : option string;
  js_reps : option Z;
  js_weight : option Z;
  js_rpe : option Z;
  js_date : option string;
  js_notes : option string
}.

Record JsonSession := mkJsonSession {
  jw_date : option string;
  jw_exercise : option string;
  jw_sets : option (list JsonSet);
  jw_duration_minutes : option Z
}.

Record Document := mkDocument {
  doc_sessions : option (list JsonSession)
}.

(** What is found at a path: nothing, text that is not JSON, or a
    document.  (Other failures of [open], such as a directory or a file
    that may not be read, are outside the model; [load_data] does not catch
    them.) *)
Inductive File :=
| Missing
| Malformed
| Parsed (d : Document).

Definition FileSystem := string -> File.

(** [obj[key]] on a JSON object: [KeyError] when the key is absent. *)
Definition subscript {A} (field : option A) (key : string) : M A :=
  match field with
  | Some v => ret v
  | None => raise (KeyError key)
  end.

(** [obj.get(key, dflt)] *)
Definition get_or {A} (field : option A) (dflt : A) : A :=
  match field with
  | Some v => v
  | None => dflt
  end.

(** [json.load(open(file_path))] *)
Definition open_json (fs : FileSystem) (file_path : string) : M Document :=
  match fs file_path with
  | Missing => raise FileNotFoundError
  | Malformed => raise JSONDecodeError
  | Parsed d => ret d
  end.

(** [WorkoutSet(exercise=s['exercise'], ..., notes=s.get('notes', ''))] *)
Definition build_set (s : JsonSet) : M WorkoutSet :=
  e <- subscript (js_exercise s) "exercise" ;;
  r <- subscript (js_reps s) "reps" ;;
  w <- subscript (js_weight s) "weight" ;;
  x <- subscript (js_rpe s) "rpe" ;;
  d <- subscript (js_date s) "date" ;;
  ret (mkSet e r w x d (get_or (js_notes s) "")).

Fixpoint build_sets (ss : list JsonSet) : M (list WorkoutSet) :=
  match ss with
  | [] => ret []
  | s :: rest =>
      x <- build_set s ;;
      tl <- build_sets rest ;;
      ret (x :: tl)
  end.

(** The body of the loop over [data.get('sessions', [])].  The dataclass
    default [total_volume = 0.0] is overwritten right after construction. *)
Definition load_session (self : Analyzer) (session : JsonSession) : M unit :=
  sets <- build_sets (get_or (jw_sets session) []) ;;
  d <- subscript (jw_date session) "date" ;;
  e <- subscript (jw_exercise session) "exercise" ;;
  workout <- new_session
    (mkSession d e sets 0%Z (get_or (jw_duration_minutes session) 0%Z)) ;;
  set_total_volume workout (calculate_total_volume sets) ;;;
  list_append (workouts self) workout.

Definition load_data (self : Analyzer) (fs : FileSystem) (file_path : string)
    : M unit :=
  try_except
    (data <- open_json fs file_path ;;
     for_each (get_or (doc_sessions data) [])
       (fun _ session => load_session self session) tt ;;;
     loaded <- read_list (workouts self) ;;
     print (Loaded (length loaded)))
    (fun e =>
       match e with
       | FileNotFoundError => print (FileNotFoundNotice file_path)
       | JSONDecodeError => print (InvalidJSONNotice file_path)
       | _ => raise e
       end).

(** [add_workout]: writes the field of the object it is given and appends
    that same object. *)
Definition add_workout (self : Analyzer) (workout : addr) : M unit :=
  w <- get_session workout ;;
  set_total_volume workout (calculate_total_volume (sets w)) ;;;
  list_append (workouts self) workout.

(** [__init__] *)
Definition __init__ (fs : FileSystem) (data_file : option string) : M Analyzer :=
  l <- new_list [] ;;
  let self := mkAnalyzer l data_file in
  (if Py.truthy data_file
   then load_data self fs (get_or data_file "")
   else ret tt) ;;;
  ret self.

(** * Queries *)

Definition error_result (message : string) : value :=
  VDict [("error", VStr message)].

(** [workout.exercise != exercise] for an optional [exercise]. *)
Definition differs (name : string) (ex : option string) : bool :=
  match ex with
  | Some e => negb (String.eqb name e)
  | None => true
  end.

Definition max_weight (w : WorkoutSession) : Z :=
  Py.max_default (map weight (sets w)) 0%Z.

Definition get_personal_records (self : Analyzer) (ex : option string)
    : M (Py.dict Z) :=
  ws <- read_list (workouts self) ;;
  prs <- for_each ws
    (fun prs a =>
       workout <- get_session a ;;
       if Py.truthy ex && differs (exercise workout) ex then ret prs
       else
         let current_pr := Py.get prs (exercise workout) 0%Z in
         ret (Py.set prs (exercise workout)
                (Z.max current_pr (max_weight workout))))
    [] ;;
  ret (match ex with
       | Some e => if Py.truthy ex then [(e, Py.get prs e 0%Z)] else prs
       | None => prs
       end).

(** [lst[0]] and [lst[-1]] *)
Definition first_item (xs : list addr) : M addr :=
  match xs with
  | [] => raise IndexError
  | x :: _ => ret x
  end.

Definition last_item (xs : list addr) : M addr :=
  match xs with
  | [] => raise IndexError
  | x :: rest => ret (List.last rest x)
  end.

Definition volume_point (w : WorkoutSession) : value :=
  VDict [("date", VStr (date w)); ("volume", VInt (total_volume w))].

Definition weight_point (w : WorkoutSession) : value :=
  VDict [("date", VStr (date w)); ("weight", VInt (max_weight w))].

Definition calculate_progression (self : Analyzer) (ex : string)
    (window_days : Z) : M value :=
  ws <- read_list (workouts self) ;;
  selected <- comprehension (fun a _ => a)
                (fun w => String.eqb (exercise w) ex) ws ;;
  exercise_workouts <- new_list selected ;;
  items <- read_list exercise_workouts ;;
  match items with
  | [] => ret (error_result ("No data for " ++ ex))
  | _ :: _ =>
      list_sort_by_date exercise_workouts ;;;
      items <- read_list exercise_workouts ;;
      a0 <- first_item items ;;
      first <- get_session a0 ;;
      a1 <- last_item items ;;
      last <- get_session a1 ;;
      series <- for_each items
        (fun acc a =>
           workout <- get_session a ;;
           ret (fst acc ++ [volume_point workout],
                snd acc ++ [weight_point workout]))
        ([], []) ;;
      ret (VDict
             [("exercise", VStr ex);
              ("total_sessions", VInt (Z.of_nat (length items)));
              ("date_range",
                VDict [("start", VStr (date first));
                       ("end", VStr (date last))]);
              ("volume_progression", VList (fst series));
              ("max_weight_progression", VList (snd series))])
  end.

Definition get_volume_by_exercise (self : Analyzer) : M (Py.dict Z) :=
  ws <- read_list (workouts self) ;;
  for_each ws
    (fun volumes a =>
       workout <- get_session a ;;
       let volumes :=
         match Py.lookup volumes (exercise workout) with
         | None => Py.set volumes (exercise workout) 0%Z
         | Some _ => volumes
         end in
       v <- subscript (Py.lookup volumes (exercise workout))
              (exercise workout) ;;
       ret (Py.set volumes (exercise workout) (v + total_volume workout)%Z))
    [].

(** [next((w for w in xs if w.date == d), None)]: stops at the first
    match. *)
Fixpoint next_on_date (xs : list addr) (d : string)
    : M (option WorkoutSession) :=
  match xs with
  | [] => ret None
  | a :: rest =>
      w <- get_session a ;;
      if String.eqb (date w) d then ret (Some w) else next_on_date rest d
  end.

(** ** Doubles

    A finite double is a rational [m * 2 ^ u] with [|m| < 2 ^ 53] and
    [-1074 <= u <= 971].  CPython's [int / int] is correctly rounded: it
    returns the double nearest to the quotient, a tie going to the even
    mantissa, and raises [OverflowError] when that rounding leaves the
    doubles.  (A negative quotient so small that it rounds to zero gives
    [-0.0] in Python; the two zeros, equal in Python, are one value here.) *)

(** The integer nearest to [n / d], for [0 <= n] and [0 < d], a tie going
    to the even one. *)
Definition round_half_even (n d : Z) : Z :=
  let q := (n / d)%Z in
  let r := (n mod d)%Z in
  if (2 * r <? d)%Z then q
  else if (d <? 2 * r)%Z then (q + 1)%Z
  else if Z.even q then q else (q + 1)%Z.

(** [2 ^ e <= n / d], for positive [n] and [d]. *)
Definition pow2_le (e n d : Z) : bool :=
  if (0 <=? e)%Z then (d * 2 ^ e <=? n)%Z else (d <=? n * 2 ^ (- e))%Z.

(** The exponent [e] with [2 ^ e <= n / d < 2 ^ (e + 1)], for positive [n]
    and [d]. *)
Definition binade (n d : Z) : Z :=
  let e0 := (Z.log2 n - Z.log2 d)%Z in
  if pow2_le e0 n d then e0 else (e0 - 1)%Z.

(** The double nearest to [n / d], for positive [n] and [d]: the quotient
    is rounded to a multiple of [2 ^ u], where [u] leaves 53 bits to the
    mantissa and is at least -1074; [None] when the result is not below
    [2 ^ 1024]. *)
Definition nearest_double_pos (n d : Z) : option Q :=
  let u := Z.max (binade n d - 52) (-1074) in
  if (0 <=? u)%Z then
    let v := (round_half_even n (d * 2 ^ u) * 2 ^ u)%Z in
    if (2 ^ 1024 <=? v)%Z then None else Some (inject_Z v)
  else
    Some (Qred (Qmake (round_half_even (n * 2 ^ (- u)) d)
                  (Z.to_pos (2 ^ (- u))))).

Definition nearest_double (q : Q) : option Q :=
  match Qnum q with
  | Z0 => Some 0%Q
  | Zpos n => nearest_double_pos (Zpos n) (Zpos (Qden q))
  | Zneg n => option_map Qopp (nearest_double_pos (Zpos n) (Zpos (Qden q)))
  end.

(** [a / b] on integers: true division. *)
Definition truediv (a b : Z) : M Q :=
  if (b =? 0)%Z then raise ZeroDivisionError
  else
    match nearest_double (inject_Z a / inject_Z b) with
    | Some q => ret q
    | None => raise OverflowError
    end.

Definition get_session_summary (self : Analyzer) (d : string) : M value :=
  ws <- read_list (workouts self) ;;
  found <- next_on_date ws d ;;
  match found with
  | None => ret (error_result ("No workout found on " ++ d))
  | Some session =>
      avg_reps <-
        match sets session with
        | [] => ret (VInt 0%Z)
        | _ :: _ =>
            q <- truediv (Py.sum (map reps (sets session)))
                   (Z.of_nat (length (sets session))) ;;
            ret (VFloat q)
        end ;;
      ret (VDict
             [("date", VStr (date session));
              ("exercise", VStr (exercise session));
              ("total_volume", VInt (total_volume session));
              ("sets_count", VInt (Z.of_nat (length (sets session))));
              ("max_weight", VInt (max_weight session));
              ("avg_reps", avg_reps);
              ("duration_minutes", VInt (duration_minutes session))])
  end.

Definition get_recent_workouts (self : Analyzer) (days : Z)
    : M (list value) :=
  sorted_workouts <- sorted_by_date (workouts self) true ;;
  items <- read_list sorted_workouts ;;
  comprehension (fun _ w => asdict w) (fun _ => true) (Py.slice_to items days).

Definition or_value_error {A} (x : option A) : M A :=
  match x with
  | Some v => ret v
  | None => raise ValueError
  end.

Definition generate_report (self : Analyzer) : M value :=
  ws <- read_list (workouts self) ;;
  match ws with
  | [] => ret (error_result "No workout data available")
  | _ :: _ =>
      prs <- get_personal_records self None ;;
      volumes <- get_volume_by_exercise self ;;
      ws <- read_list (workouts self) ;;
      dates <- comprehension (fun _ w => date w) (fun _ => true) ws ;;
      start <- or_value_error (Py.min_str dates) ;;
      dates' <- comprehension (fun _ w => date w) (fun _ => true) ws ;;
      finish <- or_value_error (Py.max_str dates') ;;
      recent <- get_recent_workouts self 5%Z ;;
      ret (VDict
             [("total_sessions", VInt (Z.of_nat (length ws)));
              ("exercises_tracked", VList (map VStr (Py.keys prs)));
              ("personal_records", dict_value prs);
              ("total_volume_by_exercise", dict_value volumes);
              ("total_volume_overall", VInt (Py.sum (Py.values volumes)));
              ("date_range",
                VDict [("start", VStr start); ("end", VStr finish)]);
              ("recent_workouts", VList recent)])
  end.

(** * The caller

    What a client can do with an analyzer: build session objects of its
    own, hand one to [add_workout] (possibly one it has handed over
    before), load files, and ask the queries.  It does not write to a
    session it has handed over, nor to the sets of one.  An exception or a
    [Stuck] raised by a call ends that call; the store stays as the call
    left it. *)
Inductive Call :=
| NewSession (w : WorkoutSession)
| AddWorkout (workout : addr)
| LoadData (fs : FileSystem) (file_path : string)
| GetPersonalRecords (ex : option string)
| CalculateProgression (ex : string) (window_days : Z)
| GetVolumeByExercise
| GetSessionSummary (d : string)
| GetRecentWorkouts (days : Z)
| GenerateReport.

(** A call made for its effect: the caller drops what it returns and
    goes on after an exception. *)
Definition discard {A} (m : M A) : M unit :=
  fun st =>
    match m st with
    | (Return _, st') => (Return tt, st')
    | (Raise _, st') => (Return tt, st')
    | (Stuck, st') => (Stuck, st')
    end.

Definition perform (self : Analyzer) (c : Call) : M unit :=
  match c with
  | NewSession w => discard (new_session w)
  | AddWorkout a => add_workout self a
  | LoadData fs file_path => load_data self fs file_path
  | GetPersonalRecords ex => discard (get_personal_records self ex)
  | CalculateProgression ex window_days =>
      discard (calculate_progression self ex window_days)
  | GetVolumeByExercise => discard (get_volume_by_exercise self)
  | GetSessionSummary d => discard (get_session_summary self d)
  | GetRecentWorkouts days => discard (get_recent_workouts self days)
  | GenerateReport => discard (generate_report self)
  end.

Definition is_query (c : Call) : bool :=
  match c with
  | NewSession _ | AddWorkout _ | LoadData _ _ => false
  | _ => true
  end.

Definition after (self : Analyzer) (cs : list Call) (st : Store) : Store :=
  fold_left (fun st c => snd (perform self c st)) cs st.

(** * The collection an analyzer holds *)

(** [holds st self ws]: in store [st], [self.workouts] is a list object
    whose items are, in order, session objects with the contents [ws]. *)
Definition holds (st : Store) (self : Analyzer) (ws : list WorkoutSession)
    : Prop :=
  exists xs,
    lists st !! workouts self = Some xs /\
    Forall2 (fun a w => sessions st !! a = Some w) xs ws.

(** A session whose cached [total_volume] is the volume of its sets. *)
Definition consistent (w : WorkoutSession) : Prop :=
  total_volume w = calculate_total_volume (sets w).

(** No object that existed in [st] differs in [st'], and nothing was
    printed: at most new list objects were allocated. *)
Definition untouched (st st' : Store) : Prop :=
  sessions st' = sessions st /\
  console st' = console st /\
  exists fresh, lists st' = lists st ++ fresh.

(** * What the operations compute, as functions of the collection *)

(** The order of [sort(key=lambda w: w.date, reverse=r)] on sessions. *)
Definition date_le (reverse : bool) (a b : WorkoutSession) : bool :=
  if reverse then Py.str_le (date b) (date a) else Py.str_le (date a) (date b).

(** One iteration of the loop of [get_personal_records]. *)
Definition pr_step (ex : option string) (prs : Py.dict Z) (w : WorkoutSession)
    : Py.dict Z :=
  if Py.truthy ex && differs (exercise w) ex then prs
  else Py.set prs (exercise w) (Z.max (Py.get prs (exercise w) 0%Z) (max_weight w)).

(** One iteration of the loop of [get_volume_by_exercise]. *)
Definition volume_step (volumes : Py.dict Z) (w : WorkoutSession) : Py.dict Z :=
  Py.set volumes (exercise w) (Py.get volumes (exercise w) 0%Z + total_volume w)%Z.

(** The weights of all sets of the sessions of exercise [x]. *)
Definition weights_of (x : string) (ws : list WorkoutSession) : list Z :=
  flat_map (fun w => if String.eqb (exercise w) x then map weight (sets w) else [])
    ws.

(** The pure reading of one JSON set and one JSON session: [None] when a
    required key is absent. *)
Definition set_of (s : JsonSet) : option WorkoutSet :=
  match js_exercise s, js_reps s, js_weight s, js_rpe s, js_date s with
  | Some e, Some r, Some w, Some x, Some d =>
      Some (mkSet e r w x d (get_or (js_notes s) ""))
  | _, _, _, _, _ => None
  end.

Fixpoint sets_of (ss : list JsonSet) : option (list WorkoutSet) :=
  match ss with
  | [] => Some []
  | s :: rest =>
      match set_of s, sets_of rest with
      | Some x, Some tl => Some (x :: tl)
      | _, _ => None
      end
  end.

Definition session_of (j : JsonSession) : option WorkoutSession :=
  match sets_of (get_or (jw_sets j) []), jw_date j, jw_exercise j with
  | Some sets, Some d, Some e =>
      Some (mkSession d e sets (calculate_total_volume sets)
              (get_or (jw_duration_minutes j) 0%Z))
  | _, _, _ => None
  end.

Fixpoint sessions_of (js : list JsonSession) : option (list WorkoutSession) :=
  match js with
  | [] => Some []
  | j :: rest =>
      match session_of j, sessions_of rest with
      | Some w, Some tl => Some (w :: tl)
      | _, _ => None
      end
  end.

(** The keys a set record and a session record must carry. *)
Definition required_keys : list string :=
  ["exercise"; "reps"; "weight"; "rpe"; "date"].

(** Reading a field of a result dictionary. *)
Definition field (v : value) (key : string) : option value :=
  match v with
  | VDict entries => Py.lookup entries key
  | _ => None
  end.

(** The mean of the reps of a session that has sets. *)
Definition mean_reps (w : WorkoutSession) : Q :=
  inject_Z (Py.sum (map reps (sets w))) / inject_Z (Z.of_nat (length (sets w))).

(** The [avg_reps] entry of a session summary; [None] when the division
    raises [OverflowError]. *)
Definition avg_reps_of (w : WorkoutSession) : option value :=
  match sets w with
  | [] => Some (VInt 0)
  | _ :: _ => option_map VFloat (nearest_double (mean_reps w))
  end.

(** The result of [calculate_progression] for the selected sessions once
    sorted. *)
Definition progression_of (ex : string) (sorted : list WorkoutSession) : value :=
  match sorted with
  | [] => error_result ("No data for " ++ ex)
  | first :: rest =>
      VDict
        [("exercise", VStr ex);
         ("total_sessions", VInt (Z.of_nat (length sorted)));
         ("date_range",
           VDict [("start", VStr (date first));
                  ("end", VStr (date (List.last rest first)))]);
         ("volume_progression", VList (map volume_point sorted));
         ("max_weight_progression", VList (map weight_point sorted))]
  end.

(** The outcome of [get_session_summary] given what the search found. *)
Definition summary_of (d : string) (found : option WorkoutSession)
    : Outcome value :=
  match found with
  | None => Return (error_result ("No workout found on " ++ d))
  | Some session =>
      match avg_reps_of session with
      | Some avg_reps =>
          Return
            (VDict
               [("date", VStr (date session));
                ("exercise", VStr (exercise session));
                ("total_volume", VInt (total_volume session));
                ("sets_count", VInt (Z.of_nat (length (sets session))));
                ("max_weight", VInt (max_weight session));
                ("avg_reps", avg_reps);
                ("duration_minutes", VInt (duration_minutes session))])
      | None => Raise OverflowError
      end
  end.

(** The report assembled from its parts. *)
Definition report_of (ws : list WorkoutSession) (prs volumes : Py.dict Z)
    (start finish : string) (recent : list value) : value :=
  VDict
    [("total_sessions", VInt (Z.of_nat (length ws)));
     ("exercises_tracked", VList (map VStr (Py.keys prs)));
     ("personal_records", dict_value prs);
     ("total_volume_by_exercise", dict_value volumes);
     ("total_volume_overall", VInt (Py.sum (Py.values volumes)));
     ("date_range", VDict [("start", VStr start); ("end", VStr finish)]);
     ("recent_workouts", VList recent)].

(** A set record, or a session record, that lacks a required key. *)
Definition set_lacks_key (s : JsonSet) : Prop :=
  js_exercise s = None \/ js_reps s = None \/ js_weight s = None \/
  js_rpe s = None \/ js_date s = None.

Definition session_lacks_key (j : JsonSession) : Prop :=
  jw_date j = None \/ jw_exercise j = None \/
  exists s, In s (get_or (jw_sets j) []) /\ set_lacks_key s.

(** The store once the sessions [new] have been built and appended to
    [self.workouts], whose items were [xs]. *)
Definition appended (self : Analyzer) (st : Store) (xs : list addr)
    (new : list WorkoutSession) : Store :=
  mkStore (sessions st ++ new)
    (<[workouts self := xs ++ seq (length (sessions st)) (length new)]>
       (lists st))
    (console st).

(** Every session of the collection is consistent. *)
Definition invariant (self : Analyzer) (st : Store) : Prop :=
  exists ws, holds st self ws /\ List.Forall consistent ws.

(** * Sample data for the worked examples *)

Definition demo_set1 : WorkoutSet := mkSet "Squat" 5 100 8 "2026-01-01" "".
Definition demo_set2 : WorkoutSet := mkSet "Squat" 3 120 9 "2026-01-01" "heavy".
Definition demo_set3 : WorkoutSet := mkSet "Bench" 8 60 7 "2026-01-05" "".

Definition demo_w1 : WorkoutSession :=
  mkSession "2026-01-01" "Squat" [demo_set1; demo_set2] 860 45.
Definition demo_w2 : WorkoutSession :=
  mkSession "2026-01-05" "Bench" [demo_set3] 480 30.
Definition demo_w3 : WorkoutSession :=
  mkSession "2026-01-03" "Squat" [] 0 20.

Definition demo_self : Analyzer := mkAnalyzer 0 None.

Definition demo_store : Store :=
  mkStore [demo_w1; demo_w2; demo_w3] [[0; 1; 2]] [].

(** A document whose second session has a set without "reps". *)
Definition demo_json_set (reps : option Z) : JsonSet :=
  mkJsonSet (Some "Squat") reps (Some 100%Z) (Some 8%Z) (Some "2026-01-01") None.

Definition demo_json_session (d : string) (reps : option Z) : JsonSession :=
  mkJsonSession (Some d) (Some "Squat") (Some [demo_json_set reps]) None.

Definition demo_document : Document :=
  mkDocument
    (Some [demo_json_session "2026-01-01" (Some 5%Z);
           demo_json_session "2026-01-02" None;
           demo_json_session "2026-01-03" (Some 4%Z)]).

Definition demo_fs : FileSystem := fun _ => Parsed demo_document.

Definition empty_store : Store := mkStore [] [[]] [].

(** A store whose only session has a set with more repetitions than
    there are doubles. *)
Definition demo_huge : WorkoutSession :=
  mkSession "2026-02-01" "Squat"
    [mkSet "Squat" (2 ^ 1024) 100 8 "2026-02-01" ""] (2 ^ 1024 * 100) 45.

Definition demo_huge_store : Store := mkStore [demo_huge] [[0]] [].

(** * Further definitions *)

(** The session [add_workout] leaves in the store: the one it was handed,
    with [total_volume] computed afresh. *)
Definition recomputed (w : WorkoutSession) : WorkoutSession :=
  mkSession (date w) (exercise w) (sets w)
    (calculate_total_volume (sets w)) (duration_minutes w).

(** The distinct names of a sequence, each at its first occurrence. *)
Definition first_occurrences (names : list string) : list string :=
  fold_left
    (fun seen x => if existsb (String.eqb x) seen then seen else seen ++ [x])
    names [].

(** The first required key a set record lacks, in the order in which
    [load_data] reads them. *)
Definition missing_set_key (s : JsonSet) : option string :=
  match js_exercise s, js_reps s, js_weight s, js_rpe s, js_date s with
  | None, _, _, _, _ => Some "exercise"
  | _, None, _, _, _ => Some "reps"
  | _, _, None, _, _ => Some "weight"
  | _, _, _, None, _ => Some "rpe"
  | _, _, _, _, None => Some "date"
  | _, _, _, _, _ => None
  end.

(** A document whose records are all complete; no set has "notes" and no
    session has "duration_minutes". *)
Definition demo_complete_document : Document :=
  mkDocument
    (Some [demo_json_session "2026-01-01" (Some 5%Z);
           demo_json_session "2026-01-03" (Some 4%Z)]).

Definition demo_complete_fs : FileSystem :=
  fun _ => Parsed demo_complete_document.

(** Two analyzers in one store: the first holds [demo_w1], the second
    nothing. *)
Definition demo_pair_store : Store := mkStore [demo_w1] [[0]; []] [].
Definition demo_other : Analyzer := mkAnalyzer 1 None.

(** * Theory *)

(** ** The order on strings *)

Lemma str_compare_refl (a : string) : String.compare a a = Eq.
Proof.
  induction a as [|x a IH]; simpl; [reflexivity|].
  unfold Ascii.compare. rewrite N.compare_refl. exact IH.
Qed.

Lemma str_compare_lt_trans (a b c : string) :
  String.compare a b = Lt -> String.compare b c = Lt -> String.compare a c = Lt.
Proof.
  revert b c. induction a as [|x a IH]; intros [|y b] [|z c]; simpl;
    try discriminate; auto.
  unfold Ascii.compare.
  destruct (N.compare_spec (N_of_ascii x) (N_of_ascii y)) as [Hxy|Hxy|Hxy],
           (N.compare_spec (N_of_ascii y) (N_of_ascii z)) as [Hyz|Hyz|Hyz],
           (N.compare_spec (N_of_ascii x) (N_of_ascii z)) as [Hxz|Hxz|Hxz];
    try discriminate; try lia; eauto.
Qed.

Lemma str_le_iff (a b : string) :
  Py.str_le a b = true <-> String.compare a b = Lt \/ a = b.
Proof.
  unfold Py.str_le, String.leb. split.
  - destruct (String.compare a b) eqn:E; try discriminate; auto.
    right. now apply String.compare_eq_iff.
  - intros [->| ->]; [reflexivity|]. now rewrite str_compare_refl.
Qed.

Lemma str_le_refl (a : string) : Py.str_le a a = true.
Proof. apply str_le_iff. now right. Qed.

Lemma str_le_trans (a b c : string) :
  Py.str_le a b = true -> Py.str_le b c = true -> Py.str_le a c = true.
Proof.
  rewrite !str_le_iff. intros [Hab| ->] [Hbc| ->]; auto.
  left. eapply str_compare_lt_trans; eauto.
Qed.

Lemma str_le_total (a b : string) :
  Py.str_le a b = true \/ Py.str_le b a = true.
Proof. apply String.leb_total. Qed.

Lemma str_lt_le (a b : string) :
  String.ltb a b = false -> Py.str_le b a = true.
Proof.
  unfold String.ltb, Py.str_le, String.leb.
  rewrite (String.compare_antisym b a).
  destruct (String.compare a b); simpl; congruence.
Qed.

Lemma str_lt_le' (a b : string) :
  String.ltb a b = true -> Py.str_le a b = true.
Proof.
  unfold String.ltb, Py.str_le, String.leb.
  destruct (String.compare a b); simpl; congruence.
Qed.

(** ** Stable sorting *)

Section SortTheory.
Context {A : Type} (le : A -> A -> bool).

Lemma insert_perm (x : A) (l : list A) : Permutation (Py.insert le x l) (x :: l).
Proof.
  induction l as [|y l IH]; simpl; [reflexivity|].
  destruct (le x y); [reflexivity|].
  rewrite IH. apply perm_swap.
Qed.

Lemma sort_perm (l : list A) : Permutation (Py.sort le l) l.
Proof.
  induction l as [|x l IH]; simpl; [reflexivity|].
  rewrite insert_perm. now constructor.
Qed.

Lemma sort_length (l : list A) : length (Py.sort le l) = length l.
Proof. apply Permutation_length, sort_perm. Qed.

(** Items that the order does not tell apart keep their relative order. *)
Lemma insert_stable (p : A -> bool) (x : A) (l : list A) :
  (forall y, p x = true -> p y = true -> le x y = true) ->
  List.filter p (Py.insert le x l) = List.filter p (x :: l).
Proof.
  intros Hp. induction l as [|y l IH]; [reflexivity|].
  simpl. destruct (le x y) eqn:E; [reflexivity|].
  simpl in *. rewrite IH.
  destruct (p x) eqn:Px; [|reflexivity].
  destruct (p y) eqn:Py; [|reflexivity].
  rewrite (Hp y eq_refl Py) in E. discriminate.
Qed.

Lemma sort_stable (p : A -> bool) (l : list A) :
  (forall x y, p x = true -> p y = true -> le x y = true) ->
  List.filter p (Py.sort le l) = List.filter p l.
Proof.
  intros Hp. induction l as [|x l IH]; [reflexivity|].
  simpl Py.sort. rewrite insert_stable by (intros; now apply Hp).
  simpl. now rewrite IH.
Qed.

Hypothesis le_total : forall x y, le x y = true \/ le y x = true.
Hypothesis le_trans : forall x y z, le x y = true -> le y z = true -> le x z = true.

Lemma insert_sorted (x : A) (l : list A) :
  StronglySorted (fun a b => le a b = true) l ->
  StronglySorted (fun a b => le a b = true) (Py.insert le x l).
Proof.
  induction 1 as [|y l Hs IH Hy]; simpl.
  - repeat constructor.
  - destruct (le x y) eqn:E.
    + constructor; [now constructor|].
      constructor; [exact E|].
      eapply List.Forall_impl; [|exact Hy]. intros z Hz. simpl in Hz. eauto.
    + constructor; [exact IH|].
      eapply Permutation_Forall; [symmetry; apply insert_perm|].
      constructor; [|exact Hy].
      destruct (le_total x y); congruence.
Qed.

Lemma sort_sorted (l : list A) :
  StronglySorted (fun a b => le a b = true) (Py.sort le l).
Proof.
  induction l as [|x l IH]; simpl; [constructor|].
  now apply insert_sorted.
Qed.

(** A stable sort is determined by its order: two sorted arrangements of
    the same items that agree on the relative order of the items the order
    does not tell apart are the same list. *)
Lemma stable_sorted_unique (l1 l2 : list A) :
  Permutation l1 l2 ->
  StronglySorted (fun a b => le a b = true) l1 ->
  StronglySorted (fun a b => le a b = true) l2 ->
  (forall x, List.filter (fun y => le x y && le y x) l1
           = List.filter (fun y => le x y && le y x) l2) ->
  l1 = l2.
Proof.
  revert l2. induction l1 as [|a l1 IH]; intros l2 Hp S1 S2 Hf.
  - apply Permutation_nil in Hp. now subst.
  - destruct l2 as [|b l2].
    { symmetry in Hp. now apply Permutation_nil in Hp. }
    assert (Haa : le a a = true) by (destruct (le_total a a); assumption).
    assert (Hab : le a b = true).
    { apply StronglySorted_inv in S1 as [_ H1].
      assert (Hin : In b (a :: l1)).
      { eapply Permutation_in; [symmetry; exact Hp|now left]. }
      destruct Hin as [->|Hin]; [exact Haa|].
      rewrite List.Forall_forall in H1. now apply H1. }
    assert (Hba : le b a = true).
    { apply StronglySorted_inv in S2 as [_ H2].
      assert (Hin : In a (b :: l2)).
      { eapply Permutation_in; [exact Hp|now left]. }
      destruct Hin as [->|Hin]; [exact Haa|].
      rewrite List.Forall_forall in H2. now apply H2. }
    assert (a = b) as <-.
    { specialize (Hf a). simpl in Hf. rewrite Haa, Hab, Hba in Hf.
      simpl in Hf. congruence. }
    f_equal. apply IH.
    + eapply Permutation_cons_inv; exact Hp.
    + now apply StronglySorted_inv in S1.
    + now apply StronglySorted_inv in S2.
    + intros x. specialize (Hf x). simpl in Hf.
      destruct (le x a && le a x); congruence.
Qed.

(** Hence whatever algorithm sorts stably by [le], Python's among them,
    returns what [Py.sort] returns. *)
Lemma sort_characterised (l l' : list A) :
  Permutation l' l ->
  StronglySorted (fun a b => le a b = true) l' ->
  (forall x, List.filter (fun y => le x y && le y x) l'
           = List.filter (fun y => le x y && le y x) l) ->
  l' = Py.sort le l.
Proof.
  intros Hp Hs Hf. apply stable_sorted_unique.
  - rewrite Hp. symmetry. apply sort_perm.
  - exact Hs.
  - apply sort_sorted.
  - intros x. rewrite Hf. symmetry. apply sort_stable.
    intros a b Ha Hb.
    apply andb_true_iff in Ha as [_ Ha]. apply andb_true_iff in Hb as [Hb _].
    eauto.
Qed.

End SortTheory.

(** Sorting a list of images is sorting by the order pulled back. *)
Lemma sort_map {A B} (le : B -> B -> bool) (f : A -> B) (l : list A) :
  Py.sort le (map f l) = map f (Py.sort (fun x y => le (f x) (f y)) l).
Proof.
  induction l as [|x l IH]; [reflexivity|].
  simpl. rewrite IH. clear IH.
  induction (Py.sort (fun x y => le (f x) (f y)) l) as [|y s IHs];
    [reflexivity|].
  simpl. destruct (le (f x) (f y)); [reflexivity|].
  simpl. now rewrite IHs.
Qed.

(** ** Dictionaries *)

Section DictTheory.
Context {V : Type}.
Implicit Types (d : Py.dict V) (k : string) (v : V).

Lemma lookup_set_eq d k v : Py.lookup (Py.set d k v) k = Some v.
Proof.
  induction d as [|[k' v'] d IH]; simpl.
  - now rewrite String.eqb_refl.
  - destruct (String.eqb k' k) eqn:E; simpl; rewrite E; [reflexivity|exact IH].
Qed.

Lemma lookup_set_ne d k k' v :
  k <> k' -> Py.lookup (Py.set d k v) k' = Py.lookup d k'.
Proof.
  intros Hne. induction d as [|[k0 v0] d IH]; simpl.
  - apply String.eqb_neq in Hne. now rewrite Hne.
  - destruct (String.eqb k0 k) eqn:E; simpl.
    + apply String.eqb_eq in E. subst k0.
      apply String.eqb_neq in Hne. now rewrite Hne.
    + now rewrite IH.
Qed.

Lemma lookup_keys d k : In k (Py.keys d) <-> Py.lookup d k <> None.
Proof.
  induction d as [|[k' v'] d IH]; simpl; [tauto|].
  destruct (String.eqb k' k) eqn:E.
  - apply String.eqb_eq in E. split; [discriminate|auto].
  - apply String.eqb_neq in E. rewrite <- IH. tauto.
Qed.

Lemma keys_set d k v :
  Py.keys (Py.set d k v)
  = match Py.lookup d k with
    | Some _ => Py.keys d
    | None => Py.keys d ++ [k]
    end.
Proof.
  induction d as [|[k' v'] d IH]; simpl; [reflexivity|].
  destruct (String.eqb k' k) eqn:E; simpl; [reflexivity|].
  rewrite IH. now destruct (Py.lookup d k).
Qed.

Lemma keys_set_nodup d k v :
  List.NoDup (Py.keys d) -> List.NoDup (Py.keys (Py.set d k v)).
Proof.
  intros Hd. rewrite keys_set.
  destruct (Py.lookup d k) eqn:E; [exact Hd|].
  apply NoDup_ListNoDup, NoDup_app. split; [now apply NoDup_ListNoDup|]. split.
  - intros x Hx Hk. apply list_elem_of_In in Hx.
    apply list_elem_of_singleton in Hk. subst x.
    apply lookup_keys in Hx. congruence.
  - apply NoDup_singleton.
Qed.

Lemma keys_set_in d k v x :
  In x (Py.keys (Py.set d k v)) <-> x = k \/ In x (Py.keys d).
Proof.
  rewrite keys_set. destruct (Py.lookup d k) eqn:E.
  - split; [auto|]. intros [->|H]; [|exact H].
    apply lookup_keys. congruence.
  - rewrite List.in_app_iff. simpl. intuition.
Qed.

End DictTheory.

(** ** Sums, maxima and minima *)

Lemma fold_add_shift (xs : list Z) (a : Z) :
  fold_left Z.add xs a = (a + fold_left Z.add xs 0)%Z.
Proof.
  revert a. induction xs as [|x xs IH]; intros a; simpl.
  - lia.
  - rewrite (IH (a + x)%Z), (IH (0 + x)%Z). lia.
Qed.

Lemma fold_max_props (l : list Z) (a : Z) :
  (a <= fold_left Z.max l a)%Z /\
  (forall x, In x l -> (x <= fold_left Z.max l a)%Z) /\
  (fold_left Z.max l a = a \/ In (fold_left Z.max l a) l).
Proof.
  revert a. induction l as [|y l IH]; intros a; simpl.
  - split; [lia|]. split; [tauto|]. now left.
  - destruct (IH (Z.max a y)) as (H1 & H2 & H3).
    split; [lia|]. split.
    + intros x [->|Hx]; [lia|auto].
    + destruct H3 as [H3|H3]; [|auto].
      destruct (Z.max_spec a y) as [[_ E]|[_ E]]; rewrite E in *.
      * right. left. now symmetry.
      * now left.
Qed.

Lemma max_default_upper (l : list Z) (d x : Z) :
  In x l -> (x <= Py.max_default l d)%Z.
Proof.
  destruct l as [|y l]; [intros []|].
  simpl. destruct (fold_max_props l y) as (H1 & H2 & _).
  intros [<-|Hx]; auto.
Qed.

Lemma max_default_attained (l : list Z) (d : Z) :
  l <> [] -> In (Py.max_default l d) l.
Proof.
  destruct l as [|y l]; [congruence|]. intros _.
  simpl. destruct (fold_max_props l y) as (_ & _ & [->|H]); auto.
Qed.

Lemma fold_min_props (l : list string) (a : string) :
  let r := fold_left (fun m y => if String.ltb y m then y else m) l a in
  (r = a \/ In r l) /\ Py.str_le r a = true /\
  forall x, In x l -> Py.str_le r x = true.
Proof.
  revert a. induction l as [|y l IH]; intros a; simpl.
  - split; [now left|]. split; [apply str_le_refl|tauto].
  - set (a' := if String.ltb y a then y else a).
    assert (Ha : (a' = a \/ a' = y) /\ Py.str_le a' a = true
                 /\ Py.str_le a' y = true).
    { subst a'. destruct (String.ltb y a) eqn:E.
      - split; [now right|]. split; [now apply str_lt_le'|apply str_le_refl].
      - split; [now left|]. split; [apply str_le_refl|now apply str_lt_le]. }
    destruct Ha as (Ha1 & Ha2 & Ha3).
    destruct (IH a') as (H1 & H2 & H3). split; [|split].
    + destruct H1 as [H1|H1]; [|auto].
      rewrite H1. destruct Ha1 as [->| ->]; auto.
    + eapply str_le_trans; eauto.
    + intros x [<-|Hx]; [|auto]. eapply str_le_trans; eauto.
Qed.

Lemma fold_max_str_props (l : list string) (a : string) :
  let r := fold_left (fun m y => if String.ltb m y then y else m) l a in
  (r = a \/ In r l) /\ Py.str_le a r = true /\
  forall x, In x l -> Py.str_le x r = true.
Proof.
  revert a. induction l as [|y l IH]; intros a; simpl.
  - split; [now left|]. split; [apply str_le_refl|tauto].
  - set (a' := if String.ltb a y then y else a).
    assert (Ha : (a' = a \/ a' = y) /\ Py.str_le a a' = true
                 /\ Py.str_le y a' = true).
    { subst a'. destruct (String.ltb a y) eqn:E.
      - split; [now right|]. split; [now apply str_lt_le'|apply str_le_refl].
      - split; [now left|]. split; [apply str_le_refl|now apply str_lt_le]. }
    destruct Ha as (Ha1 & Ha2 & Ha3).
    destruct (IH a') as (H1 & H2 & H3). split; [|split].
    + destruct H1 as [H1|H1]; [|auto].
      rewrite H1. destruct Ha1 as [->| ->]; auto.
    + eapply str_le_trans; eauto.
    + intros x [<-|Hx]; [|auto]. eapply str_le_trans; eauto.
Qed.

Lemma min_str_spec (l : list string) (m : string) :
  Py.min_str l = Some m ->
  In m l /\ forall x, In x l -> Py.str_le m x = true.
Proof.
  destruct l as [|a l]; [discriminate|]. simpl. intros [= <-].
  destruct (fold_min_props l a) as (H1 & H2 & H3). split.
  - destruct H1 as [->|H1]; auto.
  - intros x [<-|Hx]; auto.
Qed.

Lemma max_str_spec (l : list string) (m : string) :
  Py.max_str l = Some m ->
  In m l /\ forall x, In x l -> Py.str_le x m = true.
Proof.
  destruct l as [|a l]; [discriminate|]. simpl. intros [= <-].
  destruct (fold_max_str_props l a) as (H1 & H2 & H3). split.
  - destruct H1 as [->|H1]; auto.
  - intros x [<-|Hx]; auto.
Qed.

(** ** Running computations *)

Lemma bind_run {A B} (m : M A) (k : A -> M B) (st st' : Store) (a : A) :
  m st = (Return a, st') -> bind m k st = k a st'.
Proof. unfold bind. now intros ->. Qed.

Lemma bind_raise {A B} (m : M A) (k : A -> M B) (st st' : Store) (e : Exn) :
  m st = (Raise e, st') -> bind m k st = (Raise e, st').
Proof. unfold bind. now intros ->. Qed.

Lemma untouched_refl (st : Store) : untouched st st.
Proof.
  split; [reflexivity|]. split; [reflexivity|].
  exists []. now rewrite List.app_nil_r.
Qed.

Lemma untouched_trans (st1 st2 st3 : Store) :
  untouched st1 st2 -> untouched st2 st3 -> untouched st1 st3.
Proof.
  intros (S1 & C1 & f1 & L1) (S2 & C2 & f2 & L2).
  split; [congruence|]. split; [congruence|].
  exists (f1 ++ f2). rewrite L2, L1. now rewrite List.app_assoc.
Qed.

Lemma untouched_alloc (st : Store) (xs : list addr) :
  untouched st (mkStore (sessions st) (lists st ++ [xs]) (console st)).
Proof. split; [reflexivity|]. split; [reflexivity|]. now exists [xs]. Qed.

Lemma untouched_holds (st st' : Store) self ws :
  untouched st st' -> holds st self ws -> holds st' self ws.
Proof.
  intros (S & _ & fresh & L) (xs & Hl & Hs).
  exists xs. rewrite L, S. split; [|exact Hs].
  now apply lookup_app_l_Some.
Qed.

Section Running.
Variable st : Store.

Lemma get_session_run (a : addr) (w : WorkoutSession) :
  sessions st !! a = Some w -> get_session a st = (Return w, st).
Proof. unfold get_session. now intros ->. Qed.

Lemma read_list_run (l : addr) (xs : list addr) :
  lists st !! l = Some xs -> read_list l st = (Return xs, st).
Proof. unfold read_list. now intros ->. Qed.

(** A loop whose body reads the session it is given and updates local
    variables is a fold over the contents of the sessions. *)
Lemma for_each_sessions {B} (body : B -> addr -> M B)
    (g : B -> WorkoutSession -> B) (xs : list addr) (ws : list WorkoutSession) :
  (forall acc a w, sessions st !! a = Some w ->
     body acc a st = (Return (g acc w), st)) ->
  Forall2 (fun a w => sessions st !! a = Some w) xs ws ->
  forall acc, for_each xs body acc st = (Return (fold_left g ws acc), st).
Proof.
  intros Hbody. induction 1 as [|a w xs ws Ha _ IH]; intros acc.
  - reflexivity.
  - cbn [for_each]. rewrite (bind_run _ _ _ _ _ (Hbody acc a w Ha)). apply IH.
Qed.

Lemma comprehension_values {B} (g : WorkoutSession -> B)
    (p : WorkoutSession -> bool) (xs : list addr) (ws : list WorkoutSession) :
  Forall2 (fun a w => sessions st !! a = Some w) xs ws ->
  comprehension (fun _ w => g w) p xs st
  = (Return (map g (List.filter p ws)), st).
Proof.
  induction 1 as [|a w xs ws Ha _ IH]; [reflexivity|].
  cbn [comprehension List.filter].
  rewrite (bind_run _ _ _ _ _ (get_session_run a w Ha)).
  rewrite (bind_run _ _ _ _ _ IH).
  unfold ret. now destruct (p w).
Qed.

Lemma comprehension_addrs (p : WorkoutSession -> bool)
    (xs : list addr) (ws : list WorkoutSession) :
  Forall2 (fun a w => sessions st !! a = Some w) xs ws ->
  exists sel,
    comprehension (fun a _ => a) p xs st = (Return sel, st) /\
    Forall2 (fun a w => sessions st !! a = Some w) sel (List.filter p ws).
Proof.
  induction 1 as [|a w xs ws Ha _ (sel & IH1 & IH2)].
  - exists []. split; [reflexivity|constructor].
  - exists (if p w then a :: sel else sel). split.
    + cbn [comprehension].
      rewrite (bind_run _ _ _ _ _ (get_session_run a w Ha)).
      rewrite (bind_run _ _ _ _ _ IH1). reflexivity.
    + cbn [List.filter]. destruct (p w); [now constructor|exact IH2].
Qed.

Lemma next_on_date_run (d : string) (xs : list addr) (ws : list WorkoutSession) :
  Forall2 (fun a w => sessions st !! a = Some w) xs ws ->
  next_on_date xs d st
  = (Return (List.find (fun w => String.eqb (date w) d) ws), st).
Proof.
  induction 1 as [|a w xs ws Ha _ IH]; [reflexivity|].
  cbn [next_on_date List.find].
  rewrite (bind_run _ _ _ _ _ (get_session_run a w Ha)).
  now destruct (String.eqb (date w) d).
Qed.

(** The items of a list and their contents, side by side. *)
Lemma paired (xs : list addr) (ws : list WorkoutSession) :
  Forall2 (fun a w => sessions st !! a = Some w) xs ws ->
  exists zs : list (addr * WorkoutSession),
    xs = map fst zs /\ ws = map snd zs /\
    List.Forall (fun z => sessions st !! fst z = Some (snd z)) zs.
Proof.
  induction 1 as [|a w xs ws Ha _ (zs & -> & -> & Hz)].
  - exists []. repeat split; constructor.
  - exists ((a, w) :: zs). repeat split. now constructor.
Qed.

Lemma unpaired (zs : list (addr * WorkoutSession)) :
  List.Forall (fun z => sessions st !! fst z = Some (snd z)) zs ->
  Forall2 (fun a w => sessions st !! a = Some w) (map fst zs) (map snd zs).
Proof. induction 1; simpl; now constructor. Qed.

Lemma date_keys_run (zs : list (addr * WorkoutSession)) :
  List.Forall (fun z => sessions st !! fst z = Some (snd z)) zs ->
  date_keys (map fst zs) st
  = (Return (map (fun z => (date (snd z), fst z)) zs), st).
Proof.
  induction 1 as [|[a w] zs Ha _ IH]; [reflexivity|].
  cbn [date_keys map fst snd] in *.
  rewrite (bind_run _ _ _ _ _ (get_session_run a w Ha)).
  rewrite (bind_run _ _ _ _ _ IH). reflexivity.
Qed.

(** Sorting the references by the dates they lead to sorts the sessions. *)
Lemma sorted_keys (reverse : bool) (xs : list addr) (ws : list WorkoutSession) :
  Forall2 (fun a w => sessions st !! a = Some w) xs ws ->
  exists keyed,
    date_keys xs st = (Return keyed, st) /\
    Forall2 (fun a w => sessions st !! a = Some w) (map snd (Py.sort (key_le reverse) keyed))
                    (Py.sort (date_le reverse) ws).
Proof.
  intros H. destruct (paired xs ws H) as (zs & -> & -> & Hz).
  eexists. split; [now apply date_keys_run|].
  rewrite (sort_map (key_le reverse) (fun z => (date (snd z), fst z))).
  rewrite (sort_map (date_le reverse) snd).
  rewrite List.map_map. simpl.
  apply unpaired.
  eapply Permutation_Forall; [|exact Hz].
  symmetry. apply sort_perm.
Qed.

End Running.

(** ** Personal records *)

Lemma get_personal_records_run st self ws (ex : option string) :
  holds st self ws ->
  get_personal_records self ex st
  = (Return (let prs := fold_left (pr_step ex) ws [] in
             match ex with
             | Some e => if Py.truthy ex then [(e, Py.get prs e 0%Z)] else prs
             | None => prs
             end), st).
Proof.
  intros (xs & Hl & Hs). unfold get_personal_records.
  rewrite (bind_run _ _ _ _ _ (read_list_run st _ _ Hl)).
  erewrite bind_run; [reflexivity|].
  apply for_each_sessions; [|exact Hs].
  intros acc a w Ha.
  rewrite (bind_run _ _ _ _ _ (get_session_run st a w Ha)).
  unfold pr_step. now destruct (Py.truthy ex && differs (exercise w) ex).
Qed.

Lemma get_set_eq {V} (d : Py.dict V) k v dflt : Py.get (Py.set d k v) k dflt = v.
Proof. unfold Py.get. now rewrite lookup_set_eq. Qed.

Lemma get_set_ne {V} (d : Py.dict V) k k' v dflt :
  k <> k' -> Py.get (Py.set d k v) k' dflt = Py.get d k' dflt.
Proof. intros H. unfold Py.get. now rewrite lookup_set_ne. Qed.

Lemma pr_step_unfiltered (prs : Py.dict Z) (w : WorkoutSession) :
  pr_step None prs w
  = Py.set prs (exercise w)
      (Z.max (Py.get prs (exercise w) 0%Z) (max_weight w)).
Proof. reflexivity. Qed.

(** The entry of [x] after the loop: untouched when no session is for
    [x], otherwise the running maximum, started from the entry found (or
    0), of the per-session maxima. *)
Lemma pr_lookup (ws : list WorkoutSession) (prs : Py.dict Z) (x : string) :
  Py.lookup (fold_left (pr_step None) ws prs) x
  = match List.filter (fun w => String.eqb (exercise w) x) ws with
    | [] => Py.lookup prs x
    | sel => Some (fold_left Z.max (map max_weight sel) (Py.get prs x 0%Z))
    end.
Proof.
  revert prs. induction ws as [|w ws IH]; intros prs; [reflexivity|].
  cbn [fold_left List.filter]. rewrite IH, pr_step_unfiltered. clear IH.
  destruct (String.eqb (exercise w) x) eqn:E.
  - apply String.eqb_eq in E. subst x.
    rewrite lookup_set_eq, get_set_eq.
    now destruct (List.filter _ ws).
  - apply String.eqb_neq in E.
    rewrite (lookup_set_ne _ _ _ _ E), (get_set_ne _ _ _ _ _ E).
    reflexivity.
Qed.
Lemma pr_keys (ws : list WorkoutSession) (prs : Py.dict Z) :
  List.NoDup (Py.keys prs) ->
  List.NoDup (Py.keys (fold_left (pr_step None) ws prs)) /\
  forall x, In x (Py.keys (fold_left (pr_step None) ws prs)) <->
            In x (Py.keys prs) \/ exists w, In w ws /\ exercise w = x.
Proof.
  revert prs. induction ws as [|w ws IH]; intros prs Hd.
  - split; [exact Hd|]. intros x. simpl. split; [auto|].
    intros [H|(w & [] & _)]. exact H.
  - cbn [fold_left].
    destruct (IH (pr_step None prs w)) as [H1 H2].
    { unfold pr_step. simpl. now apply keys_set_nodup. }
    split; [exact H1|]. intros x. rewrite H2.
    unfold pr_step. simpl. rewrite keys_set_in. split.
    + intros [[->|H]|(w' & Hw' & E)].
      * right. exists w. split; [now left|reflexivity].
      * now left.
      * right. exists w'. split; [now right|exact E].
    + intros [H|(w' & [<-|Hw'] & E)].
      * left. now right.
      * left. now left.
      * right. now exists w'.
Qed.

Lemma weights_of_in (x : string) (ws : list WorkoutSession) (z : Z) :
  In z (weights_of x ws) <->
  exists w s, In w ws /\ exercise w = x /\ In s (sets w) /\ weight s = z.
Proof.
  unfold weights_of. rewrite List.in_flat_map. split.
  - intros (w & Hw & Hz). destruct (String.eqb (exercise w) x) eqn:E; [|easy].
    apply String.eqb_eq in E. apply List.in_map_iff in Hz as (s & Hs & Hin).
    now exists w, s.
  - intros (w & s & Hw & E & Hs & Hz). exists w. split; [exact Hw|].
    subst x. rewrite String.eqb_refl. apply List.in_map_iff. now exists s.
Qed.

Lemma max_weight_upper (w : WorkoutSession) (s : WorkoutSet) :
  In s (sets w) -> (weight s <= max_weight w)%Z.
Proof. intros H. apply max_default_upper. now apply List.in_map. Qed.

Lemma max_weight_cases (w : WorkoutSession) :
  (sets w = [] /\ max_weight w = 0%Z) \/
  (exists s, In s (sets w) /\ weight s = max_weight w).
Proof.
  unfold max_weight. destruct (sets w) as [|s l] eqn:E; [now left|].
  right. rewrite <- E.
  assert (H : map weight (sets w) <> []) by (rewrite E; discriminate).
  apply (max_default_attained _ 0%Z), List.in_map_iff in H as (s' & H1 & H2).
  now exists s'.
Qed.


(** C4: with no filter, [get_personal_records] returns one entry per
    distinct exercise name present in the collection; the value of an entry
    is at least every set weight recorded for that exercise (sets counting
    for the exercise of their session) and is 0 or one of those weights;
    weights being non-negative, as the data model has them, it is the
    maximum of those weights: one of them, or 0 when the sessions of that
    exercise have no sets. *)
Theorem personal_records_unfiltered st self ws :
  holds st self ws ->
  exists prs,
    get_personal_records self None st = (Return prs, st) /\
    List.NoDup (Py.keys prs) /\
    (forall x, In x (Py.keys prs) <-> exists w, In w ws /\ exercise w = x) /\
    (forall x v, Py.lookup prs x = Some v ->
       (forall z, In z (weights_of x ws) -> (z <= v)%Z) /\
       (v = 0%Z \/ In v (weights_of x ws)) /\
       ((forall z, In z (weights_of x ws) -> (0 <= z)%Z) ->
        match weights_of x ws with
        | [] => v = 0%Z
        | _ :: _ => In v (weights_of x ws)
        end)).
Proof.
  intros H. exists (fold_left (pr_step None) ws []).
  split; [apply (get_personal_records_run st self ws None H)|].
  destruct (pr_keys ws [] (List.NoDup_nil _)) as [Hd Hk].
  split; [exact Hd|]. split.
  { intros x. rewrite Hk. simpl. tauto. }
  intros x v Hv. rewrite pr_lookup in Hv.
  set (sel := List.filter (fun w => String.eqb (exercise w) x) ws) in *.
  assert (Hsel : forall w, In w sel <-> In w ws /\ exercise w = x).
  { intros w. subst sel. rewrite List.filter_In, String.eqb_eq. tauto. }
  assert (Hv' : v = fold_left Z.max (map max_weight sel) 0%Z).
  { destruct sel; [discriminate|]. now injection Hv as <-. }
  clear Hv.
  destruct (fold_max_props (map max_weight sel) 0%Z) as (H0 & Hub & Hat).
  rewrite <- Hv' in H0, Hub, Hat.
  assert (UB : forall z, In z (weights_of x ws) -> (z <= v)%Z).
  { intros z Hz. apply weights_of_in in Hz as (w & s & Hw & E & Hs & <-).
    etransitivity; [apply (max_weight_upper w s Hs)|].
    apply Hub, List.in_map, Hsel. now split. }
  split; [exact UB|].
  assert (Hcases : v = 0%Z \/ In v (weights_of x ws)).
  { destruct Hat as [Hat|Hat]; [now left|].
    apply List.in_map_iff in Hat as (w & Hmw & Hw).
    apply Hsel in Hw as [Hw E].
    destruct (max_weight_cases w) as [[_ Hz]|(s & Hs & Hz)].
    - left. congruence.
    - right. apply weights_of_in. exists w, s. repeat split; auto. congruence. }
  split; [exact Hcases|]. intros Hnn.
  destruct (weights_of x ws) as [|z l] eqn:Ew.
  - destruct Hcases as [Hc|[]]. exact Hc.
  - destruct Hcases as [Hc|Hc]; [|exact Hc].
    left. specialize (UB z (or_introl eq_refl)).
    specialize (Hnn z (or_introl eq_refl)). lia.
Qed.

(** ** Progression *)

Lemma new_list_run st (xs : list addr) :
  new_list xs st
  = (Return (length (lists st)),
     mkStore (sessions st) (lists st ++ [xs]) (console st)).
Proof. reflexivity. Qed.

Lemma write_list_run st (l : addr) (old xs : list addr) :
  lists st !! l = Some old ->
  write_list l xs st
  = (Return tt, mkStore (sessions st) (<[l := xs]> (lists st)) (console st)).
Proof. unfold write_list. now intros ->. Qed.

Lemma insert_fresh {A} (l : list A) (x y : A) :
  <[length l := y]> (l ++ [x]) = l ++ [y].
Proof.
  rewrite insert_app_r_alt by lia. now rewrite Nat.sub_diag.
Qed.

Lemma last_shift {A} (l : list A) (x d : A) :
  List.last (x :: l) d = List.last l x.
Proof.
  revert x d. induction l as [|y l IH]; intros x d; [reflexivity|].
  change (List.last (x :: y :: l) d) with (List.last (y :: l) d).
  now rewrite !IH.
Qed.

Lemma last_item_run st (a : addr) (w : WorkoutSession) xs ws :
  Forall2 (fun a w => sessions st !! a = Some w) (a :: xs) (w :: ws) ->
  last_item (a :: xs) st = (Return (List.last xs a), st) /\
  sessions st !! List.last xs a = Some (List.last ws w).
Proof.
  intros H. split; [reflexivity|].
  apply Forall2_cons_1 in H as [Ha H].
  revert a w Ha. induction H as [|b v xs ws Hb _ IH]; intros a w Ha.
  - exact Ha.
  - rewrite !last_shift. now apply IH.
Qed.

Lemma series_fold (ws : list WorkoutSession) (vs ms : list value) :
  fold_left (fun acc w => (fst acc ++ [volume_point w],
                           snd acc ++ [weight_point w])) ws (vs, ms)
  = (vs ++ map volume_point ws, ms ++ map weight_point ws).
Proof.
  revert vs ms. induction ws as [|w ws IH]; intros vs ms; simpl.
  - now rewrite !List.app_nil_r.
  - rewrite IH. now rewrite <- !List.app_assoc.
Qed.

Lemma calculate_progression_run st self ws (ex : string) (window_days : Z) :
  holds st self ws ->
  exists st',
    untouched st st' /\
    calculate_progression self ex window_days st
    = (Return (progression_of ex
                 (Py.sort (date_le false)
                    (List.filter (fun w => String.eqb (exercise w) ex) ws))),
       st').
Proof.
  intros (xs & Hl & Hs). unfold calculate_progression.
  rewrite (bind_run _ _ _ _ _ (read_list_run st _ _ Hl)).
  destruct (comprehension_addrs st (fun w => String.eqb (exercise w) ex)
              xs ws Hs) as (sel & Hc & Hsel).
  rewrite (bind_run _ _ _ _ _ Hc).
  rewrite (bind_run _ _ _ _ _ (new_list_run st sel)).
  set (st1 := mkStore (sessions st) (lists st ++ [sel]) (console st)).
  assert (Hl1 : lists st1 !! length (lists st) = Some sel)
    by apply list_lookup_middle, eq_refl.
  rewrite (bind_run _ _ _ _ _ (read_list_run st1 _ _ Hl1)).
  destruct sel as [|a sel].
  { inversion Hsel as [E1 E2|]. exists st1.
    split; [apply untouched_alloc|reflexivity]. }
  destruct (sorted_keys st1 false _ _ Hsel) as (keyed & Hk & Hsorted).
  set (ys := map snd (Py.sort (key_le false) keyed)) in *.
  set (st2 := mkStore (sessions st) (lists st ++ [ys]) (console st)).
  assert (Hsort : list_sort_by_date (length (lists st)) st1 = (Return tt, st2)).
  { unfold list_sort_by_date.
    rewrite (bind_run _ _ _ _ _ (read_list_run st1 _ _ Hl1)).
    rewrite (bind_run _ _ _ _ _ Hk).
    rewrite (write_list_run st1 _ _ _ Hl1). unfold st1, st2. simpl.
    now rewrite insert_fresh. }
  rewrite (bind_run _ _ _ _ _ Hsort).
  assert (Hl2 : lists st2 !! length (lists st) = Some ys)
    by apply list_lookup_middle, eq_refl.
  rewrite (bind_run _ _ _ _ _ (read_list_run st2 _ _ Hl2)).
  exists st2. split.
  { split; [reflexivity|]. split; [reflexivity|]. now exists [ys]. }
  change (sessions st1) with (sessions st2) in Hsorted.
  remember (Py.sort (date_le false)
              (List.filter (fun w => String.eqb (exercise w) ex) ws)) as ss.
  destruct Hsorted as [|a0 first ys' rest Ha0 Hrest].
  { exfalso. assert (L := sort_length (date_le false)
      (List.filter (fun w => String.eqb (exercise w) ex) ws)).
    rewrite <- Heqss in L. apply Forall2_length in Hsel.
    rewrite <- Hsel in L. discriminate. }
  assert (Hall : Forall2 (fun a w => sessions st2 !! a = Some w)
                   (a0 :: ys') (first :: rest)) by now constructor.
  cbn [first_item]. rewrite (bind_run _ _ _ _ _ (eq_refl : ret a0 st2 = _)).
  rewrite (bind_run _ _ _ _ _ (get_session_run st2 a0 first Ha0)).
  destruct (last_item_run st2 _ _ _ _ Hall) as (Hlast & Ha1).
  rewrite (bind_run _ _ _ _ _ Hlast).
  rewrite (bind_run _ _ _ _ _ (get_session_run st2 _ _ Ha1)).
  erewrite bind_run.
  2:{ apply (for_each_sessions st2) with (ws := first :: rest);
        [|exact Hall].
      intros acc b w Hb.
      rewrite (bind_run _ _ _ _ _ (get_session_run st2 b w Hb)).
      reflexivity. }
  rewrite series_fold. unfold ret, progression_of.
  apply Forall2_length in Hall. now rewrite Hall.
Qed.

Lemma date_le_total (r : bool) (a b : WorkoutSession) :
  date_le r a b = true \/ date_le r b a = true.
Proof. unfold date_le. destruct r; apply str_le_total. Qed.

Lemma date_le_trans (r : bool) (a b c : WorkoutSession) :
  date_le r a b = true -> date_le r b c = true -> date_le r a c = true.
Proof.
  unfold date_le. destruct r; intros H1 H2; eapply str_le_trans; eauto.
Qed.

Lemma date_le_same (r : bool) (d : string) (a b : WorkoutSession) :
  String.eqb (date a) d = true -> String.eqb (date b) d = true ->
  date_le r a b = true.
Proof.
  rewrite !String.eqb_eq. unfold date_le. intros -> ->.
  destruct r; apply str_le_refl.
Qed.

(** C5: without a session for the exercise, [calculate_progression]
    returns an error-shaped result that has no "volume_progression" key;
    otherwise it returns the number of the exercise's sessions, the first
    and last date of those sessions sorted ascending by date as strings
    (sessions of one date staying in collection order), and the two series
    with one point per session, in sorted order: the date with the
    session's volume, and the date with the session's maximum set weight,
    which is 0 for a session without sets. *)
Theorem calculate_progression_correct st self ws (ex : string) (window_days : Z) :
  holds st self ws ->
  exists result st',
    calculate_progression self ex window_days st = (Return result, st') /\
    match List.filter (fun w => String.eqb (exercise w) ex) ws with
    | [] =>
        result = VDict [("error", VStr ("No data for " ++ ex))] /\
        field result "error" = Some (VStr ("No data for " ++ ex)) /\
        field result "volume_progression" = None
    | selected =>
        exists first rest,
          Py.sort (date_le false) selected = first :: rest /\
          Permutation (first :: rest) selected /\
          StronglySorted (fun a b => Py.str_le (date a) (date b) = true)
            (first :: rest) /\
          (forall d,
             List.filter (fun w => String.eqb (date w) d) (first :: rest)
             = List.filter (fun w => String.eqb (date w) d) selected) /\
          result =
            VDict
              [("exercise", VStr ex);
               ("total_sessions", VInt (Z.of_nat (length selected)));
               ("date_range",
                 VDict [("start", VStr (date first));
                        ("end", VStr (date (List.last rest first)))]);
               ("volume_progression",
                 VList
                   (map (fun w =>
                           VDict [("date", VStr (date w));
                                  ("volume", VInt (total_volume w))])
                      (first :: rest)));
               ("max_weight_progression",
                 VList
                   (map (fun w =>
                           VDict [("date", VStr (date w));
                                  ("weight", VInt (max_weight w))])
                      (first :: rest)))] /\
          (forall w, In w (first :: rest) ->
             (sets w = [] -> max_weight w = 0%Z) /\
             (forall s, In s (sets w) -> (weight s <= max_weight w)%Z) /\
             (sets w <> [] ->
              exists s, In s (sets w) /\ weight s = max_weight w))
    end.
Proof.
  intros H.
  destruct (calculate_progression_run st self ws ex window_days H)
    as (st' & _ & Hrun).
  eexists _, st'. split; [exact Hrun|].
  set (selected := List.filter (fun w => String.eqb (exercise w) ex) ws).
  destruct selected as [|w sel] eqn:E.
  - repeat split; reflexivity.
  - rewrite <- E.
    pose proof (sort_perm (date_le false) selected) as Hp.
    pose proof (sort_sorted (date_le false) (date_le_total false)
                  (date_le_trans false) selected) as Hs.
    pose proof (sort_length (date_le false) selected) as Hlen.
    assert (Hst : forall d,
      List.filter (fun w => String.eqb (date w) d)
        (Py.sort (date_le false) selected)
      = List.filter (fun w => String.eqb (date w) d) selected).
    { intros d. apply sort_stable. intros x y. apply date_le_same. }
    destruct (Py.sort (date_le false) selected) as [|first rest] eqn:Es.
    { rewrite E in Hlen. discriminate. }
    exists first, rest.
    split; [exact Es|]. split; [exact Hp|]. split; [exact Hs|].
    split; [exact Hst|]. split.
    + unfold progression_of. now rewrite Hlen.
    + intros v _. split; [|split].
      * intros Ev. unfold max_weight. now rewrite Ev.
      * apply max_weight_upper.
      * intros Hne. destruct (max_weight_cases v) as [[Ev _]|Hv];
          [congruence|exact Hv].
Qed.

(** C6: the [window_days] argument of [calculate_progression] has no
    effect on what it returns nor on the store it leaves. *)
Theorem window_days_has_no_effect (self : Analyzer) (ex : string) (w1 w2 : Z) :
  calculate_progression self ex w1 = calculate_progression self ex w2 /\
  forall st,
    fst (calculate_progression self ex w1 st)
    = fst (calculate_progression self ex w2 st).
Proof.
  assert (E : calculate_progression self ex w1 = calculate_progression self ex w2).
  { unfold calculate_progression. reflexivity. }
  split; [exact E|]. intros st. now rewrite E.
Qed.

(** ** Session summary *)

Lemma get_session_summary_run st self ws (d : string) :
  holds st self ws ->
  get_session_summary self d st
  = (summary_of d (List.find (fun w => String.eqb (date w) d) ws), st).
Proof.
  intros (xs & Hl & Hs). unfold get_session_summary.
  rewrite (bind_run _ _ _ _ _ (read_list_run st _ _ Hl)).
  rewrite (bind_run _ _ _ _ _ (next_on_date_run st d xs ws Hs)).
  destruct (List.find _ ws) as [session|]; [|reflexivity].
  unfold summary_of, avg_reps_of, mean_reps.
  destruct (sets session) as [|s l]; [reflexivity|].
  unfold truediv.
  replace (Z.of_nat (length (s :: l)) =? 0)%Z with false
    by (symmetry; apply Z.eqb_neq; simpl length; lia).
  unfold bind.
  now destruct (nearest_double _).
Qed.

(** What [int / int] gives on some quotients: 1/3, 2/3, 10/3 and 1/10 as
    Python prints them (0.3333333333333333, 0.6666666666666666,
    3.3333333333333335, 0.1), a negative quotient, the two ties next to
    [2 ^ 53], the largest double and the first quotient that overflows,
    and the smallest doubles. *)
Lemma nearest_double_examples :
  nearest_double (1 # 3) = Some (6004799503160661 # 18014398509481984) /\
  nearest_double (2 # 3) = Some (6004799503160661 # 9007199254740992) /\
  nearest_double (10 # 3) = Some (7505999378950827 # 2251799813685248) /\
  nearest_double (1 # 10) = Some (3602879701896397 # 36028797018963968) /\
  nearest_double (-7 # 2) = Some (-7 # 2) /\
  nearest_double (inject_Z (2 ^ 53 + 1)) = Some (inject_Z (2 ^ 53)) /\
  nearest_double (inject_Z (2 ^ 53 + 3)) = Some (inject_Z (2 ^ 53 + 4)) /\
  nearest_double (inject_Z (2 ^ 1024 - 2 ^ 970 - 1))
    = Some (inject_Z (2 ^ 1024 - 2 ^ 971)) /\
  nearest_double (inject_Z (2 ^ 1024 - 2 ^ 970)) = None /\
  nearest_double (1 # Z.to_pos (2 ^ 1074)) = Some (1 # Z.to_pos (2 ^ 1074)) /\
  nearest_double (3 # Z.to_pos (2 ^ 1075)) = Some (1 # Z.to_pos (2 ^ 1073)) /\
  nearest_double (1 # Z.to_pos (2 ^ 1075)) = Some 0%Q.
Proof. repeat split; vm_compute; reflexivity. Qed.

(** [find] returns the first item that passes the test. *)
Lemma find_first {A} (p : A -> bool) (before after : list A) (x : A) :
  (forall y, In y before -> p y = false) -> p x = true ->
  List.find p (before ++ x :: after) = Some x.
Proof.
  intros Hb Hx. induction before as [|y before IH]; simpl.
  - now rewrite Hx.
  - rewrite (Hb y (or_introl eq_refl)). apply IH.
    intros z Hz. apply Hb. now right.
Qed.

Lemma find_none {A} (p : A -> bool) (l : list A) :
  (forall y, In y l -> p y = false) -> List.find p l = None.
Proof.
  intros H. induction l as [|y l IH]; [reflexivity|]. simpl.
  rewrite (H y (or_introl eq_refl)). apply IH. intros z Hz. apply H. now right.
Qed.

(** C7, as the code has it: [get_session_summary] returns an error
    indicator when no session has the date; otherwise it describes the
    first session of the collection with that date: date, exercise, total
    volume, set count, maximum set weight (0 without sets), average reps
    and duration.  The average is 0 without sets (no division then) and
    otherwise the double nearest to the mean of the reps, unless that mean
    is beyond the doubles: then [OverflowError] is raised.  A session with
    the sets (reps 5, weight 100) and (reps 3, weight 120) gives total
    volume 860, maximum weight 120, average reps 4.0 and set count 2; reps
    3, 3 and 4 give the average 3.3333333333333335. *)
Theorem get_session_summary_correct st self ws (d : string) :
  holds st self ws ->
  exists outcome,
    get_session_summary self d st = (outcome, st) /\
    ((forall w, In w ws -> date w <> d) ->
       outcome
       = Return (VDict [("error", VStr ("No workout found on " ++ d))])) /\
    (forall before session after,
       ws = before ++ session :: after ->
       (forall w, In w before -> date w <> d) ->
       date session = d ->
       (forall avg,
          sets session = [] /\ avg = VInt 0 \/
          sets session <> [] /\
          (exists q, nearest_double (mean_reps session) = Some q /\
                     avg = VFloat q) ->
          outcome =
            Return
              (VDict
                 [("date", VStr (date session));
                  ("exercise", VStr (exercise session));
                  ("total_volume", VInt (total_volume session));
                  ("sets_count", VInt (Z.of_nat (length (sets session))));
                  ("max_weight", VInt (max_weight session));
                  ("avg_reps", avg);
                  ("duration_minutes", VInt (duration_minutes session))])) /\
       (sets session <> [] ->
        nearest_double (mean_reps session) = None ->
        outcome = Raise OverflowError) /\
       mean_reps session
         = (inject_Z (Py.sum (map reps (sets session)))
            / inject_Z (Z.of_nat (length (sets session))))%Q /\
       (sets session = [] -> max_weight session = 0%Z) /\
       (forall s, In s (sets session) -> (weight s <= max_weight session)%Z) /\
       (sets session <> [] ->
        exists s, In s (sets session) /\ weight s = max_weight session) /\
       (consistent session ->
        map (fun s => (reps s, weight s)) (sets session)
          = [(5, 100); (3, 120)]%Z ->
        exists result,
          outcome = Return result /\
          field result "total_volume" = Some (VInt 860) /\
          field result "max_weight" = Some (VInt 120) /\
          field result "avg_reps" = Some (VFloat 4) /\
          field result "sets_count" = Some (VInt 2)) /\
       (map reps (sets session) = [3; 3; 4]%Z ->
        exists result,
          outcome = Return result /\
          field result "avg_reps"
            = Some (VFloat (7505999378950827 # 2251799813685248)))).
Proof.
  intros H. eexists. split; [apply (get_session_summary_run _ _ _ _ H)|].
  split.
  - intros Hno. rewrite find_none; [reflexivity|].
    intros w Hw. apply String.eqb_neq. now apply Hno.
  - intros before session after -> Hb Hd.
    rewrite (find_first _ before after session).
    2:{ intros w Hw. apply String.eqb_neq. now apply Hb. }
    2:{ now apply String.eqb_eq. }
    unfold summary_of.
    split; [|split; [|split; [reflexivity|split; [|split; [|split; [|split]]]]]].
    + intros avg [[E ->]|[Hne (q & Hq & ->)]]; unfold avg_reps_of.
      * now rewrite E.
      * destruct (sets session); [congruence|]. now rewrite Hq.
    + intros Hne Hq. unfold avg_reps_of.
      destruct (sets session); [congruence|]. now rewrite Hq.
    + intros E. unfold max_weight. now rewrite E.
    + apply max_weight_upper.
    + intros Hne. destruct (max_weight_cases session) as [[E _]|Hs];
        [congruence|exact Hs].
    + intros Hc Hsets. unfold consistent in Hc.
      destruct (sets session) as [|s1 [|s2 [|s3 l]]] eqn:E;
        try discriminate Hsets.
      injection Hsets as R1 W1 R2 W2.
      assert (Havg : avg_reps_of session = Some (VFloat 4)).
      { unfold avg_reps_of, mean_reps. rewrite E. simpl map.
        rewrite R1, R2. reflexivity. }
      rewrite Havg. eexists. split; [reflexivity|].
      unfold field. cbn [Py.lookup String.eqb Ascii.eqb Bool.eqb].
      repeat split.
      * rewrite Hc. unfold calculate_total_volume. simpl map.
        rewrite R1, W1, R2, W2. reflexivity.
      * unfold max_weight. rewrite E. simpl map. rewrite W1, W2. reflexivity.
    + intros Hreps.
      assert (Havg : avg_reps_of session
                     = Some (VFloat (7505999378950827 # 2251799813685248))).
      { assert (Hm : nearest_double (mean_reps session)
                     = Some (7505999378950827 # 2251799813685248)).
        { unfold mean_reps. rewrite Hreps.
          replace (length (sets session)) with 3%nat
            by (rewrite <- (length_map reps), Hreps; reflexivity).
          vm_compute. reflexivity. }
        unfold avg_reps_of.
        destruct (sets session); [discriminate Hreps|]. now rewrite Hm. }
      rewrite Havg. eexists. split; reflexivity.
Qed.

(** C7 as stated fails: a session with a set of 2 ^ 1024 repetitions
    exists for the date, and [get_session_summary] raises
    [OverflowError] instead of returning a summary. *)
Lemma get_session_summary_overflows :
  holds demo_huge_store demo_self [demo_huge] /\
  date demo_huge = "2026-02-01" /\
  get_session_summary demo_self "2026-02-01" demo_huge_store
    = (Raise OverflowError, demo_huge_store).
Proof.
  split; [|split; [reflexivity|]].
  - eexists. split; [reflexivity|repeat constructor].
  - vm_compute. reflexivity.
Qed.

(** ** Recent workouts *)

Lemma filter_all {A} (l : list A) : List.filter (fun _ => true) l = l.
Proof. induction l as [|x l IH]; simpl; congruence. Qed.

Lemma slice_to_at st (xs : list addr) (ws : list WorkoutSession) (n : Z) :
  Forall2 (fun a w => sessions st !! a = Some w) xs ws ->
  Forall2 (fun a w => sessions st !! a = Some w)
    (Py.slice_to xs n) (Py.slice_to ws n).
Proof.
  intros H. unfold Py.slice_to. rewrite (Forall2_length _ _ _ H).
  destruct (0 <=? n)%Z; now apply Forall2_take.
Qed.

Lemma get_recent_workouts_run st self ws (days : Z) :
  holds st self ws ->
  exists st',
    untouched st st' /\
    get_recent_workouts self days st
    = (Return (map asdict (Py.slice_to (Py.sort (date_le true) ws) days)), st').
Proof.
  intros (xs & Hl & Hs). unfold get_recent_workouts, sorted_by_date.
  destruct (sorted_keys st true xs ws Hs) as (keyed & Hk & Hsorted).
  set (ys := map snd (Py.sort (key_le true) keyed)) in *.
  set (st1 := mkStore (sessions st) (lists st ++ [ys]) (console st)).
  exists st1. split; [apply untouched_alloc|].
  erewrite bind_run.
  2:{ rewrite (bind_run _ _ _ _ _ (read_list_run st _ _ Hl)).
      rewrite (bind_run _ _ _ _ _ Hk). apply new_list_run. }
  assert (Hl1 : lists st1 !! length (lists st) = Some ys)
    by apply list_lookup_middle, eq_refl.
  rewrite (bind_run _ _ _ _ _ (read_list_run st1 _ _ Hl1)).
  rewrite (comprehension_values st1 asdict (fun _ => true) _
             (Py.slice_to (Py.sort (date_le true) ws) days)).
  - now rewrite filter_all.
  - apply (slice_to_at st1). exact Hsorted.
Qed.

(** A negative count is a Python slice bound counted from the end: the
    last [-n] sessions of the sorted list are dropped. *)
Lemma get_recent_workouts_negative st self ws (n : Z) :
  holds st self ws ->
  (n < 0)%Z ->
  exists st',
    get_recent_workouts self n st
    = (Return (map asdict
                 (firstn (length ws - Z.to_nat (- n))
                    (Py.sort (date_le true) ws))), st').
Proof.
  intros H Hn.
  destruct (get_recent_workouts_run st self ws n H) as (st' & _ & Hrun).
  exists st'. rewrite Hrun. unfold Py.slice_to.
  replace (0 <=? n)%Z with false by (symmetry; apply Z.leb_gt; lia).
  now rewrite sort_length.
Qed.

(** C8: for a count [n >= 0], [get_recent_workouts] returns the sessions
    sorted by date descending as strings (sessions of one date staying in
    collection order), cut to the first [n], each expanded into a record
    of its five fields whose "sets" entry lists a record of the six fields
    of each of its sets;
    on three sessions dated 2026-01-01, 2026-01-05 and 2026-01-03 a count
    of 2 gives the sessions of 2026-01-05 and 2026-01-03, in this order. *)
Theorem get_recent_workouts_correct st self ws (n : Z) :
  holds st self ws ->
  (0 <= n)%Z ->
  exists result st',
    get_recent_workouts self n st = (Return result, st') /\
    (exists sorted,
       sorted = Py.sort (date_le true) ws /\
       Permutation sorted ws /\
       StronglySorted (fun a b => Py.str_le (date b) (date a) = true) sorted /\
       (forall d,
          List.filter (fun w => String.eqb (date w) d) sorted
          = List.filter (fun w => String.eqb (date w) d) ws) /\
       result = map asdict (firstn (Z.to_nat n) sorted) /\
       result =
         map (fun w =>
                VDict
                  [("date", VStr (date w));
                   ("exercise", VStr (exercise w));
                   ("sets",
                     VList
                       (map (fun s =>
                               VDict
                                 [("exercise", VStr (set_exercise s));
                                  ("reps", VInt (reps s));
                                  ("weight", VInt (weight s));
                                  ("rpe", VInt (rpe s));
                                  ("date", VStr (set_date s));
                                  ("notes", VStr (notes s))])
                          (sets w)));
                   ("total_volume", VInt (total_volume w));
                   ("duration_minutes", VInt (duration_minutes w))])
           (firstn (Z.to_nat n) sorted)) /\
    (forall w1 w2 w3,
       ws = [w1; w2; w3] ->
       date w1 = "2026-01-01" -> date w2 = "2026-01-05" ->
       date w3 = "2026-01-03" -> n = 2%Z ->
       result = [asdict w2; asdict w3] /\
       map (fun v => field v "date") result
       = [Some (VStr "2026-01-05"); Some (VStr "2026-01-03")]).
Proof.
  intros H Hn.
  destruct (get_recent_workouts_run st self ws n H) as (st' & _ & Hrun).
  eexists _, st'. split; [exact Hrun|].
  unfold Py.slice_to. replace (0 <=? n)%Z with true
    by (symmetry; now apply Z.leb_le).
  split.
  - exists (Py.sort (date_le true) ws). split; [reflexivity|].
    split; [apply sort_perm|]. split.
    { apply (sort_sorted (date_le true) (date_le_total true)
               (date_le_trans true)). }
    split; [|split; reflexivity].
    intros d. apply sort_stable. intros x y. apply date_le_same.
  - intros w1 w2 w3 -> D1 D2 D3 ->.
    assert (E : Py.sort (date_le true) [w1; w2; w3] = [w2; w3; w1]).
    { assert (L23 : date_le true w2 w3 = true)
        by (unfold date_le; now rewrite D2, D3).
      assert (L12 : date_le true w1 w2 = false)
        by (unfold date_le; now rewrite D1, D2).
      assert (L13 : date_le true w1 w3 = false)
        by (unfold date_le; now rewrite D1, D3).
      cbn [Py.sort Py.insert]. rewrite L23. cbn [Py.insert].
      now rewrite L12, L13. }
    rewrite E. simpl. rewrite D2, D3. split; reflexivity.
Qed.

(** ** Volume by exercise and the report *)

Lemma set_set {V} (d : Py.dict V) (k : string) (a b : V) :
  Py.set (Py.set d k a) k b = Py.set d k b.
Proof.
  induction d as [|[k' v'] d IH]; simpl.
  - now rewrite String.eqb_refl.
  - destruct (String.eqb k' k) eqn:E; simpl; rewrite E; [reflexivity|].
    now rewrite IH.
Qed.

Lemma get_volume_by_exercise_run st self ws :
  holds st self ws ->
  get_volume_by_exercise self st = (Return (fold_left volume_step ws []), st).
Proof.
  intros (xs & Hl & Hs). unfold get_volume_by_exercise.
  rewrite (bind_run _ _ _ _ _ (read_list_run st _ _ Hl)).
  apply for_each_sessions; [|exact Hs].
  intros volumes a w Ha.
  rewrite (bind_run _ _ _ _ _ (get_session_run st a w Ha)).
  unfold volume_step, Py.get.
  destruct (Py.lookup volumes (exercise w)) as [v|] eqn:E.
  - rewrite E. reflexivity.
  - rewrite lookup_set_eq. cbn [subscript].
    rewrite (bind_run _ _ _ _ _ (eq_refl : ret 0%Z st = _)).
    now rewrite set_set.
Qed.

Lemma generate_report_run st self w ws :
  holds st self (w :: ws) ->
  exists start finish st',
    untouched st st' /\
    Py.min_str (map date (w :: ws)) = Some start /\
    Py.max_str (map date (w :: ws)) = Some finish /\
    generate_report self st
    = (Return
         (report_of (w :: ws)
            (fold_left (pr_step None) (w :: ws) [])
            (fold_left volume_step (w :: ws) [])
            start finish
            (map asdict (Py.slice_to (Py.sort (date_le true) (w :: ws)) 5))),
       st').
Proof.
  intros H.
  destruct (get_recent_workouts_run st self _ 5%Z H) as (st' & Hu & Hrecent).
  pose proof H as (xs & Hl & Hs).
  destruct (Py.min_str (map date (w :: ws))) as [start|] eqn:Emin;
    [|discriminate].
  destruct (Py.max_str (map date (w :: ws))) as [finish|] eqn:Emax;
    [|discriminate].
  exists start, finish, st'. split; [exact Hu|].
  split; [reflexivity|]. split; [reflexivity|].
  unfold generate_report.
  rewrite (bind_run _ _ _ _ _ (read_list_run st _ _ Hl)).
  destruct xs as [|a xs]; [inversion Hs|].
  rewrite (bind_run _ _ _ _ _ (get_personal_records_run st self _ None H)).
  rewrite (bind_run _ _ _ _ _ (get_volume_by_exercise_run st self _ H)).
  rewrite (bind_run _ _ _ _ _ (read_list_run st _ _ Hl)).
  rewrite (bind_run _ _ _ _ _
             (comprehension_values st date (fun _ => true) _ _ Hs)).
  rewrite filter_all, Emin. cbn [or_value_error].
  rewrite (bind_run _ _ _ _ _ (eq_refl : ret start st = _)).
  rewrite (bind_run _ _ _ _ _
             (comprehension_values st date (fun _ => true) _ _ Hs)).
  rewrite filter_all, Emax. cbn [or_value_error].
  rewrite (bind_run _ _ _ _ _ (eq_refl : ret finish st = _)).
  rewrite (bind_run _ _ _ _ _ Hrecent).
  unfold ret, report_of. apply Forall2_length in Hs. now rewrite Hs.
Qed.

(** C9: on an empty collection [generate_report] returns an error-shaped
    result and does nothing else (the store is left exactly as it was);
    otherwise it returns a report whose overall total is the sum of the
    per-exercise volume totals, whose date range is the least and the
    greatest date of the sessions as strings, and whose recent workouts are
    those [get_recent_workouts] returns for 5. *)
Theorem generate_report_correct st self ws :
  holds st self ws ->
  (ws = [] ->
     generate_report self st
       = (Return (error_result "No workout data available"), st) /\
     field (error_result "No workout data available") "error"
       = Some (VStr "No workout data available")) /\
  (ws <> [] ->
     exists prs volumes start finish recent st' st'',
       generate_report self st
         = (Return (report_of ws prs volumes start finish recent), st') /\
       get_personal_records self None st = (Return prs, st) /\
       get_volume_by_exercise self st = (Return volumes, st) /\
       get_recent_workouts self 5 st = (Return recent, st'') /\
       field (report_of ws prs volumes start finish recent)
         "total_volume_overall" = Some (VInt (Py.sum (Py.values volumes))) /\
       (In start (map date ws) /\
        forall w, In w ws -> Py.str_le start (date w) = true) /\
       (In finish (map date ws) /\
        forall w, In w ws -> Py.str_le (date w) finish = true) /\
       recent = map asdict (firstn 5 (Py.sort (date_le true) ws))).
Proof.
  intros H. split.
  - intros ->. split; [|reflexivity].
    destruct H as (xs & Hl & Hs). inversion Hs; subst.
    unfold generate_report.
    now rewrite (bind_run _ _ _ _ _ (read_list_run st _ _ Hl)).
  - intros Hne. destruct ws as [|w ws]; [congruence|].
    destruct (generate_report_run st self w ws H)
      as (start & finish & st' & Hu & Emin & Emax & Hrun).
    destruct (get_recent_workouts_run st self _ 5%Z H) as (st'' & _ & Hrecent).
    eexists _, _, start, finish, _, st', st''.
    split; [exact Hrun|].
    split; [apply (get_personal_records_run st self _ None H)|].
    split; [apply (get_volume_by_exercise_run st self _ H)|].
    split; [exact Hrecent|].
    split; [reflexivity|].
    apply min_str_spec in Emin as [Hm1 Hm2].
    apply max_str_spec in Emax as [HM1 HM2].
    split; [|split].
    + split; [exact Hm1|]. intros v Hv. apply Hm2. now apply List.in_map.
    + split; [exact HM1|]. intros v Hv. apply HM2. now apply List.in_map.
    + reflexivity.
Qed.

(** ** Ingestion *)

Lemma set_of_none (s : JsonSet) : set_of s = None <-> set_lacks_key s.
Proof.
  unfold set_of, set_lacks_key.
  destruct (js_exercise s), (js_reps s), (js_weight s), (js_rpe s),
    (js_date s); split; try discriminate; try tauto;
    intros H; decompose [or] H; discriminate.
Qed.

Lemma sets_of_none (ss : list JsonSet) :
  sets_of ss = None <-> exists s, In s ss /\ set_lacks_key s.
Proof.
  induction ss as [|s ss IH]; simpl.
  - split; [discriminate|]. now intros (s & [] & _).
  - destruct (set_of s) as [x|] eqn:E.
    + destruct (sets_of ss) as [tl|].
      * split; [discriminate|]. intros (s' & [<-|Hin] & Hl).
        -- apply set_of_none in Hl. congruence.
        -- assert (Some tl = None) by (apply IH; eauto). discriminate.
      * split; [|reflexivity]. intros _.
        destruct (proj1 IH eq_refl) as (s' & Hin & Hl). eauto.
    + split; [|reflexivity]. intros _. exists s.
      split; [now left|]. now apply set_of_none.
Qed.

Lemma session_of_none (j : JsonSession) :
  session_of j = None <-> session_lacks_key j.
Proof.
  unfold session_of, session_lacks_key.
  destruct (sets_of (get_or (jw_sets j) [])) as [l|] eqn:E.
  - destruct (jw_date j), (jw_exercise j); split; try discriminate; auto.
    intros [H|[H|H]]; try discriminate.
    apply sets_of_none in H. congruence.
  - split; [|reflexivity]. intros _. right. right. now apply sets_of_none.
Qed.

Lemma session_of_consistent (j : JsonSession) (w : WorkoutSession) :
  session_of j = Some w -> consistent w.
Proof.
  unfold session_of.
  destruct (sets_of _), (jw_date j), (jw_exercise j); try discriminate.
  now intros [= <-].
Qed.

Lemma sessions_of_consistent (js : list JsonSession) ws :
  sessions_of js = Some ws -> List.Forall consistent ws.
Proof.
  revert ws. induction js as [|j js IH]; simpl; intros ws.
  - intros [= <-]. constructor.
  - destruct (session_of j) as [w|] eqn:E; [|discriminate].
    destruct (sessions_of js) as [tl|]; [|discriminate].
    intros [= <-]. constructor; [|now apply IH].
    now apply session_of_consistent in E.
Qed.

(** A list of session records is wholly readable, or has a first record
    that lacks a key. *)
Lemma sessions_of_split (js : list JsonSession) :
  (exists ws, sessions_of js = Some ws) \/
  (exists good bad rest gs,
     js = good ++ bad :: rest /\ sessions_of good = Some gs /\
     session_of bad = None).
Proof.
  induction js as [|j js IH]; simpl.
  - left. now exists [].
  - destruct (session_of j) as [w|] eqn:E.
    + destruct IH as [(ws & ->)|(good & bad & rest & gs & -> & Hg & Hb)].
      * left. now eexists.
      * right. exists (j :: good), bad, rest, (w :: gs).
        split; [reflexivity|]. split; [|exact Hb]. simpl. now rewrite E, Hg.
    + right. exists [], j, js, []. auto.
Qed.

Lemma sessions_of_none_free (js : list JsonSession) :
  List.Forall (fun j => ~ session_lacks_key j) js ->
  exists ws, sessions_of js = Some ws.
Proof.
  induction 1 as [|j js Hj _ (ws & IH)]; simpl.
  - now exists [].
  - destruct (session_of j) as [w|] eqn:E.
    + rewrite IH. now eexists.
    + apply session_of_none in E. contradiction.
Qed.

Ltac missing_key k := exists k; split; [simpl; tauto|reflexivity].

Lemma build_set_run st (s : JsonSet) :
  match set_of s with
  | Some x => build_set s st = (Return x, st)
  | None =>
      exists key, In key required_keys /\
                  build_set s st = (Raise (KeyError key), st)
  end.
Proof.
  unfold set_of, build_set, required_keys.
  destruct (js_exercise s); [|missing_key "exercise"].
  destruct (js_reps s); [|missing_key "reps"].
  destruct (js_weight s); [|missing_key "weight"].
  destruct (js_rpe s); [|missing_key "rpe"].
  destruct (js_date s); [|missing_key "date"].
  reflexivity.
Qed.

Lemma build_sets_run st (ss : list JsonSet) :
  match sets_of ss with
  | Some l => build_sets ss st = (Return l, st)
  | None =>
      exists key, In key required_keys /\
                  build_sets ss st = (Raise (KeyError key), st)
  end.
Proof.
  induction ss as [|s ss IH]; simpl; [reflexivity|].
  pose proof (build_set_run st s) as Hs.
  destruct (set_of s) as [x|].
  - rewrite (bind_run _ _ _ _ _ Hs).
    destruct (sets_of ss) as [tl|].
    + now rewrite (bind_run _ _ _ _ _ IH).
    + destruct IH as (key & Hk & IH). exists key. split; [exact Hk|].
      now rewrite (bind_raise _ _ _ _ _ IH).
  - destruct Hs as (key & Hk & Hs). exists key. split; [exact Hk|].
    now rewrite (bind_raise _ _ _ _ _ Hs).
Qed.

Lemma try_run {A} (body : M A) (handler : Exn -> M A) st st' (a : A) :
  body st = (Return a, st') -> try_except body handler st = (Return a, st').
Proof. unfold try_except. now intros ->. Qed.

Lemma try_raise {A} (body : M A) (handler : Exn -> M A) st st' (e : Exn) :
  body st = (Raise e, st') -> try_except body handler st = handler e st'.
Proof. unfold try_except. now intros ->. Qed.

Lemma seq_at {A} (s new : list A) :
  Forall2 (fun a w => (s ++ new) !! a = Some w)
    (seq (length s) (length new)) new.
Proof.
  revert s. induction new as [|x new IH]; intros s; simpl; constructor.
  - now apply list_lookup_middle.
  - replace (s ++ x :: new) with ((s ++ [x]) ++ new)
      by now rewrite <- List.app_assoc.
    replace (S (length s)) with (length (s ++ [x]))
      by (rewrite length_app; simpl; lia).
    apply IH.
Qed.

Lemma appended_nil self st xs :
  lists st !! workouts self = Some xs -> appended self st xs [] = st.
Proof.
  intros Hl. unfold appended. cbn [length seq].
  rewrite !List.app_nil_r. rewrite list_insert_id by exact Hl. now destruct st.
Qed.

Lemma appended_lookup self st xs new :
  lists st !! workouts self = Some xs ->
  lists (appended self st xs new) !! workouts self
  = Some (xs ++ seq (length (sessions st)) (length new)).
Proof.
  intros Hl. simpl. apply list_lookup_insert_eq.
  now apply lookup_lt_Some in Hl.
Qed.

Lemma appended_step self st xs w new :
  appended self (appended self st xs [w])
    (xs ++ seq (length (sessions st)) 1) new
  = appended self st xs (w :: new).
Proof.
  unfold appended. simpl. f_equal.
  - now rewrite <- List.app_assoc.
  - rewrite list_insert_insert_eq. f_equal.
    rewrite <- List.app_assoc, length_app. simpl.
    now rewrite Nat.add_1_r.
Qed.

Lemma holds_appended self st xs ws new :
  lists st !! workouts self = Some xs ->
  Forall2 (fun a w => sessions st !! a = Some w) xs ws ->
  holds (appended self st xs new) self (ws ++ new).
Proof.
  intros Hl Hs. eexists. split; [now apply appended_lookup|].
  apply Forall2_app.
  - eapply Forall2_impl; [exact Hs|]. intros a w Ha. simpl.
    now apply lookup_app_l_Some.
  - apply seq_at.
Qed.

Lemma load_session_ok self st xs (j : JsonSession) (w : WorkoutSession) :
  lists st !! workouts self = Some xs ->
  session_of j = Some w ->
  load_session self j st = (Return tt, appended self st xs [w]).
Proof.
  intros Hl. unfold load_session, session_of.
  pose proof (build_sets_run st (get_or (jw_sets j) [])) as Hb.
  destruct (sets_of _) as [l|]; [|discriminate].
  destruct (jw_date j) as [d|]; [|discriminate].
  destruct (jw_exercise j) as [e|]; [|discriminate].
  intros [= <-]. rewrite (bind_run _ _ _ _ _ Hb). cbn [subscript].
  rewrite (bind_run _ _ _ _ _ (eq_refl : ret d st = _)).
  rewrite (bind_run _ _ _ _ _ (eq_refl : ret e st = _)).
  unfold bind at 1, new_session.
  unfold bind at 1, set_total_volume. cbn [sessions lists console].
  rewrite list_lookup_middle by reflexivity.
  unfold list_append.
  erewrite bind_run by (apply read_list_run; exact Hl).
  erewrite write_list_run by exact Hl.
  unfold appended. cbn [sessions lists console length seq].
  now rewrite insert_fresh.
Qed.

Lemma load_session_bad self st (j : JsonSession) :
  session_of j = None ->
  exists key, In key required_keys /\
              load_session self j st = (Raise (KeyError key), st).
Proof.
  unfold load_session, session_of.
  pose proof (build_sets_run st (get_or (jw_sets j) [])) as Hb.
  destruct (sets_of _) as [l|].
  - rewrite (bind_run _ _ _ _ _ Hb).
    destruct (jw_date j) as [d|]; [|intros _; missing_key "date"].
    destruct (jw_exercise j) as [e|]; [discriminate|].
    intros _. missing_key "exercise".
  - intros _. destruct Hb as (key & Hk & Hb). exists key.
    split; [exact Hk|]. now rewrite (bind_raise _ _ _ _ _ Hb).
Qed.

Lemma load_loop_ok self (js : list JsonSession) :
  forall st xs new,
    lists st !! workouts self = Some xs ->
    sessions_of js = Some new ->
    for_each js (fun _ session => load_session self session) tt st
    = (Return tt, appended self st xs new).
Proof.
  induction js as [|j js IH]; intros st xs new Hl; simpl.
  - intros [= <-]. unfold ret. now rewrite appended_nil.
  - destruct (session_of j) as [w|] eqn:E; [|discriminate].
    destruct (sessions_of js) as [tl|] eqn:Etl; [|discriminate].
    intros [= <-].
    rewrite (bind_run _ _ _ _ _ (load_session_ok self st xs j w Hl E)).
    rewrite (IH _ _ tl (appended_lookup self st xs [w] Hl) eq_refl).
    now rewrite appended_step.
Qed.

Lemma load_loop_bad self (good : list JsonSession) :
  forall st xs gs bad rest,
    lists st !! workouts self = Some xs ->
    sessions_of good = Some gs ->
    session_of bad = None ->
    exists key,
      In key required_keys /\
      for_each (good ++ bad :: rest)
        (fun _ session => load_session self session) tt st
      = (Raise (KeyError key), appended self st xs gs).
Proof.
  induction good as [|j good IH]; intros st xs gs bad rest Hl; simpl.
  - intros [= <-] Hb.
    destruct (load_session_bad self st bad Hb) as (key & Hk & Hr).
    exists key. split; [exact Hk|].
    now rewrite (bind_raise _ _ _ _ _ Hr), appended_nil.
  - destruct (session_of j) as [w|] eqn:E; [|discriminate].
    destruct (sessions_of good) as [tl|] eqn:Etl; [|discriminate].
    intros [= <-] Hb.
    rewrite (bind_run _ _ _ _ _ (load_session_ok self st xs j w Hl E)).
    destruct (IH _ _ tl bad rest (appended_lookup self st xs [w] Hl)
                eq_refl Hb) as (key & Hk & Hr).
    exists key. split; [exact Hk|]. now rewrite Hr, appended_step.
Qed.

Lemma load_data_missing self st fs (file_path : string) :
  fs file_path = Missing ->
  load_data self fs file_path st
  = (Return tt,
     mkStore (sessions st) (lists st)
       (console st ++ [FileNotFoundNotice file_path])).
Proof.
  intros E. unfold load_data, try_except, bind, open_json. now rewrite E.
Qed.

Lemma load_data_malformed self st fs (file_path : string) :
  fs file_path = Malformed ->
  load_data self fs file_path st
  = (Return tt,
     mkStore (sessions st) (lists st)
       (console st ++ [InvalidJSONNotice file_path])).
Proof.
  intros E. unfold load_data, try_except, bind, open_json. now rewrite E.
Qed.

Lemma open_json_parsed st fs (file_path : string) (doc : Document) :
  fs file_path = Parsed doc -> open_json fs file_path st = (Return doc, st).
Proof. unfold open_json. now intros ->. Qed.

(** A document all of whose session records are complete: every session
    is appended, in document order, and the count is printed. *)
Lemma load_data_ok self st fs (file_path : string) doc xs new :
  fs file_path = Parsed doc ->
  lists st !! workouts self = Some xs ->
  sessions_of (get_or (doc_sessions doc) []) = Some new ->
  load_data self fs file_path st
  = (Return tt,
     mkStore (sessions st ++ new)
       (lists (appended self st xs new))
       (console st ++ [Loaded (length xs + length new)])).
Proof.
  intros E Hl Hn. unfold load_data. apply try_run.
  rewrite (bind_run _ _ _ _ _ (open_json_parsed st fs _ _ E)).
  rewrite (bind_run _ _ _ _ _ (load_loop_ok self _ st xs new Hl Hn)).
  rewrite (bind_run _ _ _ _ _
             (read_list_run _ _ _ (appended_lookup self st xs new Hl))).
  unfold print. cbn [sessions lists console appended].
  now rewrite length_app, length_seq.
Qed.

(** A document with a session record that lacks a key: the sessions
    before it are appended, [KeyError] goes to the caller, and nothing is
    printed. *)
Lemma load_data_bad self st fs (file_path : string) doc xs good bad rest gs :
  fs file_path = Parsed doc ->
  lists st !! workouts self = Some xs ->
  get_or (doc_sessions doc) [] = good ++ bad :: rest ->
  sessions_of good = Some gs ->
  session_of bad = None ->
  exists key,
    In key required_keys /\
    load_data self fs file_path st
    = (Raise (KeyError key), appended self st xs gs).
Proof.
  intros E Hl Hd Hg Hb. unfold load_data.
  destruct (load_loop_bad self good st xs gs bad rest Hl Hg Hb)
    as (key & Hk & Hr).
  exists key. split; [exact Hk|].
  rewrite (try_raise _ _ st (appended self st xs gs) (KeyError key));
    [reflexivity|].
  rewrite (bind_run _ _ _ _ _ (open_json_parsed st fs _ _ E)).
  rewrite Hd. now rewrite (bind_raise _ _ _ _ _ Hr).
Qed.

Lemma add_workout_run self st xs (a : addr) (w : WorkoutSession) :
  sessions st !! a = Some w ->
  lists st !! workouts self = Some xs ->
  add_workout self a st
  = (Return tt,
     mkStore
       (<[a := mkSession (date w) (exercise w) (sets w)
                (calculate_total_volume (sets w)) (duration_minutes w)]>
          (sessions st))
       (<[workouts self := xs ++ [a]]> (lists st))
       (console st)).
Proof.
  intros Ha Hl. unfold add_workout.
  rewrite (bind_run _ _ _ _ _ (get_session_run st a w Ha)).
  unfold bind at 1, set_total_volume. rewrite Ha.
  unfold list_append.
  erewrite bind_run by (apply read_list_run; exact Hl).
  now erewrite write_list_run by exact Hl.
Qed.

Lemma add_workout_stuck self st (a : addr) :
  sessions st !! a = None -> add_workout self a st = (Stuck, st).
Proof.
  intros Ha. unfold add_workout, bind, get_session. now rewrite Ha.
Qed.

(** ** The invariant of the collection *)

Lemma invariant_alt self st :
  invariant self st <->
  exists xs,
    lists st !! workouts self = Some xs /\
    List.Forall (fun a => exists w, sessions st !! a = Some w /\ consistent w) xs.
Proof.
  split.
  - intros (ws & (xs & Hl & Hs) & Hc). exists xs. split; [exact Hl|].
    clear Hl. revert Hc.
    induction Hs as [|a w xs ws Ha _ IH]; intros Hc; constructor.
    + exists w. split; [exact Ha|]. now apply List.Forall_inv in Hc.
    + apply IH. now apply List.Forall_inv_tail in Hc.
  - intros (xs & Hl & Hx).
    assert (H : exists ws,
               Forall2 (fun a w => sessions st !! a = Some w) xs ws /\
               List.Forall consistent ws).
    { clear Hl. induction Hx as [|a xs (w & Ha & Hc) _ (ws & H1 & H2)].
      - exists []. split; constructor.
      - exists (w :: ws). split; now constructor. }
    destruct H as (ws & H1 & H2). exists ws. split; [|exact H2]. now exists xs.
Qed.

Lemma invariant_untouched self st st' :
  untouched st st' -> invariant self st -> invariant self st'.
Proof.
  intros Hu (ws & H & Hc). exists ws. split; [|exact Hc].
  now apply (untouched_holds st).
Qed.

Lemma invariant_console self st (out : list Notice) :
  invariant self st ->
  invariant self (mkStore (sessions st) (lists st) out).
Proof. intros (ws & (xs & Hl & Hs) & Hc). exists ws. split; [now exists xs|exact Hc]. Qed.

Lemma invariant_appended self st xs new :
  lists st !! workouts self = Some xs ->
  List.Forall consistent new ->
  invariant self st -> invariant self (appended self st xs new).
Proof.
  intros Hl Hn (ws & (xs' & Hl' & Hs) & Hc).
  assert (xs' = xs) as -> by congruence.
  exists (ws ++ new). split; [now apply holds_appended|].
  apply List.Forall_app. now split.
Qed.

Lemma invariant_new_session self st (w : WorkoutSession) :
  invariant self st -> invariant self (snd (new_session w st)).
Proof.
  intros (ws & (xs & Hl & Hs) & Hc). exists ws. split; [|exact Hc].
  exists xs. split; [exact Hl|]. simpl.
  eapply Forall2_impl; [exact Hs|]. intros a v Ha.
  now apply lookup_app_l_Some.
Qed.

Lemma invariant_add_workout self st (a : addr) :
  invariant self st -> invariant self (snd (add_workout self a st)).
Proof.
  intros H. destruct (sessions st !! a) as [w|] eqn:Ha.
  2:{ now rewrite add_workout_stuck. }
  apply invariant_alt in H as (xs & Hl & Hx).
  rewrite (add_workout_run self st xs a w Ha Hl).
  apply invariant_alt. exists (xs ++ [a]). cbn [snd lists sessions]. split.
  { apply list_lookup_insert_eq. now apply lookup_lt_Some in Hl. }
  assert (Hnew : exists v,
    <[a := mkSession (date w) (exercise w) (sets w)
             (calculate_total_volume (sets w)) (duration_minutes w)]>
      (sessions st) !! a = Some v /\ consistent v).
  { eexists. split.
    - apply list_lookup_insert_eq. now apply lookup_lt_Some in Ha.
    - reflexivity. }
  apply List.Forall_app. split; [|constructor; [exact Hnew|constructor]].
  eapply List.Forall_impl; [|exact Hx].
  intros b (v & Hb & Hc). destruct (Nat.eq_dec a b) as [<-|Hne].
  - exact Hnew.
  - exists v. split; [|exact Hc]. now rewrite list_lookup_insert_ne.
Qed.

Lemma invariant_load_data self st fs (file_path : string) :
  invariant self st -> invariant self (snd (load_data self fs file_path st)).
Proof.
  intros H. destruct (fs file_path) as [| |doc] eqn:E.
  - rewrite (load_data_missing _ _ _ _ E). now apply invariant_console.
  - rewrite (load_data_malformed _ _ _ _ E). now apply invariant_console.
  - pose proof H as (ws & (xs & Hl & Hs) & Hc).
    destruct (sessions_of_split (get_or (doc_sessions doc) []))
      as [(new & Hn)|(good & bad & rest & gs & Hd & Hg & Hb)].
    + rewrite (load_data_ok self st fs _ doc xs new E Hl Hn).
      apply (invariant_console self (appended self st xs new)).
      apply invariant_appended; auto.
      now apply sessions_of_consistent in Hn.
    + destruct (load_data_bad self st fs _ doc xs good bad rest gs
                  E Hl Hd Hg Hb) as (key & _ & ->).
      apply invariant_appended; auto.
      now apply sessions_of_consistent in Hg.
Qed.

Lemma discard_run {A} (m : M A) st st' (a : A) :
  m st = (Return a, st') -> discard m st = (Return tt, st').
Proof. intros H. unfold discard. now rewrite H. Qed.

Lemma discard_summary st st' (m : M value) (found : Outcome value) :
  found <> Stuck -> m st = (found, st') -> discard m st = (Return tt, st').
Proof.
  intros Hf H. unfold discard. rewrite H. now destruct found.
Qed.

(** A query returns, and leaves every object of the store as it was. *)
Lemma query_untouched st self ws (c : Call) :
  holds st self ws -> is_query c = true ->
  exists st', perform self c st = (Return tt, st') /\ untouched st st'.
Proof.
  intros H Hq. destruct c; try discriminate Hq; cbn [perform].
  - exists st. split; [|apply untouched_refl].
    eapply discard_run, get_personal_records_run, H.
  - destruct (calculate_progression_run st self ws ex window_days H)
      as (st' & Hu & Hrun).
    exists st'. split; [|exact Hu]. eapply discard_run, Hrun.
  - exists st. split; [|apply untouched_refl].
    eapply discard_run, get_volume_by_exercise_run, H.
  - exists st. split; [|apply untouched_refl].
    eapply discard_summary; [|apply (get_session_summary_run st self ws d H)].
    unfold summary_of. destruct (List.find _ ws) as [w|]; [|discriminate].
    destruct (avg_reps_of w); discriminate.
  - destruct (get_recent_workouts_run st self ws days H) as (st' & Hu & Hrun).
    exists st'. split; [|exact Hu]. eapply discard_run, Hrun.
  - destruct ws as [|w ws].
    + exists st. split; [|apply untouched_refl].
      destruct H as (xs & Hl & Hs). inversion Hs; subst.
      eapply discard_run. unfold generate_report.
      now rewrite (bind_run _ _ _ _ _ (read_list_run st _ _ Hl)).
    + destruct (generate_report_run st self w ws H)
        as (start & finish & st' & Hu & _ & _ & Hrun).
      exists st'. split; [|exact Hu]. eapply discard_run, Hrun.
Qed.

Lemma invariant_perform self st (c : Call) :
  invariant self st -> invariant self (snd (perform self c st)).
Proof.
  intros H. destruct (is_query c) eqn:Hq.
  - pose proof H as (ws & Hh & _).
    destruct (query_untouched st self ws c Hh Hq) as (st' & -> & Hu).
    now apply (invariant_untouched self st).
  - destruct c; try discriminate Hq; cbn [perform].
    + unfold discard. cbn [new_session snd].
      apply (invariant_new_session self st w H).
    + now apply invariant_add_workout.
    + now apply invariant_load_data.
Qed.

Lemma invariant_after self (calls : list Call) st :
  invariant self st -> invariant self (after self calls st).
Proof.
  revert st. induction calls as [|c calls IH]; intros st H; [exact H|].
  apply IH. now apply invariant_perform.
Qed.

Lemma invariant_init fs (data_file : option string) st0 self st1 :
  __init__ fs data_file st0 = (Return self, st1) -> invariant self st1.
Proof.
  unfold __init__. rewrite (bind_run _ _ _ _ _ (new_list_run st0 [])).
  set (self0 := mkAnalyzer (length (lists st0)) data_file).
  set (st := mkStore (sessions st0) (lists st0 ++ [[]]) (console st0)).
  assert (H0 : invariant self0 st).
  { exists []. split; [|constructor]. exists []. split; [|constructor].
    now apply list_lookup_middle. }
  destruct (Py.truthy data_file).
  - pose proof (invariant_load_data self0 st fs (get_or data_file "") H0) as H.
    unfold bind. destruct (load_data self0 fs (get_or data_file "") st)
      as [[[]| |] st2]; try discriminate.
    unfold ret. now intros [= <- <-].
  - unfold bind, ret. now intros [= <- <-].
Qed.

Lemma volume_spec_fold (l : list WorkoutSet) :
  calculate_total_volume l = volume_spec l.
Proof.
  induction l as [|s rest IH]; [reflexivity|].
  unfold calculate_total_volume, Py.sum in *. simpl.
  now rewrite fold_add_shift, IH.
Qed.

(** ** Total volume, the invariant and the queries' frame *)


(** C2: after [__init__] and any sequence of calls, every session of the
    collection has a [total_volume] equal to [calculate_total_volume] of
    its sets, that is, to the sum over its sets of reps × weight; and every
    operation, ingestion or query, preserves this. *)
Theorem total_volume_invariant fs (data_file : option string) st0 self st1
    (calls : list Call) :
  __init__ fs data_file st0 = (Return self, st1) ->
  (exists ws,
     holds (after self calls st1) self ws /\
     List.Forall
       (fun w => total_volume w = calculate_total_volume (sets w) /\
                 total_volume w = volume_spec (sets w)) ws) /\
  (forall st c,
     invariant self st -> invariant self (snd (perform self c st))).
Proof.
  intros Hinit. split.
  - apply invariant_init in Hinit.
    destruct (invariant_after self calls st1 Hinit) as (ws & H & Hc).
    exists ws. split; [exact H|].
    eapply List.Forall_impl; [|exact Hc].
    intros w Hw. split; [exact Hw|]. rewrite <- volume_spec_fold. exact Hw.
  - intros st c. apply invariant_perform.
Qed.

(** C10: every query returns and leaves the collection as it was: no
    session object and no list object that existed is changed, so
    [self.workouts] holds the same sessions in the same order with the same
    contents; the lists sorted by [calculate_progression] and
    [get_recent_workouts] are new objects. *)
Theorem queries_leave_collection_unchanged st self ws (c : Call) :
  holds st self ws ->
  is_query c = true ->
  exists st',
    perform self c st = (Return tt, st') /\
    sessions st' = sessions st /\
    console st' = console st /\
    (forall l xs, lists st !! l = Some xs -> lists st' !! l = Some xs) /\
    lists st' !! workouts self = lists st !! workouts self /\
    holds st' self ws.
Proof.
  intros H Hq.
  destruct (query_untouched st self ws c H Hq) as (st' & Hrun & Hu).
  exists st'. split; [exact Hrun|].
  pose proof (untouched_holds st st' self ws Hu H) as H'.
  destruct Hu as (Hs & Hc & fresh & Hl).
  split; [exact Hs|]. split; [exact Hc|]. split; [|split; [|exact H']].
  - intros l xs Hx. rewrite Hl. now apply lookup_app_l_Some.
  - destruct H as (xs & Hx & _). rewrite Hx, Hl. now apply lookup_app_l_Some.
Qed.

(** When a session record lacks a required key (its own "date" or
    "exercise", or "exercise", "reps", "weight", "rpe" or "date" of one of
    its sets), [load_data] raises [KeyError] for such a key to the caller;
    the sessions that precede the record in the document have been
    appended, the record and all that follow it have not, and nothing is
    printed. *)
Lemma load_data_missing_key st self ws fs (file_path : string) doc
    good bad rest :
  holds st self ws ->
  fs file_path = Parsed doc ->
  get_or (doc_sessions doc) [] = good ++ bad :: rest ->
  List.Forall (fun j => ~ session_lacks_key j) good ->
  session_lacks_key bad ->
  exists key gs st',
    load_data self fs file_path st = (Raise (KeyError key), st') /\
    In key required_keys /\
    sessions_of good = Some gs /\
    holds st' self (ws ++ gs) /\
    List.Forall consistent gs /\
    console st' = console st.
Proof.
  intros (xs & Hl & Hs) E Hd Hgood Hbad.
  destruct (sessions_of_none_free good Hgood) as (gs & Hg).
  apply session_of_none in Hbad.
  destruct (load_data_bad self st fs file_path doc xs good bad rest gs
              E Hl Hd Hg Hbad) as (key & Hk & Hrun).
  exists key, gs, (appended self st xs gs).
  split; [exact Hrun|]. split; [exact Hk|]. split; [exact Hg|].
  split; [now apply holds_appended|].
  split; [now apply sessions_of_consistent in Hg|reflexivity].
Qed.

(** C3: the code does not skip a record that lacks a required key.  On a
    document whose second of three sessions has a set without "reps",
    [load_data] raises [KeyError] for "reps" to its caller: the first
    session has been ingested, the third, which lacks nothing, has not, and
    nothing is printed. *)
Theorem load_data_raises_on_missing_key :
  get_or (doc_sessions demo_document) []
  = [demo_json_session "2026-01-01" (Some 5%Z);
     demo_json_session "2026-01-02" None;
     demo_json_session "2026-01-03" (Some 4%Z)] /\
  session_lacks_key (demo_json_session "2026-01-02" None) /\
  ~ session_lacks_key (demo_json_session "2026-01-01" (Some 5%Z)) /\
  ~ session_lacks_key (demo_json_session "2026-01-03" (Some 4%Z)) /\
  fst (load_data demo_self demo_fs "workouts.json" empty_store)
    = Raise (KeyError "reps") /\
  holds (snd (load_data demo_self demo_fs "workouts.json" empty_store))
    demo_self
    [mkSession "2026-01-01" "Squat"
       [mkSet "Squat" 5 100 8 "2026-01-01" ""] 500 0] /\
  console (snd (load_data demo_self demo_fs "workouts.json" empty_store)) = [].
Proof.
  split; [reflexivity|]. split; [|split; [|split; [|split; [|split]]]].
  - right. right. eexists. split; [now left|]. right. now left.
  - intros Hl. apply session_of_none in Hl. discriminate.
  - intros Hl. apply session_of_none in Hl. discriminate.
  - reflexivity.
  - eexists; split; [reflexivity|repeat constructor].
  - reflexivity.
Qed.

(** * Worked examples *)

Ltac demo_holds :=
  eexists; split; [reflexivity|repeat constructor].

Lemma total_volume_invariant_witness :
  __init__ (fun _ => Missing) None (mkStore [] [] []) = (Return demo_self, empty_store) /\
  exists ws,
    holds (after demo_self
             [NewSession demo_w1; AddWorkout 0; GenerateReport; AddWorkout 0]
             empty_store) demo_self ws /\
    List.Forall (fun w => total_volume w = volume_spec (sets w)) ws.
Proof.
  split; [reflexivity|].
  destruct (total_volume_invariant (fun _ => Missing) None (mkStore [] [] [])
              demo_self empty_store
              [NewSession demo_w1; AddWorkout 0; GenerateReport; AddWorkout 0]
              eq_refl) as [(ws & H & Hc) _].
  exists ws. split; [exact H|].
  eapply List.Forall_impl; [|exact Hc]. now intros w [_ Hw].
Defined.

Lemma personal_records_unfiltered_witness :
  holds demo_store demo_self [demo_w1; demo_w2; demo_w3] /\
  exists prs,
    get_personal_records demo_self None demo_store = (Return prs, demo_store) /\
    List.NoDup (Py.keys prs) /\
    (forall v, Py.lookup prs "Squat" = Some v ->
       In v (weights_of "Squat" [demo_w1; demo_w2; demo_w3])).
Proof.
  assert (H : holds demo_store demo_self [demo_w1; demo_w2; demo_w3])
    by demo_holds.
  split; [exact H|].
  destruct (personal_records_unfiltered demo_store demo_self _ H)
    as (prs & Hrun & Hd & _ & Hv).
  exists prs. split; [exact Hrun|]. split; [exact Hd|].
  intros v Hl. destruct (Hv "Squat" v Hl) as (_ & _ & Hmax).
  apply Hmax. simpl. intros z [<-|[<-|[]]]; lia.
Defined.

Lemma calculate_progression_correct_witness :
  holds demo_store demo_self [demo_w1; demo_w2; demo_w3] /\
  exists result st',
    calculate_progression demo_self "Squat" 30 demo_store
      = (Return result, st') /\
    field result "total_sessions" = Some (VInt 2).
Proof.
  assert (H : holds demo_store demo_self [demo_w1; demo_w2; demo_w3])
    by demo_holds.
  split; [exact H|].
  destruct (calculate_progression_correct demo_store demo_self _ "Squat" 30 H)
    as (result & st' & Hrun & Hres).
  exists result, st'. split; [exact Hrun|].
  simpl in Hres. destruct Hres as (first & rest & _ & _ & _ & _ & -> & _).
  reflexivity.
Defined.

Lemma get_session_summary_correct_witness :
  holds demo_store demo_self [demo_w1; demo_w2; demo_w3] /\
  exists result,
    get_session_summary demo_self "2026-01-01" demo_store
      = (Return result, demo_store) /\
    field result "total_volume" = Some (VInt 860) /\
    field result "avg_reps" = Some (VFloat 4).
Proof.
  assert (H : holds demo_store demo_self [demo_w1; demo_w2; demo_w3])
    by demo_holds.
  split; [exact H|].
  destruct (get_session_summary_correct demo_store demo_self _ "2026-01-01" H)
    as (outcome & Hrun & _ & Hfound).
  destruct (Hfound [] demo_w1 [demo_w2; demo_w3] eq_refl)
    as (_ & _ & _ & _ & _ & _ & Hex & _); [intros w []|reflexivity|].
  destruct (Hex eq_refl eq_refl) as (result & E & H1 & _ & H3 & _).
  exists result. rewrite <- E. now split.
Defined.

Lemma get_recent_workouts_correct_witness :
  holds demo_store demo_self [demo_w1; demo_w2; demo_w3] /\
  (0 <= 2)%Z /\
  exists result st',
    get_recent_workouts demo_self 2 demo_store = (Return result, st') /\
    result = [asdict demo_w2; asdict demo_w3].
Proof.
  assert (H : holds demo_store demo_self [demo_w1; demo_w2; demo_w3])
    by demo_holds.
  split; [exact H|]. split; [lia|].
  destruct (get_recent_workouts_correct demo_store demo_self _ 2 H)
    as (result & st' & Hrun & _ & Hex); [lia|].
  exists result, st'. split; [exact Hrun|].
  now destruct (Hex demo_w1 demo_w2 demo_w3) as [-> _].
Defined.

Lemma generate_report_correct_witness :
  holds demo_store demo_self [demo_w1; demo_w2; demo_w3] /\
  exists report st',
    generate_report demo_self demo_store = (Return report, st') /\
    field report "total_volume_overall" = Some (VInt 1340).
Proof.
  assert (H : holds demo_store demo_self [demo_w1; demo_w2; demo_w3])
    by demo_holds.
  split; [exact H|].
  destruct (generate_report_correct demo_store demo_self _ H) as [_ Hrep].
  destruct Hrep as (prs & volumes & start & finish & recent & st' & st''
                    & Hrun & _ & Hvol & _ & Hf & _); [discriminate|].
  eexists _, st'. split; [exact Hrun|]. rewrite Hf.
  assert (E : get_volume_by_exercise demo_self demo_store
              = (Return [("Squat", 860%Z); ("Bench", 480%Z)], demo_store))
    by reflexivity.
  rewrite E in Hvol. now injection Hvol as <-.
Defined.

Lemma queries_leave_collection_unchanged_witness :
  holds demo_store demo_self [demo_w1; demo_w2; demo_w3] /\
  is_query (CalculateProgression "Squat" 30) = true /\
  exists st',
    perform demo_self (CalculateProgression "Squat" 30) demo_store
      = (Return tt, st') /\
    lists st' !! workouts demo_self = Some [0; 1; 2].
Proof.
  assert (H : holds demo_store demo_self [demo_w1; demo_w2; demo_w3])
    by demo_holds.
  split; [exact H|]. split; [reflexivity|].
  destruct (queries_leave_collection_unchanged demo_store demo_self _
              (CalculateProgression "Squat" 30) H eq_refl)
    as (st' & Hrun & _ & _ & _ & Hl & _).
  exists st'. split; [exact Hrun|]. exact (eq_trans Hl eq_refl).
Defined.

(** * Further properties of the analyzer *)

(** ** Personal records *)

Lemma truthy_nonempty (x : string) : x <> "" -> Py.truthy (Some x) = true.
Proof. intros H. simpl. apply String.eqb_neq in H. now rewrite H. Qed.

Lemma pr_filtered_lookup (x : string) (ws : list WorkoutSession) :
  x <> "" ->
  forall prs prs' : Py.dict Z,
    Py.lookup prs x = Py.lookup prs' x ->
    Py.lookup (fold_left (pr_step (Some x)) ws prs) x
    = Py.lookup (fold_left (pr_step None) ws prs') x.
Proof.
  intros Hx. induction ws as [|w ws IH]; intros prs prs' E; [exact E|].
  cbn [fold_left]. apply IH. rewrite pr_step_unfiltered.
  unfold pr_step. rewrite (truthy_nonempty x Hx). cbn [differs andb].
  destruct (String.eqb (exercise w) x) eqn:Ew; cbn [negb].
  - apply String.eqb_eq in Ew. subst x.
    rewrite !lookup_set_eq. unfold Py.get. now rewrite E.
  - apply String.eqb_neq in Ew. now rewrite (lookup_set_ne _ _ _ _ Ew).
Qed.

Lemma filter_none {A} (p : A -> bool) (l : list A) :
  (forall y, In y l -> p y = false) -> List.filter p l = [].
Proof.
  intros H. induction l as [|y l IH]; [reflexivity|]. simpl.
  rewrite (H y (or_introl eq_refl)). apply IH. intros z Hz. apply H. now right.
Qed.

(** X1: with a non-empty exercise name as filter, [get_personal_records]
    returns exactly one entry, for that name, whose value is the one the
    unfiltered query has for it, or 0 when the unfiltered query has none
    (no session of that exercise); an empty name filters nothing. *)
Theorem get_personal_records_filtered st self ws (x : string) :
  holds st self ws ->
  x <> "" ->
  exists prs,
    get_personal_records self None st = (Return prs, st) /\
    get_personal_records self (Some x) st
      = (Return [(x, Py.get prs x 0%Z)], st) /\
    ((forall w, In w ws -> exercise w <> x) ->
       Py.lookup prs x = None /\
       get_personal_records self (Some x) st = (Return [(x, 0%Z)], st)) /\
    get_personal_records self (Some "") st = (Return prs, st).
Proof.
  intros H Hx. exists (fold_left (pr_step None) ws []).
  pose proof (get_personal_records_run st self ws (Some x) H) as Hrun.
  cbn zeta in Hrun. rewrite (truthy_nonempty x Hx) in Hrun.
  assert (E : Py.get (fold_left (pr_step (Some x)) ws []) x 0%Z
              = Py.get (fold_left (pr_step None) ws []) x 0%Z).
  { unfold Py.get. now rewrite (pr_filtered_lookup x ws Hx [] []). }
  rewrite E in Hrun.
  split; [apply (get_personal_records_run st self ws None H)|].
  split; [exact Hrun|]. split.
  - intros Hno.
    assert (L : Py.lookup (fold_left (pr_step None) ws []) x = None).
    { rewrite pr_lookup, filter_none; [reflexivity|].
      intros w Hw. apply String.eqb_neq. now apply Hno. }
    split; [exact L|]. rewrite Hrun. unfold Py.get. now rewrite L.
  - apply (get_personal_records_run st self ws (Some "") H).
Qed.

Lemma fold_max_shift (l : list Z) (a b : Z) :
  fold_left Z.max l (Z.max a b) = Z.max a (fold_left Z.max l b).
Proof.
  revert b. induction l as [|y l IH]; intros b; simpl; [reflexivity|].
  now rewrite <- Z.max_assoc, IH.
Qed.

Lemma max_weight_fold (w : WorkoutSession) (a : Z) :
  (0 <= a)%Z ->
  Z.max a (max_weight w) = fold_left Z.max (map weight (sets w)) a.
Proof.
  intros Ha. unfold max_weight, Py.max_default.
  destruct (map weight (sets w)) as [|z l]; simpl; [lia|].
  now rewrite fold_max_shift.
Qed.

Lemma fold_max_ge (l : list Z) (a : Z) : (a <= fold_left Z.max l a)%Z.
Proof. now destruct (fold_max_props l a) as [H _]. Qed.

Lemma session_maxima_fold (x : string) (ws : list WorkoutSession) (a : Z) :
  (0 <= a)%Z ->
  fold_left Z.max
    (map max_weight (List.filter (fun w => String.eqb (exercise w) x) ws)) a
  = fold_left Z.max (weights_of x ws) a.
Proof.
  revert a. induction ws as [|w ws IH]; intros a Ha; [reflexivity|].
  unfold weights_of in *. cbn [List.filter flat_map].
  destruct (String.eqb (exercise w) x).
  - cbn [map fold_left]. rewrite fold_left_app, <- max_weight_fold by exact Ha.
    apply IH. lia.
  - now apply IH.
Qed.

(** X2: whatever the signs of the weights, an entry of the unfiltered
    personal records is the maximum of 0 and all set weights of the sessions
    of that exercise; it is never negative. *)
Theorem personal_record_is_floored_maximum st self ws :
  holds st self ws ->
  exists prs,
    get_personal_records self None st = (Return prs, st) /\
    forall x v, Py.lookup prs x = Some v ->
      v = fold_left Z.max (weights_of x ws) 0%Z /\ (0 <= v)%Z.
Proof.
  intros H. exists (fold_left (pr_step None) ws []).
  split; [apply (get_personal_records_run st self ws None H)|].
  intros x v Hv. rewrite pr_lookup in Hv.
  assert (E : v = fold_left Z.max (weights_of x ws) 0%Z).
  { rewrite <- session_maxima_fold by lia.
    destruct (List.filter _ ws); [discriminate|]. now injection Hv as <-. }
  split; [exact E|]. rewrite E. apply fold_max_ge.
Qed.

(** ** Volume by exercise *)

(** The entry of an exercise is built by adding the volumes of its
    sessions, one after the other in collection order, to what the table
    held before. *)
Lemma volume_lookup (ws : list WorkoutSession) (volumes : Py.dict Z) (x : string) :
  Py.lookup (fold_left volume_step ws volumes) x
  = match List.filter (fun w => String.eqb (exercise w) x) ws with
    | [] => Py.lookup volumes x
    | sel => Some (fold_left Z.add (map total_volume sel) (Py.get volumes x 0%Z))
    end.
Proof.
  revert volumes. induction ws as [|w ws IH]; intros volumes; [reflexivity|].
  cbn [fold_left List.filter]. rewrite IH. unfold volume_step.
  destruct (String.eqb (exercise w) x) eqn:E.
  - apply String.eqb_eq in E. subst x.
    rewrite lookup_set_eq, get_set_eq.
    now destruct (List.filter _ ws).
  - apply String.eqb_neq in E.
    now rewrite (lookup_set_ne _ _ _ _ E), (get_set_ne _ _ _ _ _ E).
Qed.

Lemma volume_of_exercise (ws : list WorkoutSession) (x : string) :
  Py.get (fold_left volume_step ws []) x 0%Z
  = fold_left Z.add
      (map total_volume
         (List.filter (fun w => String.eqb (exercise w) x) ws)) 0%Z.
Proof.
  unfold Py.get. rewrite volume_lookup.
  now destruct (List.filter _ ws).
Qed.

Lemma values_by_keys {V} (d : Py.dict V) (dflt : V) :
  List.NoDup (Py.keys d) ->
  Py.values d = map (fun k => Py.get d k dflt) (Py.keys d).
Proof.
  induction d as [|[k v] d IH]; intros Hd; [reflexivity|].
  apply List.NoDup_cons_iff in Hd as [Hk Hd].
  cbn [Py.values Py.keys map fst snd]. f_equal.
  - unfold Py.get. simpl. now rewrite String.eqb_refl.
  - change (map snd d) with (Py.values d). rewrite (IH Hd).
    apply List.map_ext_in. intros k' Hk'. unfold Py.get. simpl.
    destruct (String.eqb k k') eqn:E; [|reflexivity].
    apply String.eqb_eq in E. now subst k'.
Qed.

(** ** The order of the keys *)

Lemma existsb_keys {V} (d : Py.dict V) (k : string) :
  existsb (String.eqb k) (Py.keys d)
  = match Py.lookup d k with Some _ => true | None => false end.
Proof.
  induction d as [|[k' v'] d IH]; simpl; [reflexivity|].
  rewrite (String.eqb_sym k k'). now destruct (String.eqb k' k).
Qed.

Lemma keys_set_first {V} (d : Py.dict V) (k : string) (v : V) :
  Py.keys (Py.set d k v)
  = if existsb (String.eqb k) (Py.keys d) then Py.keys d else Py.keys d ++ [k].
Proof. rewrite keys_set, existsb_keys. now destruct (Py.lookup d k). Qed.

Lemma keys_fold {V} (step : Py.dict V -> WorkoutSession -> Py.dict V)
    (value : Py.dict V -> WorkoutSession -> V) (ws : list WorkoutSession) :
  (forall d w, step d w = Py.set d (exercise w) (value d w)) ->
  forall d,
    Py.keys (fold_left step ws d)
    = fold_left
        (fun seen x =>
           if existsb (String.eqb x) seen then seen else seen ++ [x])
        (map exercise ws) (Py.keys d).
Proof.
  intros Hstep. induction ws as [|w ws IH]; intros d; [reflexivity|].
  cbn [fold_left map]. now rewrite IH, Hstep, keys_set_first.
Qed.

Lemma volume_keys (ws : list WorkoutSession) :
  Py.keys (fold_left volume_step ws []) = first_occurrences (map exercise ws).
Proof.
  apply (keys_fold volume_step
           (fun d w => (Py.get d (exercise w) 0 + total_volume w)%Z)).
  reflexivity.
Qed.

Lemma pr_keys_order (ws : list WorkoutSession) :
  Py.keys (fold_left (pr_step None) ws []) = first_occurrences (map exercise ws).
Proof.
  apply (keys_fold (pr_step None)
           (fun d w => Z.max (Py.get d (exercise w) 0%Z) (max_weight w))).
  reflexivity.
Qed.

Lemma first_occurrences_spec (names seen : list string) :
  List.NoDup seen ->
  let r := fold_left
             (fun seen x =>
                if existsb (String.eqb x) seen then seen else seen ++ [x])
             names seen in
  List.NoDup r /\ forall x, In x r <-> In x seen \/ In x names.
Proof.
  revert seen. induction names as [|n names IH]; intros seen Hd; simpl.
  - split; [exact Hd|]. tauto.
  - destruct (existsb (String.eqb n) seen) eqn:E.
    + destruct (IH seen Hd) as [H1 H2]. split; [exact H1|].
      intros x. rewrite H2. split; [tauto|].
      intros [H|[<-|H]]; auto. left.
      apply existsb_exists in E as (y & Hy & Ey).
      apply String.eqb_eq in Ey. now subst.
    + destruct (IH (seen ++ [n])) as [H1 H2].
      { apply NoDup_ListNoDup, NoDup_app.
        split; [now apply NoDup_ListNoDup|]. split; [|apply NoDup_singleton].
        intros x Hx Hn. apply list_elem_of_singleton in Hn. subst x.
        apply list_elem_of_In in Hx.
        assert (existsb (String.eqb n) seen = true); [|congruence].
        apply existsb_exists. exists n. split; [exact Hx|].
        apply String.eqb_refl. }
      split; [exact H1|]. intros x. rewrite H2, List.in_app_iff. simpl.
      tauto.
Qed.

Lemma volume_values (ws : list WorkoutSession) :
  Py.values (fold_left volume_step ws [])
  = map (fun x =>
           fold_left Z.add
             (map total_volume
                (List.filter (fun w => String.eqb (exercise w) x) ws)) 0%Z)
      (first_occurrences (map exercise ws)).
Proof.
  destruct (first_occurrences_spec (map exercise ws) [] (List.NoDup_nil _))
    as [Hd _].
  rewrite (values_by_keys _ 0%Z) by (rewrite volume_keys; exact Hd).
  rewrite volume_keys. apply List.map_ext. intros x. apply volume_of_exercise.
Qed.

(** X3: [get_volume_by_exercise] always returns (its subscript never
    fails); it has one entry per distinct exercise name of the collection,
    in the order of first appearance; an entry is the [total_volume] of
    the sessions of that exercise added up from 0 in collection order. *)
Theorem get_volume_by_exercise_correct st self ws :
  holds st self ws ->
  exists volumes,
    get_volume_by_exercise self st = (Return volumes, st) /\
    Py.keys volumes = first_occurrences (map exercise ws) /\
    List.NoDup (Py.keys volumes) /\
    (forall x, In x (Py.keys volumes) <-> exists w, In w ws /\ exercise w = x) /\
    (forall x v, Py.lookup volumes x = Some v ->
       v = fold_left Z.add
             (map total_volume
                (List.filter (fun w => String.eqb (exercise w) x) ws)) 0%Z) /\
    Py.values volumes
    = map (fun x =>
             fold_left Z.add
               (map total_volume
                  (List.filter (fun w => String.eqb (exercise w) x) ws)) 0%Z)
        (Py.keys volumes).
Proof.
  intros H. exists (fold_left volume_step ws []).
  split; [apply (get_volume_by_exercise_run st self ws H)|].
  split; [apply volume_keys|].
  destruct (first_occurrences_spec (map exercise ws) [] (List.NoDup_nil _))
    as [Hd Hin].
  rewrite !volume_keys. split; [exact Hd|]. split; [|split].
  - intros x. unfold first_occurrences. rewrite Hin, List.in_map_iff.
    simpl. split.
    + intros [[]|(w & E & Hw)]. now exists w.
    + intros (w & Hw & E). right. now exists w.
  - intros x v Hv. rewrite volume_lookup in Hv.
    destruct (List.filter _ ws); [discriminate|].
    now injection Hv as <-.
  - apply volume_values.
Qed.

(** X4: the personal records and the volumes list the same exercise
    names in the same order, the order in which the exercises first appear
    in the collection. *)
Theorem records_and_volumes_share_keys st self ws :
  holds st self ws ->
  exists prs volumes,
    get_personal_records self None st = (Return prs, st) /\
    get_volume_by_exercise self st = (Return volumes, st) /\
    Py.keys prs = Py.keys volumes /\
    Py.keys prs = first_occurrences (map exercise ws).
Proof.
  intros H. exists (fold_left (pr_step None) ws []), (fold_left volume_step ws []).
  split; [apply (get_personal_records_run st self ws None H)|].
  split; [apply (get_volume_by_exercise_run st self ws H)|].
  rewrite pr_keys_order, volume_keys. now split.
Qed.

(** ** Progression and records together *)

Lemma last_in {A} (x : A) (l : list A) : In (List.last l x) (x :: l).
Proof.
  revert x. induction l as [|z l IH]; intros x; [now left|].
  rewrite last_shift. right. apply IH.
Qed.

Lemma sorted_last {A} (R : A -> A -> Prop) (x : A) (l : list A) :
  (forall a, R a a) ->
  StronglySorted R (x :: l) ->
  forall y, In y (x :: l) -> R y (List.last l x).
Proof.
  intros Hrefl. revert x. induction l as [|z l IH]; intros x Hs y Hy.
  - destruct Hy as [<-|[]]. apply Hrefl.
  - rewrite last_shift. apply StronglySorted_inv in Hs as [Hs Hx].
    destruct Hy as [<-|Hy]; [|now apply IH].
    rewrite List.Forall_forall in Hx. apply Hx, last_in.
Qed.

(** X5: for an exercise with sessions, the date range reported by
    [calculate_progression] is made of the least and the greatest date, in
    string order, among the sessions of that exercise. *)
Theorem progression_date_range st self ws (ex : string) (window_days : Z) :
  holds st self ws ->
  List.filter (fun w => String.eqb (exercise w) ex) ws <> [] ->
  exists result st' start finish,
    calculate_progression self ex window_days st = (Return result, st') /\
    field result "date_range"
      = Some (VDict [("start", VStr start); ("end", VStr finish)]) /\
    (forall w, In w ws -> exercise w = ex ->
       Py.str_le start (date w) = true /\ Py.str_le (date w) finish = true) /\
    (exists w, In w ws /\ exercise w = ex /\ date w = start) /\
    (exists w, In w ws /\ exercise w = ex /\ date w = finish).
Proof.
  intros H Hne.
  destruct (calculate_progression_run st self ws ex window_days H)
    as (st' & _ & Hrun).
  set (sel := List.filter (fun w => String.eqb (exercise w) ex) ws) in *.
  assert (Hsel : forall w, In w sel <-> In w ws /\ exercise w = ex).
  { intros w. subst sel. rewrite List.filter_In, String.eqb_eq. tauto. }
  pose proof (sort_perm (date_le false) sel) as Hp.
  pose proof (sort_sorted (date_le false) (date_le_total false)
                (date_le_trans false) sel) as Hs.
  destruct (Py.sort (date_le false) sel) as [|first rest] eqn:Es.
  { apply Permutation_nil in Hp. congruence. }
  exists (progression_of ex (first :: rest)), st', (date first),
    (date (List.last rest first)).
  split; [exact Hrun|]. split; [reflexivity|].
  assert (Hin : forall w, In w (first :: rest) <-> In w ws /\ exercise w = ex).
  { intros w. rewrite <- Hsel. split; apply Permutation_in;
      [exact Hp|symmetry; exact Hp]. }
  split; [|split].
  - intros w Hw Ew. assert (Hw' : In w (first :: rest)) by (apply Hin; auto).
    split.
    + destruct Hw' as [<-|Hw']; [apply str_le_refl|].
      apply StronglySorted_inv in Hs as [_ Hf].
      rewrite List.Forall_forall in Hf. apply (Hf w Hw').
    + apply (sorted_last (fun a b => date_le false a b = true) first rest);
        [intros a; apply str_le_refl|exact Hs|exact Hw'].
  - exists first.
    destruct (proj1 (Hin first) (or_introl eq_refl)) as [H1 H2].
    now repeat split.
  - exists (List.last rest first).
    destruct (proj1 (Hin _) (last_in first rest)) as [H1 H2].
    now repeat split.
Qed.

(** X6: the max-weight series of [calculate_progression] accounts for
    the personal record of the exercise: each point of the series is the
    date of a session with its maximum set weight, and the record is not
    negative, is at least every weight of the series, and is 0 or one of
    them. *)
Theorem progression_accounts_for_record st self ws (ex : string)
    (window_days : Z) :
  holds st self ws ->
  ex <> "" ->
  exists sorted st' record,
    calculate_progression self ex window_days st
      = (Return (progression_of ex sorted), st') /\
    Permutation sorted (List.filter (fun w => String.eqb (exercise w) ex) ws) /\
    (sorted <> [] ->
       field (progression_of ex sorted) "max_weight_progression"
         = Some (VList
                   (map (fun w =>
                           VDict [("date", VStr (date w));
                                  ("weight", VInt (max_weight w))])
                      sorted))) /\
    get_personal_records self (Some ex) st = (Return [(ex, record)], st) /\
    (0 <= record)%Z /\
    (forall w, In w sorted -> (max_weight w <= record)%Z) /\
    (record = 0%Z \/ exists w, In w sorted /\ max_weight w = record).
Proof.
  intros H Hex.
  destruct (calculate_progression_run st self ws ex window_days H)
    as (st' & _ & Hrun).
  set (sel := List.filter (fun w => String.eqb (exercise w) ex) ws) in *.
  pose proof (sort_perm (date_le false) sel) as Hp.
  destruct (fold_max_props (map max_weight sel) 0%Z) as (H0 & Hub & Hat).
  exists (Py.sort (date_le false) sel), st',
    (fold_left Z.max (map max_weight sel) 0%Z).
  split; [exact Hrun|]. split; [exact Hp|]. split.
  { intros Hne. now destruct (Py.sort (date_le false) sel); [congruence|]. }
  split; [|split; [exact H0|split]].
  - pose proof (get_personal_records_run st self ws (Some ex) H) as Hpr.
    cbn zeta in Hpr. rewrite (truthy_nonempty ex Hex) in Hpr.
    rewrite Hpr. do 3 f_equal. unfold Py.get.
    rewrite (pr_filtered_lookup ex ws Hex [] [] eq_refl), pr_lookup.
    fold sel. now destruct sel.
  - intros w Hw. apply Hub, List.in_map.
    apply (Permutation_in _ Hp), Hw.
  - destruct Hat as [E|Hin]; [now left|right].
    apply List.in_map_iff in Hin as (w & E & Hw). exists w.
    split; [|exact E]. apply (Permutation_in _ (Permutation_sym Hp)), Hw.
Qed.

(** ** Recent workouts and the report *)

Lemma firstn_in {A} (n : nat) (l : list A) (x : A) :
  In x (firstn n l) -> In x l.
Proof.
  intros H. rewrite <- (List.firstn_skipn n l). apply List.in_or_app. now left.
Qed.

(** X7: for a count [n >= 0], [get_recent_workouts] returns
    [min n (number of sessions)] records, each the expansion of a session
    of the collection; a count that reaches the size of the collection
    returns every session once. *)
Theorem get_recent_workouts_size st self ws (n : Z) :
  holds st self ws ->
  (0 <= n)%Z ->
  exists result st',
    get_recent_workouts self n st = (Return result, st') /\
    length result = Nat.min (Z.to_nat n) (length ws) /\
    (forall v, In v result -> exists w, In w ws /\ v = asdict w) /\
    (Z.of_nat (length ws) <= n -> Permutation result (map asdict ws))%Z.
Proof.
  intros H Hn.
  destruct (get_recent_workouts_run st self ws n H) as (st' & _ & Hrun).
  eexists _, st'. split; [exact Hrun|].
  unfold Py.slice_to. replace (0 <=? n)%Z with true
    by (symmetry; now apply Z.leb_le).
  pose proof (sort_perm (date_le true) ws) as Hp.
  split; [|split].
  - now rewrite length_map, length_take, sort_length.
  - intros v Hv. apply List.in_map_iff in Hv as (w & <- & Hw).
    exists w. split; [|reflexivity].
    apply (Permutation_in _ Hp). eapply firstn_in, Hw.
  - intros Hall. rewrite List.firstn_all2 by (rewrite sort_length; lia).
    now apply Permutation_map.
Qed.

(** X8: a negative count is a slice bound counted from the end:
    [get_recent_workouts] then drops the [-n] oldest sessions of the sorted
    list instead of limiting the result to a number of sessions. *)
Theorem get_recent_workouts_negative_count st self ws (n : Z) :
  holds st self ws ->
  (n < 0)%Z ->
  exists result st',
    get_recent_workouts self n st = (Return result, st') /\
    result = map asdict
               (firstn (length ws - Z.to_nat (- n)) (Py.sort (date_le true) ws)) /\
    length result = (length ws - Z.to_nat (- n))%nat.
Proof.
  intros H Hn.
  destruct (get_recent_workouts_negative st self ws n H Hn) as (st' & Hrun).
  eexists _, st'. split; [exact Hrun|]. split; [reflexivity|].
  rewrite length_map, length_take, sort_length. lia.
Qed.

(** X9: on a non-empty collection the report counts the sessions, lists
    the exercise names in the order of their first appearance, gives as
    overall volume the [sum] of the per-exercise volumes taken in that
    order (each the [total_volume] of the sessions of the exercise added
    up from 0 in collection order), and carries [min 5 (number of
    sessions)] recent workouts. *)
Theorem generate_report_fields st self ws :
  holds st self ws ->
  ws <> [] ->
  exists report st' recent,
    generate_report self st = (Return report, st') /\
    field report "total_sessions" = Some (VInt (Z.of_nat (length ws))) /\
    field report "exercises_tracked"
      = Some (VList (map VStr (first_occurrences (map exercise ws)))) /\
    field report "total_volume_overall"
      = Some (VInt
                (Py.sum
                   (map (fun x =>
                           fold_left Z.add
                             (map total_volume
                                (List.filter
                                   (fun w => String.eqb (exercise w) x) ws))
                             0%Z)
                      (first_occurrences (map exercise ws))))) /\
    field report "recent_workouts" = Some (VList recent) /\
    length recent = Nat.min 5 (length ws).
Proof.
  intros H Hne. destruct ws as [|w ws]; [congruence|].
  destruct (generate_report_run st self w ws H)
    as (start & finish & st' & _ & _ & _ & Hrun).
  eexists _, st', _. split; [exact Hrun|].
  unfold report_of, field. cbn [Py.lookup String.eqb Ascii.eqb Bool.eqb].
  split; [reflexivity|]. split; [now rewrite pr_keys_order|].
  split.
  { now rewrite volume_values. }
  split; [reflexivity|].
  unfold Py.slice_to. cbn [Z.leb Z.compare Z.to_nat Pos.to_nat Pos.iter_op].
  now rewrite length_map, length_take, sort_length.
Qed.

(** ** Loading *)

Lemma sessions_of_each (js : list JsonSession) (new : list WorkoutSession) :
  sessions_of js = Some new ->
  Forall2 (fun j w => session_of j = Some w) js new.
Proof.
  revert new. induction js as [|j js IH]; simpl; intros new.
  - intros [= <-]. constructor.
  - destruct (session_of j) as [w|] eqn:E; [|discriminate].
    destruct (sessions_of js) as [tl|]; [|discriminate].
    intros [= <-]. constructor; [exact E|now apply IH].
Qed.

Lemma load_data_holds st self ws fs (file_path : string) doc new :
  holds st self ws ->
  fs file_path = Parsed doc ->
  sessions_of (get_or (doc_sessions doc) []) = Some new ->
  exists st',
    load_data self fs file_path st = (Return tt, st') /\
    holds st' self (ws ++ new) /\
    sessions st' = sessions st ++ new /\
    console st' = console st ++ [Loaded (length ws + length new)].
Proof.
  intros (xs & Hl & Hs) E Hn.
  eexists. split; [apply (load_data_ok self st fs _ doc xs new E Hl Hn)|].
  split; [|split; [reflexivity|]].
  - destruct (holds_appended self st xs ws new Hl Hs) as (ys & Hy & Hys).
    exists ys. split; assumption.
  - cbn [console]. now rewrite (Forall2_length _ _ _ Hs).
Qed.

(** X10: a document all of whose records are complete is loaded whole:
    [load_data] returns, the sessions read from the records are appended to
    the collection after those it held, in document order, each with its
    [total_volume] computed, and the line printed gives the size of the
    whole collection, not the number of sessions just loaded. *)
Theorem load_data_complete_document st self ws fs (file_path : string) doc :
  holds st self ws ->
  fs file_path = Parsed doc ->
  List.Forall (fun j => ~ session_lacks_key j) (get_or (doc_sessions doc) []) ->
  exists new st',
    load_data self fs file_path st = (Return tt, st') /\
    holds st' self (ws ++ new) /\
    Forall2 (fun j w => session_of j = Some w)
      (get_or (doc_sessions doc) []) new /\
    List.Forall consistent new /\
    console st' = console st ++ [Loaded (length ws + length new)].
Proof.
  intros H E Hc.
  destruct (sessions_of_none_free _ Hc) as (new & Hn).
  destruct (load_data_holds st self ws fs file_path doc new H E Hn)
    as (st' & Hrun & Hh & _ & Hp).
  exists new, st'. split; [exact Hrun|]. split; [exact Hh|].
  split; [now apply sessions_of_each|].
  split; [now apply sessions_of_consistent in Hn|exact Hp].
Qed.

(** X11: a path with no file, or with text that is not JSON, is reported
    by one printed line; [load_data] returns normally and leaves every
    object, hence the collection, as it was. *)
Theorem load_data_unreadable_source st self fs (file_path : string) :
  fs file_path = Missing \/ fs file_path = Malformed ->
  exists st',
    load_data self fs file_path st = (Return tt, st') /\
    sessions st' = sessions st /\
    lists st' = lists st /\
    console st'
      = console st ++
        [match fs file_path with
         | Malformed => InvalidJSONNotice file_path
         | _ => FileNotFoundNotice file_path
         end] /\
    forall ws, holds st self ws -> holds st' self ws.
Proof.
  intros [E|E]; rewrite E.
  - eexists. split; [apply (load_data_missing self st fs _ E)|].
    repeat split. intros ws (xs & Hl & Hs). now exists xs.
  - eexists. split; [apply (load_data_malformed self st fs _ E)|].
    repeat split. intros ws (xs & Hl & Hs). now exists xs.
Qed.

(** X12: loading the same complete document twice appends its sessions
    twice: nothing in [load_data] looks for sessions already held. *)
Theorem load_data_twice_duplicates st self ws fs (file_path : string) doc new :
  holds st self ws ->
  fs file_path = Parsed doc ->
  sessions_of (get_or (doc_sessions doc) []) = Some new ->
  exists st1 st2,
    load_data self fs file_path st = (Return tt, st1) /\
    load_data self fs file_path st1 = (Return tt, st2) /\
    holds st2 self (ws ++ new ++ new) /\
    console st2
      = console st ++ [Loaded (length ws + length new);
                       Loaded (length ws + 2 * length new)].
Proof.
  intros H E Hn.
  destruct (load_data_holds st self ws fs file_path doc new H E Hn)
    as (st1 & Hrun1 & H1 & _ & Hp1).
  destruct (load_data_holds st1 self _ fs file_path doc new H1 E Hn)
    as (st2 & Hrun2 & H2 & _ & Hp2).
  exists st1, st2. split; [exact Hrun1|]. split; [exact Hrun2|].
  split; [now rewrite List.app_assoc|].
  rewrite Hp2, Hp1, <- List.app_assoc, length_app. simpl.
  do 4 f_equal. lia.
Qed.

Lemma build_set_missing st (s : JsonSet) (key : string) :
  missing_set_key s = Some key ->
  build_set s st = (Raise (KeyError key), st).
Proof.
  unfold missing_set_key, build_set.
  destruct (js_exercise s); [|now intros [= <-]].
  destruct (js_reps s); [|now intros [= <-]].
  destruct (js_weight s); [|now intros [= <-]].
  destruct (js_rpe s); [|now intros [= <-]].
  destruct (js_date s); [discriminate|now intros [= <-]].
Qed.

Lemma build_sets_missing st (before after : list JsonSet) (s : JsonSet)
    (l : list WorkoutSet) (key : string) :
  sets_of before = Some l ->
  missing_set_key s = Some key ->
  build_sets (before ++ s :: after) st = (Raise (KeyError key), st).
Proof.
  revert l. induction before as [|b before IH]; intros l; simpl.
  - intros _ Hk. now rewrite (bind_raise _ _ _ _ _ (build_set_missing st s key Hk)).
  - pose proof (build_set_run st b) as Hb.
    destruct (set_of b) as [x|]; [|discriminate].
    destruct (sets_of before) as [tl|] eqn:Et; [|discriminate].
    intros _ Hk. rewrite (bind_run _ _ _ _ _ Hb).
    now rewrite (bind_raise _ _ _ _ _ (IH tl eq_refl Hk)).
Qed.

Lemma load_loop_raises self (good : list JsonSession) :
  forall st xs gs bad rest e,
    lists st !! workouts self = Some xs ->
    sessions_of good = Some gs ->
    (forall st0, load_session self bad st0 = (Raise e, st0)) ->
    for_each (good ++ bad :: rest)
      (fun _ session => load_session self session) tt st
    = (Raise e, appended self st xs gs).
Proof.
  induction good as [|j good IH]; intros st xs gs bad rest e Hl; simpl.
  - intros [= <-] Hb.
    now rewrite (bind_raise _ _ _ _ _ (Hb st)), appended_nil.
  - destruct (session_of j) as [w|] eqn:E; [|discriminate].
    destruct (sessions_of good) as [tl|] eqn:Etl; [|discriminate].
    intros [= <-] Hb.
    rewrite (bind_run _ _ _ _ _ (load_session_ok self st xs j w Hl E)).
    rewrite (IH _ _ tl bad rest e (appended_lookup self st xs [w] Hl)
               eq_refl Hb).
    now rewrite appended_step.
Qed.

Lemma load_data_raises self st fs (file_path : string) doc xs good bad rest gs
    (key : string) :
  fs file_path = Parsed doc ->
  lists st !! workouts self = Some xs ->
  get_or (doc_sessions doc) [] = good ++ bad :: rest ->
  sessions_of good = Some gs ->
  (forall st0, load_session self bad st0 = (Raise (KeyError key), st0)) ->
  load_data self fs file_path st
  = (Raise (KeyError key), appended self st xs gs).
Proof.
  intros E Hl Hd Hg Hb. unfold load_data.
  rewrite (try_raise _ _ st (appended self st xs gs) (KeyError key));
    [reflexivity|].
  rewrite (bind_run _ _ _ _ _ (open_json_parsed st fs _ _ E)).
  rewrite Hd.
  now rewrite (bind_raise _ _ _ _ _
                 (load_loop_raises self good st xs gs bad rest _ Hl Hg Hb)).
Qed.

(** X13: which key the [KeyError] names.  The sets of a session record
    are read before its own keys, each set in the order exercise, reps,
    weight, rpe, date: the error names the first key lacking in the first
    defective set, whatever the record itself lacks; with all sets
    complete it names "date" when the record has no date, also when it has
    no exercise either, and "exercise" when only that is lacking. *)
Theorem load_data_key_reported st self ws fs (file_path : string) doc
    good bad rest :
  holds st self ws ->
  fs file_path = Parsed doc ->
  get_or (doc_sessions doc) [] = good ++ bad :: rest ->
  List.Forall (fun j => ~ session_lacks_key j) good ->
  (forall before s after l key,
     get_or (jw_sets bad) [] = before ++ s :: after ->
     sets_of before = Some l ->
     missing_set_key s = Some key ->
     fst (load_data self fs file_path st) = Raise (KeyError key)) /\
  (forall l,
     sets_of (get_or (jw_sets bad) []) = Some l ->
     jw_date bad = None ->
     fst (load_data self fs file_path st) = Raise (KeyError "date")) /\
  (forall l d,
     sets_of (get_or (jw_sets bad) []) = Some l ->
     jw_date bad = Some d ->
     jw_exercise bad = None ->
     fst (load_data self fs file_path st) = Raise (KeyError "exercise")).
Proof.
  intros (xs & Hl & Hs) E Hd Hgood.
  destruct (sessions_of_none_free good Hgood) as (gs & Hg).
  split; [|split].
  - intros before s after l key Hsets Hb Hk.
    rewrite (load_data_raises self st fs file_path doc xs good bad rest gs key
               E Hl Hd Hg); [reflexivity|].
    intros st0. unfold load_session. rewrite Hsets.
    now rewrite (bind_raise _ _ _ _ _
                   (build_sets_missing st0 before after s l key Hb Hk)).
  - intros l Hsets Hdate.
    rewrite (load_data_raises self st fs file_path doc xs good bad rest gs
               "date" E Hl Hd Hg); [reflexivity|].
    intros st0. unfold load_session.
    pose proof (build_sets_run st0 (get_or (jw_sets bad) [])) as Hb.
    rewrite Hsets in Hb. rewrite (bind_run _ _ _ _ _ Hb), Hdate. reflexivity.
  - intros l d Hsets Hdate Hex.
    rewrite (load_data_raises self st fs file_path doc xs good bad rest gs
               "exercise" E Hl Hd Hg); [reflexivity|].
    intros st0. unfold load_session.
    pose proof (build_sets_run st0 (get_or (jw_sets bad) [])) as Hb.
    rewrite Hsets in Hb. rewrite (bind_run _ _ _ _ _ Hb), Hdate, Hex.
    reflexivity.
Qed.

(** ** Adding a workout *)

Lemma recomputed_consistent (w : WorkoutSession) :
  consistent w -> recomputed w = w.
Proof.
  unfold consistent, recomputed. destruct w as [d e s t m]. simpl.
  now intros ->.
Qed.

(** Writing the recomputed total into one object changes no consistent
    session. *)
Lemma recompute_keeps st (a : addr) (w : WorkoutSession) xs ws :
  sessions st !! a = Some w ->
  Forall2 (fun b v => sessions st !! b = Some v) xs ws ->
  List.Forall consistent ws ->
  Forall2 (fun b v => <[a := recomputed w]> (sessions st) !! b = Some v) xs ws.
Proof.
  intros Ha Hs. induction Hs as [|b v xs ws Hb _ IH]; intros Hc; constructor.
  - cbv beta in Hb. destruct (Nat.eq_dec a b) as [<-|Hne].
    + assert (Hv : Some w = Some v) by (rewrite <- Ha; exact Hb).
      injection Hv as <-.
      rewrite recomputed_consistent by now apply List.Forall_inv in Hc.
      apply list_lookup_insert_eq. now apply lookup_lt_Some in Ha.
    + now rewrite list_lookup_insert_ne.
  - apply IH. now apply List.Forall_inv_tail in Hc.
Qed.

Lemma add_workout_holds st self ws (a : addr) (w : WorkoutSession) :
  holds st self ws ->
  List.Forall consistent ws ->
  sessions st !! a = Some w ->
  exists st',
    add_workout self a st = (Return tt, st') /\
    holds st' self (ws ++ [recomputed w]) /\
    console st' = console st.
Proof.
  intros (xs & Hl & Hs) Hc Ha.
  eexists. split; [apply (add_workout_run self st xs a w Ha Hl)|].
  split; [|reflexivity].
  exists (xs ++ [a]). cbn [lists sessions]. split.
  - apply list_lookup_insert_eq. now apply lookup_lt_Some in Hl.
  - apply Forall2_app; [now apply recompute_keeps|].
    constructor; [|constructor].
    apply list_lookup_insert_eq. now apply lookup_lt_Some in Ha.
Qed.

(** X14: [add_workout] appends exactly one entry, at the end, and leaves
    the earlier entries as they were, also when the object handed over is
    already in the collection; the entry has the fields of that object
    except [total_volume], which is what [calculate_total_volume] returns
    for its sets, whatever value the caller had put there; nothing is
    printed. *)
Theorem add_workout_appends st self ws (a : addr) (w : WorkoutSession) :
  holds st self ws ->
  List.Forall consistent ws ->
  sessions st !! a = Some w ->
  exists st' w',
    add_workout self a st = (Return tt, st') /\
    holds st' self (ws ++ [w']) /\
    sessions st' !! a = Some w' /\
    date w' = date w /\ exercise w' = exercise w /\ sets w' = sets w /\
    duration_minutes w' = duration_minutes w /\
    total_volume w' = calculate_total_volume (sets w) /\
    console st' = console st.
Proof.
  intros H Hc Ha. pose proof H as (xs & Hl & _).
  destruct (add_workout_holds st self ws a w H Hc Ha) as (st' & Hrun & Hh & Hp).
  exists st', (recomputed w). split; [exact Hrun|]. split; [exact Hh|].
  split.
  { rewrite (add_workout_run self st xs a w Ha Hl) in Hrun.
    injection Hrun as <-. cbn [sessions].
    apply list_lookup_insert_eq. now apply lookup_lt_Some in Ha. }
  repeat (split; [reflexivity|]). exact Hp.
Qed.

(** X15: what [add_workout] does to the two per-exercise tables: the
    personal record of the exercise of the new session becomes the larger
    of the old record (0 if none) and the session's maximum weight, its
    volume becomes the old volume (0 if none) plus what
    [calculate_total_volume] returns for the session's sets, and the other
    entries stay; so no personal record ever goes down. *)
Theorem add_workout_updates_tables st self ws (a : addr) (w : WorkoutSession) :
  holds st self ws ->
  List.Forall consistent ws ->
  sessions st !! a = Some w ->
  exists st' prs volumes prs' volumes',
    add_workout self a st = (Return tt, st') /\
    get_personal_records self None st = (Return prs, st) /\
    get_volume_by_exercise self st = (Return volumes, st) /\
    get_personal_records self None st' = (Return prs', st') /\
    get_volume_by_exercise self st' = (Return volumes', st') /\
    prs' = Py.set prs (exercise w)
             (Z.max (Py.get prs (exercise w) 0%Z) (max_weight w)) /\
    volumes' = Py.set volumes (exercise w)
                 (Py.get volumes (exercise w) 0%Z
                  + calculate_total_volume (sets w))%Z /\
    (forall x, (Py.get prs x 0 <= Py.get prs' x 0)%Z).
Proof.
  intros H Hc Ha.
  destruct (add_workout_holds st self ws a w H Hc Ha) as (st' & Hrun & Hh & _).
  exists st', (fold_left (pr_step None) ws []), (fold_left volume_step ws []),
    (fold_left (pr_step None) (ws ++ [recomputed w]) []),
    (fold_left volume_step (ws ++ [recomputed w]) []).
  split; [exact Hrun|].
  split; [apply (get_personal_records_run st self ws None H)|].
  split; [apply (get_volume_by_exercise_run st self ws H)|].
  split; [apply (get_personal_records_run st' self _ None Hh)|].
  split; [apply (get_volume_by_exercise_run st' self _ Hh)|].
  rewrite !fold_left_app. cbn [fold_left].
  split; [reflexivity|]. split; [reflexivity|].
  intros x. rewrite pr_step_unfiltered. cbn [recomputed exercise].
  destruct (String.eqb (exercise w) x) eqn:E.
  - apply String.eqb_eq in E. subst x. rewrite get_set_eq. lia.
  - apply String.eqb_neq in E. rewrite (get_set_ne _ _ _ _ _ E). lia.
Qed.

Lemma load_data_unreadable_source_run st self fs (file_path : string) :
  fs file_path = Missing \/ fs file_path = Malformed ->
  exists notice,
    load_data self fs file_path st
    = (Return tt, mkStore (sessions st) (lists st) (console st ++ [notice])).
Proof.
  intros [E|E]; eexists.
  - apply (load_data_missing self st fs _ E).
  - apply (load_data_malformed self st fs _ E).
Qed.

(** ** Construction *)

Lemma init_fresh st0 (data_file : option string) :
  holds (mkStore (sessions st0) (lists st0 ++ [[]]) (console st0))
    (mkAnalyzer (length (lists st0)) data_file) [].
Proof.
  exists []. split; [|constructor]. now apply list_lookup_middle.
Qed.

Lemma init_run fs (data_file : option string) st0 :
  __init__ fs data_file st0
  = let self := mkAnalyzer (length (lists st0)) data_file in
    let st := mkStore (sessions st0) (lists st0 ++ [[]]) (console st0) in
    if Py.truthy data_file
    then match load_data self fs (get_or data_file "") st with
         | (Return _, st') => (Return self, st')
         | (Raise e, st') => (Raise e, st')
         | (Stuck, st') => (Stuck, st')
         end
    else (Return self, st).
Proof.
  unfold __init__. rewrite (bind_run _ _ _ _ _ (new_list_run st0 [])).
  cbn zeta. destruct (Py.truthy data_file); [|reflexivity].
  unfold bind. now destruct (load_data _ fs (get_or data_file "") _) as [[[]| |] st2].
Qed.

Lemma generate_report_empty st self :
  holds st self [] ->
  generate_report self st
  = (Return (error_result "No workout data available"), st).
Proof.
  intros (xs & Hl & Hs). inversion Hs; subst. unfold generate_report.
  now rewrite (bind_run _ _ _ _ _ (read_list_run st _ _ Hl)).
Qed.

Lemma holds_console st self ws (out : list Notice) :
  holds st self ws -> holds (mkStore (sessions st) (lists st) out) self ws.
Proof. intros (xs & Hl & Hs). now exists xs. Qed.

(** X16: built with no path, with an empty path, or with a path where
    there is no file or no JSON, an analyzer is returned all the same, with
    a collection of its own that is empty; the file system is not consulted
    for an absent or empty path, and nothing is printed then; the session
    objects and list objects that existed are untouched, and
    [generate_report] on the new analyzer answers with the error result. *)
Theorem init_without_data fs (path : option string) st0 :
  path = None \/ path = Some "" \/
  (exists p, path = Some p /\ (fs p = Missing \/ fs p = Malformed)) ->
  exists self st',
    __init__ fs path st0 = (Return self, st') /\
    data_file self = path /\
    holds st' self [] /\
    sessions st' = sessions st0 /\
    (forall l xs, lists st0 !! l = Some xs -> lists st' !! l = Some xs) /\
    (path = None \/ path = Some "" -> console st' = console st0) /\
    generate_report self st'
      = (Return (error_result "No workout data available"), st').
Proof.
  intros Hcase. rewrite init_run. cbn zeta.
  set (self := mkAnalyzer (length (lists st0)) path).
  set (st := mkStore (sessions st0) (lists st0 ++ [[]]) (console st0)).
  pose proof (init_fresh st0 path) as H0. fold self st in H0.
  assert (Hold : forall l xs, lists st0 !! l = Some xs ->
                              (lists st0 ++ [[]]) !! l = Some xs).
  { intros l xs Hx. now apply lookup_app_l_Some. }
  destruct (Py.truthy path) eqn:Et.
  - destruct Hcase as [->|[->|(p & -> & Hp)]]; try discriminate Et.
    cbn [get_or].
    destruct (load_data_unreadable_source_run st self fs p Hp)
      as (notice & ->).
    exists self, (mkStore (sessions st) (lists st) (console st ++ [notice])).
    split; [reflexivity|]. split; [reflexivity|].
    pose proof (holds_console st self [] (console st ++ [notice]) H0) as H1.
    split; [exact H1|]. split; [reflexivity|]. split; [exact Hold|].
    split.
    { intros [E|E]; [discriminate E|]. injection E as ->. discriminate Et. }
    now apply generate_report_empty.
  - exists self, st. split; [reflexivity|]. split; [reflexivity|].
    split; [exact H0|]. split; [reflexivity|]. split; [exact Hold|].
    split; [reflexivity|]. now apply generate_report_empty.
Qed.

(** X17: built with a path to a document, an analyzer holds the sessions
    of the document when all its records are complete; when a record lacks
    a required key the construction itself fails with [KeyError] and no
    analyzer is returned. *)
Theorem init_with_document fs (p : string) doc st0 :
  p <> "" ->
  fs p = Parsed doc ->
  (forall new,
     sessions_of (get_or (doc_sessions doc) []) = Some new ->
     exists self st',
       __init__ fs (Some p) st0 = (Return self, st') /\
       holds st' self new /\
       console st' = console st0 ++ [Loaded (length new)]) /\
  (forall good bad rest,
     get_or (doc_sessions doc) [] = good ++ bad :: rest ->
     List.Forall (fun j => ~ session_lacks_key j) good ->
     session_lacks_key bad ->
     exists key,
       In key required_keys /\
       fst (__init__ fs (Some p) st0) = Raise (KeyError key)).
Proof.
  intros Hp E. rewrite init_run. cbn zeta.
  rewrite (truthy_nonempty p Hp). cbn [get_or].
  set (self := mkAnalyzer (length (lists st0)) (Some p)).
  set (st := mkStore (sessions st0) (lists st0 ++ [[]]) (console st0)).
  pose proof (init_fresh st0 (Some p)) as H0. fold self st in H0.
  split.
  - intros new Hn.
    destruct (load_data_holds st self [] fs p doc new H0 E Hn)
      as (st' & -> & Hh & _ & Hc).
    exists self, st'. split; [reflexivity|]. split; [exact Hh|exact Hc].
  - intros good bad rest Hd Hgood Hbad.
    destruct (sessions_of_none_free good Hgood) as (gs & Hg).
    apply session_of_none in Hbad. pose proof H0 as (xs & Hl & _).
    destruct (load_data_bad self st fs p doc xs good bad rest gs
                E Hl Hd Hg Hbad) as (key & Hk & ->).
    exists key. split; [exact Hk|reflexivity].
Qed.

(** ** Two analyzers *)

Lemma holds_other_list st self ws (l : addr) (ys : list addr)
    (more : list WorkoutSession) (out : list Notice) :
  holds st self ws ->
  l <> workouts self ->
  holds (mkStore (sessions st ++ more) (<[l := ys]> (lists st)) out) self ws.
Proof.
  intros (xs & Hl & Hs) Hne. exists xs. cbn [lists sessions]. split.
  - now rewrite list_lookup_insert_ne.
  - eapply Forall2_impl; [exact Hs|]. intros a w Ha.
    now apply lookup_app_l_Some.
Qed.

(** X18: analyzers do not share their collections: whatever is called
    on one analyzer (adding, loading, any query, or the caller building a
    session), the collection of another analyzer holds the same sessions,
    in the same order, with the same contents. *)
Theorem analyzers_are_independent st self other ws ws' (c : Call) :
  holds st self ws ->
  holds st other ws' ->
  List.Forall consistent ws' ->
  workouts self <> workouts other ->
  holds (snd (perform self c st)) other ws'.
Proof.
  intros H H' Hc Hne. destruct (is_query c) eqn:Hq.
  { destruct (query_untouched st self ws c H Hq) as (st' & -> & Hu).
    now apply (untouched_holds st). }
  pose proof H as (xs & Hl & Hs).
  destruct c; try discriminate Hq; cbn [perform].
  - unfold discard. cbn [new_session snd].
    destruct H' as (ys & Hy & Hys). exists ys. split; [exact Hy|].
    eapply Forall2_impl; [exact Hys|]. intros a v Ha.
    now apply lookup_app_l_Some.
  - destruct (sessions st !! workout) as [w|] eqn:Ha.
    2:{ now rewrite add_workout_stuck. }
    rewrite (add_workout_run self st xs workout w Ha Hl). cbn [snd].
    destruct H' as (ys & Hy & Hys). exists ys. cbn [lists sessions]. split.
    + now rewrite list_lookup_insert_ne.
    + now apply recompute_keeps.
  - destruct (fs file_path) as [| |doc] eqn:E.
    + rewrite (load_data_missing _ _ _ _ E). now apply holds_console.
    + rewrite (load_data_malformed _ _ _ _ E). now apply holds_console.
    + destruct (sessions_of_split (get_or (doc_sessions doc) []))
        as [(new & Hn)|(good & bad & rest & gs & Hd & Hg & Hb)].
      * rewrite (load_data_ok self st fs _ doc xs new E Hl Hn).
        now apply holds_other_list.
      * destruct (load_data_bad self st fs _ doc xs good bad rest gs
                    E Hl Hd Hg Hb) as (key & _ & ->).
        now apply holds_other_list.
Qed.

(** * Worked examples of the further properties *)

Ltac demo_consistent := repeat constructor.

Lemma get_personal_records_filtered_witness :
  holds demo_store demo_self [demo_w1; demo_w2; demo_w3] /\
  "Deadlift" <> "" /\
  get_personal_records demo_self (Some "Deadlift") demo_store
    = (Return [("Deadlift", 0%Z)], demo_store).
Proof.
  assert (H : holds demo_store demo_self [demo_w1; demo_w2; demo_w3])
    by demo_holds.
  assert (Hx : "Deadlift" <> "") by discriminate.
  split; [exact H|]. split; [exact Hx|].
  destruct (get_personal_records_filtered demo_store demo_self _ "Deadlift" H Hx)
    as (prs & _ & _ & Hnone & _).
  apply Hnone. intros w [<-|[<-|[<-|[]]]]; discriminate.
Defined.

Lemma personal_record_is_floored_maximum_witness :
  holds demo_store demo_self [demo_w1; demo_w2; demo_w3] /\
  exists prs,
    get_personal_records demo_self None demo_store = (Return prs, demo_store) /\
    forall v, Py.lookup prs "Squat" = Some v -> v = 120%Z.
Proof.
  assert (H : holds demo_store demo_self [demo_w1; demo_w2; demo_w3])
    by demo_holds.
  split; [exact H|].
  destruct (personal_record_is_floored_maximum demo_store demo_self _ H)
    as (prs & Hrun & Hv).
  exists prs. split; [exact Hrun|]. intros v Hl. now destruct (Hv _ _ Hl).
Defined.

Lemma get_volume_by_exercise_correct_witness :
  holds demo_store demo_self [demo_w1; demo_w2; demo_w3] /\
  exists volumes,
    get_volume_by_exercise demo_self demo_store = (Return volumes, demo_store) /\
    Py.keys volumes = ["Squat"; "Bench"] /\
    Py.values volumes = [860%Z; 480%Z].
Proof.
  assert (H : holds demo_store demo_self [demo_w1; demo_w2; demo_w3])
    by demo_holds.
  split; [exact H|].
  destruct (get_volume_by_exercise_correct demo_store demo_self _ H)
    as (volumes & Hrun & Hk & _ & _ & _ & Hv).
  exists volumes. split; [exact Hrun|]. split; [exact Hk|].
  rewrite Hk in Hv. exact Hv.
Defined.

Lemma records_and_volumes_share_keys_witness :
  holds demo_store demo_self [demo_w1; demo_w2; demo_w3] /\
  exists prs volumes,
    get_personal_records demo_self None demo_store = (Return prs, demo_store) /\
    get_volume_by_exercise demo_self demo_store = (Return volumes, demo_store) /\
    Py.keys prs = Py.keys volumes.
Proof.
  assert (H : holds demo_store demo_self [demo_w1; demo_w2; demo_w3])
    by demo_holds.
  split; [exact H|].
  destruct (records_and_volumes_share_keys demo_store demo_self _ H)
    as (prs & volumes & H1 & H2 & H3 & _).
  now exists prs, volumes.
Defined.

Lemma progression_date_range_witness :
  holds demo_store demo_self [demo_w1; demo_w2; demo_w3] /\
  List.filter (fun w => String.eqb (exercise w) "Squat")
    [demo_w1; demo_w2; demo_w3] <> [] /\
  exists result st' start finish,
    calculate_progression demo_self "Squat" 30 demo_store = (Return result, st') /\
    field result "date_range"
      = Some (VDict [("start", VStr start); ("end", VStr finish)]) /\
    Py.str_le start "2026-01-01" = true /\
    Py.str_le "2026-01-03" finish = true.
Proof.
  assert (H : holds demo_store demo_self [demo_w1; demo_w2; demo_w3])
    by demo_holds.
  assert (Hne : List.filter (fun w => String.eqb (exercise w) "Squat")
                  [demo_w1; demo_w2; demo_w3] <> []) by discriminate.
  split; [exact H|]. split; [exact Hne|].
  destruct (progression_date_range demo_store demo_self _ "Squat" 30 H Hne)
    as (result & st' & start & finish & Hrun & Hf & Hb & _).
  exists result, st', start, finish. split; [exact Hrun|]. split; [exact Hf|].
  split.
  - apply (Hb demo_w1); [now left|reflexivity].
  - apply (Hb demo_w3); [right; right; now left|reflexivity].
Defined.

Lemma progression_accounts_for_record_witness :
  holds demo_store demo_self [demo_w1; demo_w2; demo_w3] /\
  "Squat" <> "" /\
  exists record,
    get_personal_records demo_self (Some "Squat") demo_store
      = (Return [("Squat", record)], demo_store) /\
    (0 <= record)%Z.
Proof.
  assert (H : holds demo_store demo_self [demo_w1; demo_w2; demo_w3])
    by demo_holds.
  assert (Hx : "Squat" <> "") by discriminate.
  split; [exact H|]. split; [exact Hx|].
  destruct (progression_accounts_for_record demo_store demo_self
              _ "Squat" 30 H Hx)
    as (sorted & st' & record & _ & _ & _ & Hpr & H0 & _).
  now exists record.
Defined.

Lemma get_recent_workouts_size_witness :
  holds demo_store demo_self [demo_w1; demo_w2; demo_w3] /\
  (0 <= 7)%Z /\
  exists result st',
    get_recent_workouts demo_self 7 demo_store = (Return result, st') /\
    length result = 3%nat.
Proof.
  assert (H : holds demo_store demo_self [demo_w1; demo_w2; demo_w3])
    by demo_holds.
  split; [exact H|]. split; [lia|].
  destruct (get_recent_workouts_size demo_store demo_self _ 7 H)
    as (result & st' & Hrun & Hlen & _); [lia|].
  now exists result, st'.
Defined.

Lemma get_recent_workouts_negative_count_witness :
  holds demo_store demo_self [demo_w1; demo_w2; demo_w3] /\
  (-1 < 0)%Z /\
  exists result st',
    get_recent_workouts demo_self (-1) demo_store = (Return result, st') /\
    result = [asdict demo_w2; asdict demo_w3].
Proof.
  assert (H : holds demo_store demo_self [demo_w1; demo_w2; demo_w3])
    by demo_holds.
  split; [exact H|]. split; [lia|].
  destruct (get_recent_workouts_negative_count demo_store demo_self _ (-1) H)
    as (result & st' & Hrun & Hres & _); [lia|].
  now exists result, st'.
Defined.

Lemma generate_report_fields_witness :
  holds demo_store demo_self [demo_w1; demo_w2; demo_w3] /\
  [demo_w1; demo_w2; demo_w3] <> [] /\
  exists report st',
    generate_report demo_self demo_store = (Return report, st') /\
    field report "exercises_tracked" = Some (VList [VStr "Squat"; VStr "Bench"]).
Proof.
  assert (H : holds demo_store demo_self [demo_w1; demo_w2; demo_w3])
    by demo_holds.
  assert (Hne : [demo_w1; demo_w2; demo_w3] <> []) by discriminate.
  split; [exact H|]. split; [exact Hne|].
  destruct (generate_report_fields demo_store demo_self _ H Hne)
    as (report & st' & recent & Hrun & _ & Hex & _).
  now exists report, st'.
Defined.

Lemma load_data_complete_document_witness :
  holds empty_store demo_self [] /\
  demo_complete_fs "workouts.json" = Parsed demo_complete_document /\
  exists new st',
    load_data demo_self demo_complete_fs "workouts.json" empty_store
      = (Return tt, st') /\
    holds st' demo_self ([] ++ new) /\
    console st' = console empty_store ++ [Loaded (length (@nil WorkoutSession) + length new)].
Proof.
  assert (H : holds empty_store demo_self []) by demo_holds.
  split; [exact H|]. split; [reflexivity|].
  destruct (load_data_complete_document empty_store demo_self []
              demo_complete_fs "workouts.json" demo_complete_document
              H eq_refl) as (new & st' & Hrun & Hh & _ & _ & Hc).
  - repeat constructor; intros Hl; apply session_of_none in Hl; discriminate.
  - now exists new, st'.
Defined.

Lemma load_data_unreadable_source_witness :
  ((fun _ : string => Missing) "nowhere.json" = Missing \/
   (fun _ : string => Missing) "nowhere.json" = Malformed) /\
  exists st',
    load_data demo_self (fun _ => Missing) "nowhere.json" demo_store
      = (Return tt, st') /\
    holds st' demo_self [demo_w1; demo_w2; demo_w3].
Proof.
  assert (H : holds demo_store demo_self [demo_w1; demo_w2; demo_w3])
    by demo_holds.
  split; [now left|].
  destruct (load_data_unreadable_source demo_store demo_self
              (fun _ => Missing) "nowhere.json" (or_introl eq_refl))
    as (st' & Hrun & _ & _ & _ & Hh).
  exists st'. split; [exact Hrun|]. now apply Hh.
Defined.

Lemma load_data_twice_duplicates_witness :
  holds empty_store demo_self [] /\
  exists new st1 st2,
    load_data demo_self demo_complete_fs "workouts.json" empty_store
      = (Return tt, st1) /\
    load_data demo_self demo_complete_fs "workouts.json" st1 = (Return tt, st2) /\
    holds st2 demo_self ([] ++ new ++ new) /\
    length new = 2%nat.
Proof.
  assert (H : holds empty_store demo_self []) by demo_holds.
  split; [exact H|].
  destruct (load_data_twice_duplicates empty_store demo_self []
              demo_complete_fs "workouts.json" demo_complete_document
              _ H eq_refl eq_refl) as (st1 & st2 & H1 & H2 & Hh & _).
  eexists _, st1, st2. split; [exact H1|]. split; [exact H2|].
  split; [exact Hh|reflexivity].
Defined.

Lemma load_data_key_reported_witness :
  holds empty_store demo_self [] /\
  missing_set_key (demo_json_set None) = Some "reps" /\
  fst (load_data demo_self demo_fs "workouts.json" empty_store)
    = Raise (KeyError "reps").
Proof.
  assert (H : holds empty_store demo_self []) by demo_holds.
  split; [exact H|]. split; [reflexivity|].
  destruct (load_data_key_reported empty_store demo_self [] demo_fs
              "workouts.json" demo_document
              [demo_json_session "2026-01-01" (Some 5%Z)]
              (demo_json_session "2026-01-02" None)
              [demo_json_session "2026-01-03" (Some 4%Z)]
              H eq_refl eq_refl) as (Hset & _ & _).
  - repeat constructor; intros Hl; apply session_of_none in Hl; discriminate.
  - apply (Hset [] (demo_json_set None) [] [] "reps"); reflexivity.
Defined.

Lemma add_workout_appends_witness :
  holds demo_store demo_self [demo_w1; demo_w2; demo_w3] /\
  List.Forall consistent [demo_w1; demo_w2; demo_w3] /\
  sessions demo_store !! 0%nat = Some demo_w1 /\
  exists st' w',
    add_workout demo_self 0 demo_store = (Return tt, st') /\
    holds st' demo_self ([demo_w1; demo_w2; demo_w3] ++ [w']) /\
    total_volume w' = 860%Z.
Proof.
  assert (H : holds demo_store demo_self [demo_w1; demo_w2; demo_w3])
    by demo_holds.
  assert (Hc : List.Forall consistent [demo_w1; demo_w2; demo_w3])
    by demo_consistent.
  split; [exact H|]. split; [exact Hc|]. split; [reflexivity|].
  destruct (add_workout_appends demo_store demo_self _ 0%nat demo_w1 H Hc
              eq_refl)
    as (st' & w' & Hrun & Hh & _ & _ & _ & _ & _ & Hv & _).
  exists st', w'. split; [exact Hrun|]. split; [exact Hh|exact Hv].
Defined.

Lemma add_workout_updates_tables_witness :
  holds demo_store demo_self [demo_w1; demo_w2; demo_w3] /\
  List.Forall consistent [demo_w1; demo_w2; demo_w3] /\
  sessions demo_store !! 1%nat = Some demo_w2 /\
  exists st' volumes volumes',
    add_workout demo_self 1 demo_store = (Return tt, st') /\
    get_volume_by_exercise demo_self demo_store = (Return volumes, demo_store) /\
    get_volume_by_exercise demo_self st' = (Return volumes', st') /\
    volumes' = Py.set volumes "Bench" (Py.get volumes "Bench" 0%Z + 480)%Z.
Proof.
  assert (H : holds demo_store demo_self [demo_w1; demo_w2; demo_w3])
    by demo_holds.
  assert (Hc : List.Forall consistent [demo_w1; demo_w2; demo_w3])
    by demo_consistent.
  split; [exact H|]. split; [exact Hc|]. split; [reflexivity|].
  destruct (add_workout_updates_tables demo_store demo_self _ 1%nat demo_w2
              H Hc eq_refl)
    as (st' & prs & volumes & prs' & volumes' & Hrun & _ & Hv & _ & Hv'
        & _ & Hupd & _).
  now exists st', volumes, volumes'.
Defined.

Lemma init_without_data_witness :
  (Some "nowhere.json" = None \/ Some "nowhere.json" = Some "" \/
   exists p, Some "nowhere.json" = Some p /\
             ((fun _ : string => Missing) p = Missing \/
              (fun _ : string => Missing) p = Malformed)) /\
  exists self st',
    __init__ (fun _ => Missing) (Some "nowhere.json") demo_store
      = (Return self, st') /\
    holds st' self [] /\
    holds st' demo_self [demo_w1; demo_w2; demo_w3].
Proof.
  assert (H : holds demo_store demo_self [demo_w1; demo_w2; demo_w3])
    by demo_holds.
  assert (Hcase : Some "nowhere.json" = None \/ Some "nowhere.json" = Some "" \/
                  exists p, Some "nowhere.json" = Some p /\
                            ((fun _ : string => Missing) p = Missing \/
                             (fun _ : string => Missing) p = Malformed)).
  { right. right. exists "nowhere.json". split; [reflexivity|now left]. }
  split; [exact Hcase|].
  destruct (init_without_data (fun _ => Missing) (Some "nowhere.json")
              demo_store Hcase)
    as (self & st' & Hrun & _ & Hh & Hs & Hl & _).
  exists self, st'. split; [exact Hrun|]. split; [exact Hh|].
  destruct H as (xs & Hx & Hxs). exists xs. split; [now apply Hl|].
  now rewrite Hs.
Defined.

Lemma init_with_document_witness :
  "workouts.json" <> "" /\
  demo_complete_fs "workouts.json" = Parsed demo_complete_document /\
  exists self st' new,
    __init__ demo_complete_fs (Some "workouts.json") (mkStore [] [] [])
      = (Return self, st') /\
    holds st' self new /\ length new = 2%nat.
Proof.
  assert (Hp : "workouts.json" <> "") by discriminate.
  split; [exact Hp|]. split; [reflexivity|].
  destruct (init_with_document demo_complete_fs "workouts.json"
              demo_complete_document (mkStore [] [] []) Hp eq_refl)
    as [Hok _].
  destruct (Hok _ eq_refl) as (self & st' & Hrun & Hh & _).
  eexists self, st', _. split; [exact Hrun|]. split; [exact Hh|reflexivity].
Defined.

Lemma analyzers_are_independent_witness :
  holds demo_pair_store demo_other [] /\
  holds demo_pair_store demo_self [demo_w1] /\
  List.Forall consistent [demo_w1] /\
  workouts demo_other <> workouts demo_self /\
  holds (snd (perform demo_other (AddWorkout 0) demo_pair_store))
    demo_self [demo_w1].
Proof.
  assert (H : holds demo_pair_store demo_other []) by demo_holds.
  assert (H' : holds demo_pair_store demo_self [demo_w1]) by demo_holds.
  assert (Hc : List.Forall consistent [demo_w1]) by demo_consistent.
  assert (Hne : workouts demo_other <> workouts demo_self) by discriminate.
  split; [exact H|]. split; [exact H'|]. split; [exact Hc|].
  split; [exact Hne|].
  exact (analyzers_are_independent demo_pair_store demo_other demo_self
           [] [demo_w1] (AddWorkout 0) H H' Hc Hne).
Defined.
